(** * gardener-extension-shoot-traefik: the reconcile, deploy and delete paths

    A shallow embedding of [pkg/traefik] (the Deployer: resource generation,
    Deploy, Delete) and of [pkg/actuator] (Reconcile and its aliases), with
    the Kubernetes client the code talks to modelled as an in-memory store
    that is threaded through every call together with a trace of the
    effects the code performs (client calls, image-vector lookups, log
    lines, metric increments).

    After them come the constructor of the actuator ([New] and its options),
    the shoot validator of the admission webhook (package [validator])
    and the string helpers of the deployer's tests. *)

From stdpp Require Import base gmap strings list fin_maps pretty.
From Stdlib Require Import ZArith.
From Stdlib.Strings Require Import Byte.

Open Scope string_scope.
Open Scope list_scope.

(** ** Go errors *)

Module errors.

(** [metav1.StatusReason]: the reasons the code distinguishes, and one for
    every other answer of the API server. *)
Inductive StatusReason :=
| StatusReasonAlreadyExists
| StatusReasonNotFound
| StatusReasonConflict
| StatusReasonUnknown.

(** A Go [error] value. [New] is [errors.New] (and any opaque error of a
    library), [StatusError] is [apierrors.StatusError], and
    [Errorf before cause after] is [fmt.Errorf] with one [%w] verb: the
    rendered text before the verb, the wrapped error, and the text after. *)
Inductive error :=
| New (text : string)
| StatusError (reason : StatusReason) (text : string)
| Errorf (before : string) (cause : error) (after : string).

#[global] Instance StatusReason_eq_dec : EqDecision StatusReason.
Proof. solve_decision. Defined.

#[global] Instance error_eq_dec : EqDecision error.
Proof. solve_decision. Defined.

(** [err.Error()]. *)
Fixpoint Error (e : error) : string :=
  match e with
  | New text => text
  | StatusError _ text => text
  | Errorf before cause after => before +:+ Error cause +:+ after
  end.

(** [errors.Is]: the chain of [%w] wrappers is searched for the target. *)
Fixpoint Is (e target : error) : bool :=
  bool_decide (e = target) ||
  match e with
  | Errorf _ cause _ => Is cause target
  | _ => false
  end.

(** [apierrors.ReasonForError]: the reason of the first status error in the
    chain, [StatusReasonUnknown] when there is none. *)
Fixpoint ReasonForError (e : error) : StatusReason :=
  match e with
  | StatusError reason _ => reason
  | Errorf _ cause _ => ReasonForError cause
  | New _ => StatusReasonUnknown
  end.

Definition IsAlreadyExists (e : error) : bool :=
  bool_decide (ReasonForError e = StatusReasonAlreadyExists).

Definition IsNotFound (e : error) : bool :=
  bool_decide (ReasonForError e = StatusReasonNotFound).

(** [client.IgnoreAlreadyExists] and [client.IgnoreNotFound]: [None] is Go's
    [nil]. *)
Definition IgnoreAlreadyExists (e : error) : option error :=
  if IsAlreadyExists e then None else Some e.

Definition IgnoreNotFound (e : error) : option error :=
  if IsNotFound e then None else Some e.

End errors.

Export errors.

(** ** API objects the client stores *)

Module metav1.

Record TypeMeta := {
  APIVersion : string;
  Kind : string;
}.

(** [metav1.ObjectMeta], the fields the code sets. [ResourceVersion] is the
    store's version token: the code only copies it from a fetched object to
    the object it writes, so it is a number here, [0] for Go's empty
    string (unset). *)
Record ObjectMeta := {
  Name : string;
  Namespace : string;
  Labels : gmap string string;
  Annotations : gmap string string;
  ResourceVersion : nat;
}.

Definition withResourceVersion (rv : nat) (m : ObjectMeta) : ObjectMeta :=
  {| Name := Name m; Namespace := Namespace m; Labels := Labels m;
     Annotations := Annotations m; ResourceVersion := rv |}.

Record LabelSelector := {
  MatchLabels : gmap string string;
}.

#[global] Instance TypeMeta_eq_dec : EqDecision TypeMeta.
Proof. solve_decision. Defined.

#[global] Instance ObjectMeta_eq_dec : EqDecision ObjectMeta.
Proof. solve_decision. Defined.

#[global] Instance LabelSelector_eq_dec : EqDecision LabelSelector.
Proof. solve_decision. Defined.

End metav1.

(** [map[string][]byte]: the resource bundle, file name to manifest. *)
Abbreviation Bundle := (gmap string (list byte)).

#[global] Instance byte_eq_dec : EqDecision byte := Byte.byte_eq_dec.

Module intstr.

(** [intstr.IntOrString]. *)
Inductive IntOrString :=
| FromInt (val : Z)
| FromString (val : string).

End intstr.

Module corev1.

Record Secret := {
  Secret_ObjectMeta : metav1.ObjectMeta;
  Secret_Type : string;
  Secret_Data : Bundle;
}.

Definition SecretTypeOpaque : string := "Opaque".

Record LocalObjectReference := {
  LocalObjectReference_Name : string;
}.

#[global] Instance Secret_eq_dec : EqDecision Secret.
Proof. solve_decision. Defined.

#[global] Instance LocalObjectReference_eq_dec : EqDecision LocalObjectReference.
Proof. solve_decision. Defined.

Record ServiceAccount := {
  ServiceAccount_TypeMeta : metav1.TypeMeta;
  ServiceAccount_ObjectMeta : metav1.ObjectMeta;
}.

Definition ProtocolTCP : string := "TCP".
Definition ServiceTypeLoadBalancer : string := "LoadBalancer".
Definition ScheduleAnyway : string := "ScheduleAnyway".
Definition ResourceCPU : string := "cpu".
Definition ResourceMemory : string := "memory".

Record ContainerPort := {
  ContainerPort_Name : string;
  ContainerPort_ContainerPort : Z;
  ContainerPort_Protocol : string;
}.

Record HTTPGetAction := {
  HTTPGetAction_Path : string;
  HTTPGetAction_Port : intstr.IntOrString;
}.

Record ProbeHandler := {
  HTTPGet : option HTTPGetAction;
}.

Record Probe := {
  Probe_ProbeHandler : ProbeHandler;
  InitialDelaySeconds : Z;
  PeriodSeconds : Z;
  TimeoutSeconds : Z;
  FailureThreshold : Z;
}.

(** [corev1.ResourceList]: resource name to quantity, a quantity kept as the
    text [resource.MustParse] is given. *)
Record ResourceRequirements := {
  Requests : gmap string string;
  Limits : gmap string string;
}.

Record Capabilities := {
  Drop : list string;
}.

Record SecurityContext := {
  AllowPrivilegeEscalation : option bool;
  ReadOnlyRootFilesystem : option bool;
  SecurityContext_Capabilities : option Capabilities;
}.

Record EnvVar := {
  EnvVar_Name : string;
  EnvVar_Value : string;
}.

Record Container := {
  Container_Name : string;
  Container_Image : string;
  Container_Args : list string;
  Container_Ports : list ContainerPort;
  StartupProbe : option Probe;
  LivenessProbe : option Probe;
  ReadinessProbe : option Probe;
  Container_Resources : ResourceRequirements;
  Container_SecurityContext : option SecurityContext;
  Container_Env : list EnvVar;
}.

Record PodSecurityContext := {
  RunAsNonRoot : option bool;
  RunAsUser : option Z;
  RunAsGroup : option Z;
  FSGroup : option Z;
}.

Record TopologySpreadConstraint := {
  MaxSkew : Z;
  TopologyKey : string;
  WhenUnsatisfiable : string;
  TopologySpreadConstraint_LabelSelector : option metav1.LabelSelector;
}.

Record PodSpec := {
  PodSpec_ServiceAccountName : string;
  PodSpec_SecurityContext : option PodSecurityContext;
  Containers : list Container;
  TopologySpreadConstraints : list TopologySpreadConstraint;
}.

Record PodTemplateSpec := {
  PodTemplateSpec_ObjectMeta : metav1.ObjectMeta;
  PodTemplateSpec_Spec : PodSpec;
}.

Record ServicePort := {
  ServicePort_Name : string;
  ServicePort_Port : Z;
  ServicePort_TargetPort : intstr.IntOrString;
  ServicePort_Protocol : string;
}.

Record ServiceSpec := {
  ServiceSpec_Type : string;
  ServiceSpec_Selector : gmap string string;
  ServiceSpec_Ports : list ServicePort;
}.

Record Service := {
  Service_TypeMeta : metav1.TypeMeta;
  Service_ObjectMeta : metav1.ObjectMeta;
  Service_Spec : ServiceSpec;
}.

End corev1.

Module appsv1.

Record DeploymentSpec := {
  Replicas : option Z;
  Selector : option metav1.LabelSelector;
  Template : corev1.PodTemplateSpec;
}.

Record Deployment := {
  Deployment_TypeMeta : metav1.TypeMeta;
  Deployment_ObjectMeta : metav1.ObjectMeta;
  Deployment_Spec : DeploymentSpec;
}.

End appsv1.

Module rbacv1.

Record PolicyRule := {
  APIGroups : list string;
  Resources : list string;
  Verbs : list string;
}.

Record ClusterRole := {
  ClusterRole_TypeMeta : metav1.TypeMeta;
  ClusterRole_ObjectMeta : metav1.ObjectMeta;
  Rules : list PolicyRule;
}.

Record RoleRef := {
  RoleRef_APIGroup : string;
  RoleRef_Kind : string;
  RoleRef_Name : string;
}.

Record Subject := {
  Subject_Kind : string;
  Subject_Name : string;
  Subject_Namespace : string;
}.

Record ClusterRoleBinding := {
  ClusterRoleBinding_TypeMeta : metav1.TypeMeta;
  ClusterRoleBinding_ObjectMeta : metav1.ObjectMeta;
  ClusterRoleBinding_RoleRef : RoleRef;
  Subjects : list Subject;
}.

#[global] Instance PolicyRule_eq_dec : EqDecision PolicyRule.
Proof. solve_decision. Defined.

End rbacv1.

Module networkingv1.

Record IngressClassSpec := {
  Controller : string;
}.

Record IngressClass := {
  IngressClass_TypeMeta : metav1.TypeMeta;
  IngressClass_ObjectMeta : metav1.ObjectMeta;
  IngressClass_Spec : IngressClassSpec;
}.

Definition PolicyTypeIngress : string := "Ingress".
Definition PolicyTypeEgress : string := "Egress".

Record NetworkPolicyPeer := {
  NamespaceSelector : option metav1.LabelSelector;
  NetworkPolicyPeer_PodSelector : option metav1.LabelSelector;
}.

Record NetworkPolicyIngressRule := {
  IngressRule_From : list NetworkPolicyPeer;
}.

Record NetworkPolicyEgressRule := {
  EgressRule_To : list NetworkPolicyPeer;
}.

Record NetworkPolicySpec := {
  NetworkPolicySpec_PodSelector : metav1.LabelSelector;
  PolicyTypes : list string;
  Ingress : list NetworkPolicyIngressRule;
  Egress : list NetworkPolicyEgressRule;
}.

Record NetworkPolicy := {
  NetworkPolicy_TypeMeta : metav1.TypeMeta;
  NetworkPolicy_ObjectMeta : metav1.ObjectMeta;
  NetworkPolicy_Spec : NetworkPolicySpec;
}.

End networkingv1.

Module runtime.

(** [runtime.Object], as far as the deployer encodes one. *)
Inductive Object :=
| OfServiceAccount (sa : corev1.ServiceAccount)
| OfClusterRole (cr : rbacv1.ClusterRole)
| OfClusterRoleBinding (crb : rbacv1.ClusterRoleBinding)
| OfDeployment (deploy : appsv1.Deployment)
| OfService (svc : corev1.Service)
| OfIngressClass (ic : networkingv1.IngressClass)
| OfNetworkPolicy (np : networkingv1.NetworkPolicy).

End runtime.

Module resourcesv1alpha1.

Record ManagedResourceSpec := {
  SecretRefs : list corev1.LocalObjectReference;
  InjectLabels : gmap string string;
  KeepObjects : option bool;
}.

Record ManagedResource := {
  ManagedResource_ObjectMeta : metav1.ObjectMeta;
  ManagedResource_Spec : ManagedResourceSpec;
}.

#[global] Instance ManagedResourceSpec_eq_dec : EqDecision ManagedResourceSpec.
Proof. solve_decision. Defined.

#[global] Instance ManagedResource_eq_dec : EqDecision ManagedResource.
Proof. solve_decision. Defined.

End resourcesv1alpha1.

Module gardencorev1beta1.

Definition ShootPurpose := string.
Definition ShootPurposeEvaluation : ShootPurpose := "evaluation".

Record Hibernation := {
  Enabled : option bool;
}.

Record ShootSpec := {
  ShootSpec_Hibernation : option Hibernation;
  ShootSpec_Purpose : option ShootPurpose;
}.

Record Shoot := {
  Shoot_Spec : ShootSpec;
}.

#[global] Instance Hibernation_eq_dec : EqDecision Hibernation.
Proof. solve_decision. Defined.

#[global] Instance ShootSpec_eq_dec : EqDecision ShootSpec.
Proof. solve_decision. Defined.

#[global] Instance Shoot_eq_dec : EqDecision Shoot.
Proof. solve_decision. Defined.

End gardencorev1beta1.

Module v1beta1helper.

(** [v1beta1helper.HibernationIsEnabled]. *)
Definition HibernationIsEnabled (shoot : gardencorev1beta1.Shoot) : bool :=
  match gardencorev1beta1.ShootSpec_Hibernation (gardencorev1beta1.Shoot_Spec shoot) with
  | Some h =>
      match gardencorev1beta1.Enabled h with
      | Some b => b
      | None => false
      end
  | None => false
  end.

End v1beta1helper.

Module extensionsv1alpha1.

(** The [Cluster] resource of a shoot, named after the shoot's namespace in
    the seed; [extensionscontroller.Cluster] is its decoded form, and the
    model keeps the decoded shoot in the stored object. *)
Record Cluster := {
  Cluster_ObjectMeta : metav1.ObjectMeta;
  Shoot : gardencorev1beta1.Shoot;
}.

(** [runtime.RawExtension]. *)
Record RawExtension := {
  Raw : list byte;
}.

Record ExtensionSpec := {
  ProviderConfig : option RawExtension;
}.

Record Extension := {
  Extension_Name : string;
  Extension_Namespace : string;
  Extension_Spec : ExtensionSpec;
}.

#[global] Instance Cluster_eq_dec : EqDecision Cluster.
Proof. solve_decision. Defined.

End extensionsv1alpha1.

(** ** The store behind [client.Client], and the effects of a call *)

Module client.

Inductive ObjectKind := KindSecret | KindManagedResource | KindCluster.

(** [client.ObjectKey]: namespace (empty for a cluster-scoped object) and
    name. *)
Abbreviation ObjectKey := (string * string)%type.

(** What the API server holds. Every successful write gets the next
    [Revision] as its version token. [RenumbersUnchanged] is the one point
    where stores differ in what a second [Deploy] leaves behind: whether an
    update that changes nothing still gets a new token, or is dropped. *)
Record Store := {
  Secrets : gmap ObjectKey corev1.Secret;
  ManagedResources : gmap ObjectKey resourcesv1alpha1.ManagedResource;
  Clusters : gmap ObjectKey extensionsv1alpha1.Cluster;
  Revision : nat;
  RenumbersUnchanged : bool;
}.

Inductive Level := LevelInfo | LevelError.

(** The effects the code performs, in the order it performs them. *)
Inductive Event :=
| CallCreate (kind : ObjectKind) (key : ObjectKey)
| CallGet (kind : ObjectKind) (key : ObjectKey)
| CallUpdate (kind : ObjectKind) (key : ObjectKey) (resourceVersion : nat)
| CallDelete (kind : ObjectKind) (key : ObjectKey)
| CallFindImage (name : string)
| LogLine (level : Level) (err : option error) (msg : string)
    (keysAndValues : list (string * string))
| MetricInc (cluster operation : string).

(** The world a call runs in: the store, the failures the environment is
    going to inject (one entry per client call, [Some e] makes that call
    return [e] and do nothing; a call past the end of the list runs
    normally), and the trace so far. *)
#[projections(primitive)]
Record World := {
  store : Store;
  faults : list (option error);
  trace : list Event;
}.

Definition M (A : Type) : Type := World -> A * World.

#[global] Instance M_ret : MRet M := fun A (a : A) w => (a, w).

#[global] Instance M_bind : MBind M := fun A B (f : A -> M B) (m : M A) w =>
  let (a, w') := m w in f a w'.

Definition emit (e : Event) : M unit := fun w =>
  (tt, {| store := store w; faults := faults w; trace := trace w ++ [e] |}).

Definition getStore : M Store := fun w => (store w, w).

Definition putStore (s : Store) : M unit := fun w =>
  (tt, {| store := s; faults := faults w; trace := trace w |}).

(** A client call is recorded, and fails when the environment says so. *)
Definition call (e : Event) : M (option error) := fun w =>
  let t := trace w ++ [e] in
  match faults w with
  | [] => (None, {| store := store w; faults := []; trace := t |})
  | f :: fs => (f, {| store := store w; faults := fs; trace := t |})
  end.

(** [client.Object]: the typed objects of the store, each kind in a table of
    its own. *)
Class Object (A : Type) `{EqDecision A} := {
  kindOf : ObjectKind;
  getMeta : A -> metav1.ObjectMeta;
  setMeta : metav1.ObjectMeta -> A -> A;
  table : Store -> gmap ObjectKey A;
  withTable : gmap ObjectKey A -> Store -> Store;
}.

Arguments kindOf A {_ _}.

#[global] Instance Secret_Object : Object corev1.Secret := {
  kindOf := KindSecret;
  getMeta := corev1.Secret_ObjectMeta;
  setMeta m o :=
    {| corev1.Secret_ObjectMeta := m; corev1.Secret_Type := corev1.Secret_Type o;
       corev1.Secret_Data := corev1.Secret_Data o |};
  table := Secrets;
  withTable t s :=
    {| Secrets := t; ManagedResources := ManagedResources s; Clusters := Clusters s;
       Revision := Revision s; RenumbersUnchanged := RenumbersUnchanged s |};
}.

#[global] Instance ManagedResource_Object : Object resourcesv1alpha1.ManagedResource := {
  kindOf := KindManagedResource;
  getMeta := resourcesv1alpha1.ManagedResource_ObjectMeta;
  setMeta m o :=
    {| resourcesv1alpha1.ManagedResource_ObjectMeta := m;
       resourcesv1alpha1.ManagedResource_Spec := resourcesv1alpha1.ManagedResource_Spec o |};
  table := ManagedResources;
  withTable t s :=
    {| Secrets := Secrets s; ManagedResources := t; Clusters := Clusters s;
       Revision := Revision s; RenumbersUnchanged := RenumbersUnchanged s |};
}.

#[global] Instance Cluster_Object : Object extensionsv1alpha1.Cluster := {
  kindOf := KindCluster;
  getMeta := extensionsv1alpha1.Cluster_ObjectMeta;
  setMeta m o :=
    {| extensionsv1alpha1.Cluster_ObjectMeta := m;
       extensionsv1alpha1.Shoot := extensionsv1alpha1.Shoot o |};
  table := Clusters;
  withTable t s :=
    {| Secrets := Secrets s; ManagedResources := ManagedResources s; Clusters := t;
       Revision := Revision s; RenumbersUnchanged := RenumbersUnchanged s |};
}.

Section Calls.
Context {A : Type} `{Object A}.

(** [client.ObjectKeyFromObject]. *)
Definition ObjectKeyFromObject (obj : A) : ObjectKey :=
  (metav1.Namespace (getMeta obj), metav1.Name (getMeta obj)).

Definition resourceVersionOf (obj : A) : nat :=
  metav1.ResourceVersion (getMeta obj).

(** The object as the store keeps it under version token [rv]. *)
Definition stamp (rv : nat) (obj : A) : A :=
  setMeta (metav1.withResourceVersion rv (getMeta obj)) obj.

(** The store after [obj] is written under [key]. *)
Definition written (key : ObjectKey) (obj : A) (s : Store) : Store :=
  let rv := S (Revision s) in
  let s' := withTable (<[key := stamp rv obj]> (table s)) s in
  {| Secrets := Secrets s'; ManagedResources := ManagedResources s';
     Clusters := Clusters s'; Revision := rv;
     RenumbersUnchanged := RenumbersUnchanged s' |}.

Definition statusError (reason : StatusReason) (verb : string) (key : ObjectKey) : error :=
  StatusError reason (verb +:+ " " +:+ key.1 +:+ "/" +:+ key.2).

(** [client.Create]: the "already exists" answer when the key is taken. *)
Definition Create (obj : A) : M (option error) :=
  let key := ObjectKeyFromObject obj in
  fault ← call (CallCreate (kindOf A) key);
  match fault with
  | Some e => mret (Some e)
  | None =>
      s ← getStore;
      match table s !! key with
      | Some _ => mret (Some (statusError StatusReasonAlreadyExists "already exists" key))
      | None => putStore (written key obj s);; mret None
      end
  end.

(** [client.Get]: the stored object, or the "not found" answer. *)
Definition Get (key : ObjectKey) : M (error + A) :=
  fault ← call (CallGet (kindOf A) key);
  match fault with
  | Some e => mret (inl e)
  | None =>
      s ← getStore;
      match table s !! key with
      | Some obj => mret (inr obj)
      | None => mret (inl (statusError StatusReasonNotFound "not found" key))
      end
  end.

(** [client.Update]: "not found" when the key is free, "conflict" when the
    object carries a version token other than the stored one. *)
Definition Update (obj : A) : M (option error) :=
  let key := ObjectKeyFromObject obj in
  fault ← call (CallUpdate (kindOf A) key (resourceVersionOf obj));
  match fault with
  | Some e => mret (Some e)
  | None =>
      s ← getStore;
      match table s !! key with
      | None => mret (Some (statusError StatusReasonNotFound "not found" key))
      | Some old =>
          if negb (resourceVersionOf obj =? 0)%nat
             && negb (resourceVersionOf obj =? resourceVersionOf old)%nat
          then mret (Some (statusError StatusReasonConflict "conflict" key))
          else if negb (RenumbersUnchanged s)
                  && bool_decide (stamp (resourceVersionOf old) obj = old)
          then mret None
          else putStore (written key obj s);; mret None
      end
  end.

(** [client.Delete]: "not found" when there is nothing to delete. *)
Definition Delete (obj : A) : M (option error) :=
  let key := ObjectKeyFromObject obj in
  fault ← call (CallDelete (kindOf A) key);
  match fault with
  | Some e => mret (Some e)
  | None =>
      s ← getStore;
      match table s !! key with
      | None => mret (Some (statusError StatusReasonNotFound "not found" key))
      | Some _ => putStore (withTable (delete key (table s)) s);; mret None
      end
  end.

End Calls.

End client.

Import client.

(** ** [pkg/apis/config]: the provider configuration of the extension *)

Module config.

Definition IngressProviderType := string.

Definition IngressProviderKubernetesIngress : IngressProviderType := "KubernetesIngress".
Definition IngressProviderKubernetesIngressNGINX : IngressProviderType :=
  "KubernetesIngressNGINX".

Record TraefikConfigSpec := {
  Image : string;
  Replicas : Z;
  IngressClass : string;
  IngressProvider : IngressProviderType;
}.

Record TraefikConfig := {
  TypeMeta : metav1.TypeMeta;
  Spec : TraefikConfigSpec;
}.

End config.

(** ** [imagevector]: the image resolver *)

Module imagevector.

(** An image reference, known to the deployer through [String()] only. *)
Record Image := {
  Image_String : string;
}.

(** [ImageVector.FindImage], the one method the deployer calls. *)
Definition ImageVector := string -> error + Image.

End imagevector.

(** ** [pkg/traefik]: the deployer *)

Module traefik.

Record Config := {
  Image : string;
  Replicas : Z;
  IngressClass : string;
  IngressProvider : config.IngressProviderType;
}.

Definition DefaultConfig : Config :=
  {| Image := "";
     Replicas := 2;
     IngressClass := "traefik";
     IngressProvider := config.IngressProviderKubernetesIngress |}.

(** The deployer. Its [client] is the store of the world it runs in, its
    [logger] writes to the world's trace, and its [decoder] is never used. *)
Record Deployer := {
  config : Config;
  imageVector : imagevector.ImageVector;
}.

Definition NewDeployer (config : Config) (imageVector : imagevector.ImageVector) : Deployer :=
  {| config := config; imageVector := imageVector |}.

(** What the package takes from outside this file: its constants (declared
    in a file of the package that holds no code), the codec that
    [generateResources] builds from the client-go scheme, and gardener's
    [utils.ComputeSecretChecksum]. *)
Record Env := {
  ManagedResourceName : string;
  ServiceAccountName : string;
  Namespace : string;
  DeploymentName : string;
  ImageName : string;
  Encode : runtime.Object -> error + list byte;
  ComputeSecretChecksum : Bundle -> string;
}.

Definition objectMeta (name namespace : string) (labels annotations : list (string * string))
  : metav1.ObjectMeta :=
  {| metav1.Name := name; metav1.Namespace := namespace;
     metav1.Labels := list_to_map labels; metav1.Annotations := list_to_map annotations;
     metav1.ResourceVersion := 0 |}.

Definition matchLabels (labels : list (string * string)) : metav1.LabelSelector :=
  {| metav1.MatchLabels := list_to_map labels |}.

Section Deployer.
Context (E : Env).

Definition serviceAccount (d : Deployer) : corev1.ServiceAccount :=
  {| corev1.ServiceAccount_TypeMeta :=
       {| metav1.APIVersion := "v1"; metav1.Kind := "ServiceAccount" |};
     corev1.ServiceAccount_ObjectMeta :=
       objectMeta (ServiceAccountName E) (Namespace E)
         [("app.kubernetes.io/name", "traefik");
          ("app.kubernetes.io/instance", "traefik");
          ("app.kubernetes.io/component", "ingress-controller");
          ("app.kubernetes.io/managed-by", "gardener")] [] |}.

Definition clusterRole (d : Deployer) : rbacv1.ClusterRole :=
  let rules :=
    [ {| rbacv1.APIGroups := [""];
         rbacv1.Resources := ["services"; "endpoints"; "secrets"; "nodes"];
         rbacv1.Verbs := ["get"; "list"; "watch"] |};
      {| rbacv1.APIGroups := ["discovery.k8s.io"];
         rbacv1.Resources := ["endpointslices"];
         rbacv1.Verbs := ["get"; "list"; "watch"] |};
      {| rbacv1.APIGroups := ["extensions"; "networking.k8s.io"];
         rbacv1.Resources := ["ingresses"; "ingressclasses"];
         rbacv1.Verbs := ["get"; "list"; "watch"] |};
      {| rbacv1.APIGroups := ["extensions"; "networking.k8s.io"];
         rbacv1.Resources := ["ingresses/status"];
         rbacv1.Verbs := ["update"] |};
      {| rbacv1.APIGroups := ["traefik.io"];
         rbacv1.Resources := ["*"];
         rbacv1.Verbs := ["get"; "list"; "watch"] |} ] in
  (* Add namespace permissions for NGINX provider when using namespace selectors *)
  let rules :=
    if bool_decide (IngressProvider (config d) = config.IngressProviderKubernetesIngressNGINX)
    then rules ++ [ {| rbacv1.APIGroups := [""];
                       rbacv1.Resources := ["namespaces"];
                       rbacv1.Verbs := ["get"; "list"; "watch"] |} ]
    else rules in
  {| rbacv1.ClusterRole_TypeMeta :=
       {| metav1.APIVersion := "rbac.authorization.k8s.io/v1"; metav1.Kind := "ClusterRole" |};
     rbacv1.ClusterRole_ObjectMeta :=
       objectMeta "traefik-ingress-controller" ""
         [("app.kubernetes.io/name", "traefik");
          ("app.kubernetes.io/instance", "traefik");
          ("app.kubernetes.io/managed-by", "gardener")] [];
     rbacv1.Rules := rules |}.

Definition clusterRoleBinding (d : Deployer) : rbacv1.ClusterRoleBinding :=
  {| rbacv1.ClusterRoleBinding_TypeMeta :=
       {| metav1.APIVersion := "rbac.authorization.k8s.io/v1";
          metav1.Kind := "ClusterRoleBinding" |};
     rbacv1.ClusterRoleBinding_ObjectMeta :=
       objectMeta "traefik-ingress-controller" ""
         [("app.kubernetes.io/name", "traefik");
          ("app.kubernetes.io/instance", "traefik");
          ("app.kubernetes.io/managed-by", "gardener")] [];
     rbacv1.ClusterRoleBinding_RoleRef :=
       {| rbacv1.RoleRef_APIGroup := "rbac.authorization.k8s.io";
          rbacv1.RoleRef_Kind := "ClusterRole";
          rbacv1.RoleRef_Name := "traefik-ingress-controller" |};
     rbacv1.Subjects :=
       [ {| rbacv1.Subject_Kind := "ServiceAccount";
            rbacv1.Subject_Name := ServiceAccountName E;
            rbacv1.Subject_Namespace := Namespace E |} ] |}.

Definition pingProbe (initialDelay period timeout failureThreshold : Z) : corev1.Probe :=
  {| corev1.Probe_ProbeHandler :=
       {| corev1.HTTPGet :=
            Some {| corev1.HTTPGetAction_Path := "/ping";
                    corev1.HTTPGetAction_Port := intstr.FromInt 8000 |} |};
     corev1.InitialDelaySeconds := initialDelay;
     corev1.PeriodSeconds := period;
     corev1.TimeoutSeconds := timeout;
     corev1.FailureThreshold := failureThreshold |}.

(** The three parts of [deployment]: the image, the arguments, and the
    object built from them. *)

(** "Get the Traefik image from the image vector, fallback to config if
    specified". *)
Definition deploymentImage (d : Deployer) : M (error + string) :=
  let image := Image (config d) in
  if bool_decide (image = "")
  then
    emit (CallFindImage (ImageName E));;
    match imageVector d (ImageName E) with
    | inl err => mret (inl (Errorf "failed to find traefik image in image vector: " err ""))
    | inr img => mret (inr (imagevector.Image_String img))
    end
  else mret (inr image).

Definition deploymentArgs (d : Deployer) : list string :=
  (* Configure Traefik arguments based on the selected provider *)
  let args :=
    ["--api.insecure=false";
     "--api.dashboard=false";
     "--ping=true";
     "--ping.entrypoint=web";
     "--metrics.prometheus=true";
     "--metrics.prometheus.entrypoint=metrics";
     "--entrypoints.web.address=:8000";
     "--entrypoints.websecure.address=:8443";
     "--entrypoints.metrics.address=:9100";
     "--log.level=INFO"] in
  (* Configure the appropriate Kubernetes Ingress provider *)
  let args :=
    (* Enable standard Kubernetes Ingress provider (default) *)
    let default :=
      args ++ ["--providers.kubernetesingress=true";
               "--providers.kubernetesingress.ingressclass=" +:+ IngressClass (config d)] in
    if bool_decide (IngressProvider (config d) = config.IngressProviderKubernetesIngressNGINX)
    then
      (* Enable NGINX-compatible Ingress provider for migration scenarios *)
      args ++ ["--providers.kubernetesingressnginx=true";
               "--providers.kubernetesingressnginx.ingressclass=" +:+ IngressClass (config d)]
    else if bool_decide (IngressProvider (config d) = config.IngressProviderKubernetesIngress)
    then default (* fallthrough *)
    else default in
  args.

Definition deploymentObject (d : Deployer) (image : string) (args : list string)
  : appsv1.Deployment :=
  let labels :=
    [("app.kubernetes.io/name", "traefik");
     ("app.kubernetes.io/instance", "traefik");
     ("app.kubernetes.io/component", "ingress-controller");
     ("app.kubernetes.io/managed-by", "gardener");
     ("networking.gardener.cloud/to-apiserver", "allowed");
     ("networking.gardener.cloud/to-dns", "allowed")] in
    {| appsv1.Deployment_TypeMeta :=
         {| metav1.APIVersion := "apps/v1"; metav1.Kind := "Deployment" |};
       appsv1.Deployment_ObjectMeta := objectMeta (DeploymentName E) (Namespace E) labels [];
       appsv1.Deployment_Spec :=
         {| appsv1.Replicas := Some (Replicas (config d));
            appsv1.Selector :=
              Some (matchLabels [("app.kubernetes.io/name", "traefik");
                                 ("app.kubernetes.io/instance", "traefik")]);
            appsv1.Template :=
              {| corev1.PodTemplateSpec_ObjectMeta :=
                   objectMeta "" "" labels
                     [("prometheus.io/scrape", "true"); ("prometheus.io/port", "9100")];
                 corev1.PodTemplateSpec_Spec :=
                   {| corev1.PodSpec_ServiceAccountName := ServiceAccountName E;
                      corev1.PodSpec_SecurityContext :=
                        Some {| corev1.RunAsNonRoot := Some true;
                                corev1.RunAsUser := Some 65532%Z;
                                corev1.RunAsGroup := Some 65532%Z;
                                corev1.FSGroup := Some 65532%Z |};
                      corev1.Containers :=
                        [ {| corev1.Container_Name := "traefik";
                             corev1.Container_Image := image;
                             corev1.Container_Args := args;
                             corev1.Container_Ports :=
                               [ {| corev1.ContainerPort_Name := "web";
                                    corev1.ContainerPort_ContainerPort := 8000;
                                    corev1.ContainerPort_Protocol := corev1.ProtocolTCP |};
                                 {| corev1.ContainerPort_Name := "websecure";
                                    corev1.ContainerPort_ContainerPort := 8443;
                                    corev1.ContainerPort_Protocol := corev1.ProtocolTCP |};
                                 {| corev1.ContainerPort_Name := "metrics";
                                    corev1.ContainerPort_ContainerPort := 9100;
                                    corev1.ContainerPort_Protocol := corev1.ProtocolTCP |} ];
                             corev1.StartupProbe := Some (pingProbe 5 5 3 12);
                             corev1.LivenessProbe := Some (pingProbe 0 10 5 3);
                             corev1.ReadinessProbe := Some (pingProbe 0 5 3 3);
                             corev1.Container_Resources :=
                               {| corev1.Requests :=
                                    list_to_map [(corev1.ResourceCPU, "100m");
                                                 (corev1.ResourceMemory, "128Mi")];
                                  corev1.Limits :=
                                    list_to_map [(corev1.ResourceCPU, "500m");
                                                 (corev1.ResourceMemory, "512Mi")] |};
                             corev1.Container_SecurityContext :=
                               Some {| corev1.AllowPrivilegeEscalation := Some false;
                                       corev1.ReadOnlyRootFilesystem := Some true;
                                       corev1.SecurityContext_Capabilities :=
                                         Some {| corev1.Drop := ["ALL"] |} |};
                             corev1.Container_Env :=
                               [ {| corev1.EnvVar_Name := "KUBERNETES_SERVICE_HOST";
                                    corev1.EnvVar_Value :=
                                      "kubernetes.default.svc.cluster.local" |};
                                 {| corev1.EnvVar_Name := "KUBERNETES_SERVICE_PORT";
                                    corev1.EnvVar_Value := "443" |} ] |} ];
                      corev1.TopologySpreadConstraints :=
                        [ {| corev1.MaxSkew := 1;
                             corev1.TopologyKey := "kubernetes.io/hostname";
                             corev1.WhenUnsatisfiable := corev1.ScheduleAnyway;
                             corev1.TopologySpreadConstraint_LabelSelector :=
                               Some (matchLabels
                                       [("app.kubernetes.io/name", "traefik");
                                        ("app.kubernetes.io/instance", "traefik")]) |} ]
                   |} |} |} |}.

Definition deployment (d : Deployer) : M (error + appsv1.Deployment) :=
  found ← deploymentImage d;
  match found with
  | inl err => mret (inl err)
  | inr image => mret (inr (deploymentObject d image (deploymentArgs d)))
  end.

Definition service (d : Deployer) : corev1.Service :=
  {| corev1.Service_TypeMeta := {| metav1.APIVersion := "v1"; metav1.Kind := "Service" |};
     corev1.Service_ObjectMeta :=
       objectMeta "traefik" (Namespace E)
         [("app.kubernetes.io/name", "traefik");
          ("app.kubernetes.io/instance", "traefik");
          ("app.kubernetes.io/component", "ingress-controller");
          ("app.kubernetes.io/managed-by", "gardener")] [];
     corev1.Service_Spec :=
       {| corev1.ServiceSpec_Type := corev1.ServiceTypeLoadBalancer;
          corev1.ServiceSpec_Selector :=
            list_to_map [("app.kubernetes.io/name", "traefik");
                         ("app.kubernetes.io/instance", "traefik")];
          corev1.ServiceSpec_Ports :=
            [ {| corev1.ServicePort_Name := "web";
                 corev1.ServicePort_Port := 80;
                 corev1.ServicePort_TargetPort := intstr.FromString "web";
                 corev1.ServicePort_Protocol := corev1.ProtocolTCP |};
              {| corev1.ServicePort_Name := "websecure";
                 corev1.ServicePort_Port := 443;
                 corev1.ServicePort_TargetPort := intstr.FromString "websecure";
                 corev1.ServicePort_Protocol := corev1.ProtocolTCP |} ] |} |}.

Definition ingressClass (d : Deployer) : networkingv1.IngressClass :=
  {| networkingv1.IngressClass_TypeMeta :=
       {| metav1.APIVersion := "networking.k8s.io/v1"; metav1.Kind := "IngressClass" |};
     networkingv1.IngressClass_ObjectMeta :=
       objectMeta (IngressClass (config d)) ""
         [("app.kubernetes.io/name", "traefik");
          ("app.kubernetes.io/instance", "traefik");
          ("app.kubernetes.io/managed-by", "gardener")]
         (* Make traefik the default ingress class as a replacement for nginx *)
         [("ingressclass.kubernetes.io/is-default-class", "true")];
     networkingv1.IngressClass_Spec :=
       {| networkingv1.Controller := "traefik.io/ingress-controller" |} |}.

Definition networkPolicy (d : Deployer) : networkingv1.NetworkPolicy :=
  {| networkingv1.NetworkPolicy_TypeMeta :=
       {| metav1.APIVersion := "networking.k8s.io/v1"; metav1.Kind := "NetworkPolicy" |};
     networkingv1.NetworkPolicy_ObjectMeta :=
       objectMeta "traefik-allow-ingress" (Namespace E)
         [("app.kubernetes.io/name", "traefik");
          ("app.kubernetes.io/managed-by", "gardener")] [];
     networkingv1.NetworkPolicy_Spec :=
       {| networkingv1.NetworkPolicySpec_PodSelector :=
            matchLabels [("app.kubernetes.io/name", "traefik");
                         ("app.kubernetes.io/instance", "traefik")];
          networkingv1.PolicyTypes :=
            [networkingv1.PolicyTypeIngress; networkingv1.PolicyTypeEgress];
          (* Allow all ingress traffic to Traefik from anywhere *)
          networkingv1.Ingress := [ {| networkingv1.IngressRule_From := [] |} ];
          (* Allow egress to all pods in all namespaces *)
          networkingv1.Egress :=
            [ {| networkingv1.EgressRule_To :=
                   [ {| networkingv1.NamespaceSelector := Some (matchLabels []);
                        networkingv1.NetworkPolicyPeer_PodSelector :=
                          Some (matchLabels []) |} ] |} ] |} |}.

(** [generateResources] generates all Kubernetes resources for Traefik. *)
Definition generateResources (d : Deployer) : M (error + Bundle) :=
  let resources : Bundle := ∅ in
  (* ServiceAccount *)
  let sa := serviceAccount d in
  match Encode E (runtime.OfServiceAccount sa) with
  | inl err => mret (inl (Errorf "failed to encode service account: " err ""))
  | inr saData =>
  let resources := <["serviceaccount.yaml" := saData]> resources in
  (* ClusterRole *)
  let cr := clusterRole d in
  match Encode E (runtime.OfClusterRole cr) with
  | inl err => mret (inl (Errorf "failed to encode cluster role: " err ""))
  | inr crData =>
  let resources := <["clusterrole.yaml" := crData]> resources in
  (* ClusterRoleBinding *)
  let crb := clusterRoleBinding d in
  match Encode E (runtime.OfClusterRoleBinding crb) with
  | inl err => mret (inl (Errorf "failed to encode cluster role binding: " err ""))
  | inr crbData =>
  let resources := <["clusterrolebinding.yaml" := crbData]> resources in
  (* Deployment *)
  deploy ← deployment d;
  match deploy with
  | inl err => mret (inl (Errorf "failed to create deployment: " err ""))
  | inr deploy =>
  match Encode E (runtime.OfDeployment deploy) with
  | inl err => mret (inl (Errorf "failed to encode deployment: " err ""))
  | inr deployData =>
  let resources := <["deployment.yaml" := deployData]> resources in
  (* Service *)
  let svc := service d in
  match Encode E (runtime.OfService svc) with
  | inl err => mret (inl (Errorf "failed to encode service: " err ""))
  | inr svcData =>
  let resources := <["service.yaml" := svcData]> resources in
  (* IngressClass *)
  let ic := ingressClass d in
  match Encode E (runtime.OfIngressClass ic) with
  | inl err => mret (inl (Errorf "failed to encode ingress class: " err ""))
  | inr icData =>
  let resources := <["ingressclass.yaml" := icData]> resources in
  (* NetworkPolicy *)
  let np := networkPolicy d in
  match Encode E (runtime.OfNetworkPolicy np) with
  | inl err => mret (inl (Errorf "failed to encode network policy: " err ""))
  | inr npData =>
  let resources := <["networkpolicy.yaml" := npData]> resources in
  mret (inr resources)
  end end end end end end end end.

(** The secret [Deploy] writes: the manifests, and their checksum as an
    annotation. *)
Definition deploySecret (namespace : string) (resources : Bundle) : corev1.Secret :=
  (* Compute checksum of resources to ensure changes are detected *)
  let checksum := ComputeSecretChecksum E resources in
  {| corev1.Secret_ObjectMeta :=
       objectMeta (ManagedResourceName E) namespace []
         [("resources.gardener.cloud/data-checksum", checksum)];
     corev1.Secret_Type := corev1.SecretTypeOpaque;
     corev1.Secret_Data := resources |}.

(** The managed resource [Deploy] writes. *)
Definition deployManagedResource (namespace : string) : resourcesv1alpha1.ManagedResource :=
  {| resourcesv1alpha1.ManagedResource_ObjectMeta :=
       objectMeta (ManagedResourceName E) namespace [] [];
     resourcesv1alpha1.ManagedResource_Spec :=
       {| resourcesv1alpha1.SecretRefs :=
            [ {| corev1.LocalObjectReference_Name := ManagedResourceName E |} ];
          resourcesv1alpha1.InjectLabels :=
            list_to_map [("shoot.gardener.cloud/no-cleanup", "true")];
          resourcesv1alpha1.KeepObjects := Some false |} |}.

(** [Deploy] deploys Traefik to the shoot cluster via a ManagedResource. In
    each block [returned] is the error the block returns from [Deploy] with,
    [None] when control goes on past it. *)
Definition Deploy (d : Deployer) (namespace : string) : M (option error) :=
  emit (LogLine LevelInfo None "deploying traefik to shoot cluster"
          [("namespace", namespace)]);;
  (* Generate all Traefik resources *)
  generated ← generateResources d;
  match generated with
  | inl err => mret (Some (Errorf "failed to generate traefik resources: " err ""))
  | inr resources =>
  (* Create the secret containing the manifests *)
  let secret := deploySecret namespace resources in
  returned ←
    (created ← Create secret;
    match created with
    | Some err =>
        match IgnoreAlreadyExists err with
        | Some _ => mret (Some (Errorf "failed to create secret: " err ""))
        | None =>
            (* Update existing secret - fetch first to get resourceVersion *)
            fetched ← Get (A := corev1.Secret) (ObjectKeyFromObject secret);
            match fetched with
            | inl err => mret (Some (Errorf "failed to get existing secret: " err ""))
            | inr existing =>
                let secret := stamp (resourceVersionOf existing) secret in
                updated ← Update secret;
                match updated with
                | Some err => mret (Some (Errorf "failed to update secret: " err ""))
                | None => mret None
                end
            end
        end
    | None => mret None
    end);
  match returned with
  | Some err => mret (Some err)
  | None =>
  (* Create the ManagedResource *)
  let managedResource := deployManagedResource namespace in
  returned ←
    (created ← Create managedResource;
    match created with
    | Some err =>
        match IgnoreAlreadyExists err with
        | Some _ => mret (Some (Errorf "failed to create managed resource: " err ""))
        | None =>
            (* Update existing managed resource - fetch first to get resourceVersion *)
            fetched ← Get (A := resourcesv1alpha1.ManagedResource)
                        (ObjectKeyFromObject managedResource);
            match fetched with
            | inl err =>
                mret (Some (Errorf "failed to get existing managed resource: " err ""))
            | inr existing =>
                let managedResource := stamp (resourceVersionOf existing) managedResource in
                updated ← Update managedResource;
                match updated with
                | Some err => mret (Some (Errorf "failed to update managed resource: " err ""))
                | None => mret None
                end
            end
        end
    | None => mret None
    end);
  match returned with
  | Some err => mret (Some err)
  | None =>
  emit (LogLine LevelInfo None "successfully deployed traefik" [("namespace", namespace)]);;
  mret None
  end end end.

(** [Delete] removes Traefik from the shoot cluster. [returned] is as in
    [Deploy]. *)
Definition Delete (d : Deployer) (namespace : string) : M (option error) :=
  emit (LogLine LevelInfo None "deleting traefik from shoot cluster"
          [("namespace", namespace)]);;
  (* Delete the ManagedResource *)
  let managedResource : resourcesv1alpha1.ManagedResource :=
    {| resourcesv1alpha1.ManagedResource_ObjectMeta :=
         objectMeta (ManagedResourceName E) namespace [] [];
       resourcesv1alpha1.ManagedResource_Spec :=
         {| resourcesv1alpha1.SecretRefs := [];
            resourcesv1alpha1.InjectLabels := ∅;
            resourcesv1alpha1.KeepObjects := None |} |} in
  deleted ← client.Delete managedResource;
  let returned :=
    match deleted with
    | Some err =>
        match IgnoreNotFound err with
        | Some _ => Some (Errorf "failed to delete managed resource: " err "")
        | None => None
        end
    | None => None
    end in
  match returned with
  | Some err => mret (Some err)
  | None =>
  (* Delete the secret *)
  let secret : corev1.Secret :=
    {| corev1.Secret_ObjectMeta := objectMeta (ManagedResourceName E) namespace [] [];
       corev1.Secret_Type := "";
       corev1.Secret_Data := ∅ |} in
  deleted ← client.Delete secret;
  let returned :=
    match deleted with
    | Some err =>
        match IgnoreNotFound err with
        | Some _ => Some (Errorf "failed to delete secret: " err "")
        | None => None
        end
    | None => None
    end in
  match returned with
  | Some err => mret (Some err)
  | None =>
  emit (LogLine LevelInfo None "successfully deleted traefik" [("namespace", namespace)]);;
  mret None
  end end.

End Deployer.

End traefik.

(** ** [extensionscontroller.GetCluster] *)

Module extensionscontroller.

(** The cluster of a shoot is the [Cluster] object named after the shoot's
    namespace; whatever the client answers instead is returned as it is. *)
Definition GetCluster (namespace : string) : M (error + extensionsv1alpha1.Cluster) :=
  Get (A := extensionsv1alpha1.Cluster) ("", namespace).

End extensionscontroller.

(** ** [pkg/actuator] *)

Module actuator.

(** [ErrShootPurposeNotEvaluation] is returned when attempting to deploy
    Traefik to a shoot that does not have purpose "evaluation". *)
Definition ErrShootPurposeNotEvaluation : error :=
  New "shoot purpose must be 'evaluation' for traefik extension".

(** The actuator. Its [client] is the store of the world it runs in;
    [decoder] is [runtime.DecodeInto] with the actuator's decoder, from the
    raw bytes to the configuration they hold. *)
Record Actuator := {
  decoder : list byte -> error + config.TraefikConfig;
  imageVector : imagevector.ImageVector;
  gardenerVersion : string;
  gardenletFeatureGates : gmap string bool;
}.

(** The "Apply custom configuration" block of [Reconcile]. *)
Definition applyCustomConfiguration (traefikConfig : traefik.Config)
    (cfg : config.TraefikConfig) : traefik.Config :=
  let spec := config.Spec cfg in
  let traefikConfig :=
    if negb (bool_decide (config.Image spec = ""))
    then {| traefik.Image := config.Image spec;
            traefik.Replicas := traefik.Replicas traefikConfig;
            traefik.IngressClass := traefik.IngressClass traefikConfig;
            traefik.IngressProvider := traefik.IngressProvider traefikConfig |}
    else traefikConfig in
  let traefikConfig :=
    if bool_decide (config.Replicas spec > 0)%Z
    then {| traefik.Image := traefik.Image traefikConfig;
            traefik.Replicas := config.Replicas spec;
            traefik.IngressClass := traefik.IngressClass traefikConfig;
            traefik.IngressProvider := traefik.IngressProvider traefikConfig |}
    else traefikConfig in
  let traefikConfig :=
    if negb (bool_decide (config.IngressClass spec = ""))
    then {| traefik.Image := traefik.Image traefikConfig;
            traefik.Replicas := traefik.Replicas traefikConfig;
            traefik.IngressClass := config.IngressClass spec;
            traefik.IngressProvider := traefik.IngressProvider traefikConfig |}
    else traefikConfig in
  let traefikConfig :=
    if negb (bool_decide (config.IngressProvider spec = ""))
    then {| traefik.Image := traefik.Image traefikConfig;
            traefik.Replicas := traefik.Replicas traefikConfig;
            traefik.IngressClass := traefik.IngressClass traefikConfig;
            traefik.IngressProvider := config.IngressProvider spec |}
    else traefikConfig in
  traefikConfig.

(** "Parse the Traefik configuration from the extension spec": the
    configuration [Reconcile] deploys with. *)
Definition parseConfig (a : Actuator) (ex : extensionsv1alpha1.Extension) : M traefik.Config :=
  let traefikConfig := traefik.DefaultConfig in
  match extensionsv1alpha1.ProviderConfig (extensionsv1alpha1.Extension_Spec ex) with
  | Some providerConfig =>
      match decoder a (extensionsv1alpha1.Raw providerConfig) with
      | inl err =>
          emit (LogLine LevelError (Some err)
                  "failed to decode provider config, using defaults" []);;
          mret traefikConfig
      | inr cfg =>
          (* Apply custom configuration *)
          mret (applyCustomConfiguration traefikConfig cfg)
      end
  | None => mret traefikConfig
  end.

Section Actuator.
Context (E : traefik.Env).

(** [Reconcile], up to the deferred increment of the metrics counter. *)
Definition reconcile (a : Actuator) (ex : extensionsv1alpha1.Extension) : M (option error) :=
  (* The cluster name is the same as the name of the namespace for our
     Extension resource. *)
  let clusterName := extensionsv1alpha1.Extension_Namespace ex in
  emit (LogLine LevelInfo None "reconciling traefik extension"
          [("name", extensionsv1alpha1.Extension_Name ex); ("cluster", clusterName)]);;
  got ← extensionscontroller.GetCluster clusterName;
  match got with
  | inl err => mret (Some (Errorf "failed to get cluster: " err ""))
  | inr cluster =>
  let shoot := extensionsv1alpha1.Shoot cluster in
  (* Nothing to do here, if the shoot cluster is hibernated at the moment. *)
  if v1beta1helper.HibernationIsEnabled shoot
  then
    emit (LogLine LevelInfo None "shoot is hibernated, skipping traefik deployment"
            [("cluster", clusterName)]);;
    mret None
  else
  (* Validate that the shoot purpose is "evaluation". *)
  let purpose := gardencorev1beta1.ShootSpec_Purpose (gardencorev1beta1.Shoot_Spec shoot) in
  if bool_decide (purpose = None)
     || negb (bool_decide (purpose = Some gardencorev1beta1.ShootPurposeEvaluation))
  then
    let purposeStr := "nil" in
    let purposeStr := match purpose with Some p => p | None => purposeStr end in
    emit (LogLine LevelError (Some ErrShootPurposeNotEvaluation)
            "shoot purpose validation failed"
            [("cluster", clusterName); ("purpose", purposeStr)]);;
    mret (Some (Errorf "" ErrShootPurposeNotEvaluation
                  (": got purpose '" +:+ purposeStr +:+ "'")))
  else
  (* Parse the Traefik configuration from the extension spec *)
  traefikConfig ← parseConfig a ex;
  (* Deploy Traefik to the shoot cluster *)
  let deployer := traefik.NewDeployer traefikConfig (imageVector a) in
  deployed ← traefik.Deploy E deployer clusterName;
  match deployed with
  | Some err => mret (Some (Errorf "failed to deploy traefik: " err ""))
  | None =>
  emit (LogLine LevelInfo None "successfully reconciled traefik extension"
          [("cluster", clusterName)]);;
  mret None
  end end.

(** [Reconcile] reconciles the Extension resource: it deploys the Traefik
    ingress controller to the shoot cluster. *)
Definition Reconcile (a : Actuator) (ex : extensionsv1alpha1.Extension) : M (option error) :=
  returned ← reconcile a ex;
  (* Increment our metrics counter *)
  emit (MetricInc (extensionsv1alpha1.Extension_Namespace ex) "reconcile");;
  mret returned.

(** [Delete] deletes any resources managed by the actuator. *)
Definition Delete (a : Actuator) (ex : extensionsv1alpha1.Extension) : M (option error) :=
  let clusterName := extensionsv1alpha1.Extension_Namespace ex in
  returned ←
    (emit (LogLine LevelInfo None "deleting traefik resources managed by extension"
             [("cluster", clusterName)]);;
     (* Delete Traefik from the shoot cluster *)
     let deployer := traefik.NewDeployer traefik.DefaultConfig (imageVector a) in
     deleted ← traefik.Delete E deployer clusterName;
     match deleted with
     | Some err => mret (Some (Errorf "failed to delete traefik: " err ""))
     | None =>
         emit (LogLine LevelInfo None "successfully deleted traefik resources"
                 [("cluster", clusterName)]);;
         mret None
     end);
  emit (MetricInc clusterName "delete");;
  mret returned.

(** [ForceDelete]: the shoot has been force-deleted. *)
Definition ForceDelete (a : Actuator) (ex : extensionsv1alpha1.Extension) : M (option error) :=
  let clusterName := extensionsv1alpha1.Extension_Namespace ex in
  returned ←
    (emit (LogLine LevelInfo None "shoot has been force-deleted, deleting traefik resources"
             [("cluster", clusterName)]);;
     let deployer := traefik.NewDeployer traefik.DefaultConfig (imageVector a) in
     deleted ← traefik.Delete E deployer clusterName;
     match deleted with
     | Some err => mret (Some (Errorf "failed to force-delete traefik: " err ""))
     | None => mret None
     end);
  emit (MetricInc clusterName "force_delete");;
  mret returned.

(** [Restore] and [Migrate] are [Reconcile], counted under their own name. *)
Definition Restore (a : Actuator) (ex : extensionsv1alpha1.Extension) : M (option error) :=
  returned ← Reconcile a ex;
  emit (MetricInc (extensionsv1alpha1.Extension_Namespace ex) "restore");;
  mret returned.

Definition Migrate (a : Actuator) (ex : extensionsv1alpha1.Extension) : M (option error) :=
  returned ← Reconcile a ex;
  emit (MetricInc (extensionsv1alpha1.Extension_Namespace ex) "migrate");;
  mret returned.

End Actuator.

End actuator.

(** ** The vocabulary of the properties *)

Import traefik.

(** The calls that reach the store, and among them those that write. *)
Definition isClientCall (e : Event) : bool :=
  match e with
  | CallCreate _ _ | CallGet _ _ | CallUpdate _ _ _ | CallDelete _ _ => true
  | _ => false
  end.

Definition isStoreWrite (e : Event) : bool :=
  match e with
  | CallCreate _ _ | CallUpdate _ _ _ | CallDelete _ _ => true
  | _ => false
  end.

Definition isFindImage (e : Event) : bool :=
  match e with
  | CallFindImage _ => true
  | _ => false
  end.

Definition clientCalls (t : list Event) : list Event := filter (fun e => isClientCall e) t.

(** The world after the events [t]. *)
Definition after (t : list Event) (w : World) : World :=
  {| store := store w; faults := faults w; trace := trace w ++ t |}.

(** What a store holds, version tokens and the revision counter apart. *)
Definition contents (s : Store)
  : gmap ObjectKey corev1.Secret * gmap ObjectKey resourcesv1alpha1.ManagedResource
    * gmap ObjectKey extensionsv1alpha1.Cluster :=
  (stamp 0 <$> Secrets s, stamp 0 <$> ManagedResources s, stamp 0 <$> Clusters s).

(** The arguments and the image of the workload: those of the first
    container of the pod template. *)
Definition workloadContainer (deploy : appsv1.Deployment) : option corev1.Container :=
  head (corev1.Containers
          (corev1.PodTemplateSpec_Spec (appsv1.Template (appsv1.Deployment_Spec deploy)))).


Definition workloadImage (deploy : appsv1.Deployment) : option string :=
  corev1.Container_Image <$> workloadContainer deploy.





Definition touchesNamespaces (rule : rbacv1.PolicyRule) : bool :=
  bool_decide ("namespaces" ∈ rbacv1.Resources rule).

(** Resolution as the specification words it: a field of the override that
    is non-empty (non-zero for the replica count) replaces the base's. *)
Definition resolveAsSpecified (base : Config) (override : config.TraefikConfig) : Config :=
  let spec := config.Spec override in
  {| Image := if bool_decide (config.Image spec = "") then Image base else config.Image spec;
     Replicas :=
       if bool_decide (config.Replicas spec = 0%Z) then Replicas base
       else config.Replicas spec;
     IngressClass :=
       if bool_decide (config.IngressClass spec = "") then IngressClass base
       else config.IngressClass spec;
     IngressProvider :=
       if bool_decide (config.IngressProvider spec = "") then IngressProvider base
       else config.IngressProvider spec |}.

(** The image-vector lookups of one build: one when the configuration names
    no image, none otherwise. *)
Definition resolverCalls (E : Env) (d : Deployer) : list Event :=
  if bool_decide (Image (config d) = "") then [CallFindImage (ImageName E)] else [].

Definition succeeded {A : Type} (r : error + A) : bool :=
  match r with
  | inr _ => true
  | inl _ => false
  end.

(** The create-or-update block of [Deploy], which it runs once for the
    secret and once for the managed resource, with the texts of its three
    errors. *)
Definition upsert {A : Type} `{Object A} (obj : A) (onCreate onGet onUpdate : string)
  : M (option error) :=
  created ← Create obj;
  match created with
  | Some err =>
      match IgnoreAlreadyExists err with
      | Some _ => mret (Some (Errorf onCreate err ""))
      | None =>
          fetched ← Get (A := A) (ObjectKeyFromObject obj);
          match fetched with
          | inl err => mret (Some (Errorf onGet err ""))
          | inr existing =>
              let obj := stamp (resourceVersionOf existing) obj in
              updated ← Update obj;
              match updated with
              | Some err => mret (Some (Errorf onUpdate err ""))
              | None => mret None
              end
          end
      end
  | None => mret None
  end.

(** The key of the secret and of the managed resource of a target. *)
Definition deployKey (E : Env) (namespace : string) : ObjectKey :=
  (namespace, ManagedResourceName E).

(** The key of the [Cluster] object of an extension's shoot, and the shoot's
    declared purpose. *)
Definition clusterKey (ex : extensionsv1alpha1.Extension) : ObjectKey :=
  ("", extensionsv1alpha1.Extension_Namespace ex).

Definition purposeOf (cluster : extensionsv1alpha1.Cluster) : option string :=
  gardencorev1beta1.ShootSpec_Purpose
    (gardencorev1beta1.Shoot_Spec (extensionsv1alpha1.Shoot cluster)).

(** Log lines that several properties name. *)
Definition reconcilingLine (ex : extensionsv1alpha1.Extension) : Event :=
  LogLine LevelInfo None "reconciling traefik extension"
    [("name", extensionsv1alpha1.Extension_Name ex);
     ("cluster", extensionsv1alpha1.Extension_Namespace ex)].


Definition deployLine (namespace : string) : Event :=
  LogLine LevelInfo None "deploying traefik to shoot cluster" [("namespace", namespace)].

(** The error of a build whose image lookup failed with [cause]. *)
Definition imageResolutionError (cause : error) : error :=
  Errorf "failed to create deployment: "
    (Errorf "failed to find traefik image in image vector: " cause "") "".

(** ** Concrete inputs *)

Module example.

Definition objectName (o : runtime.Object) : string :=
  match o with
  | runtime.OfServiceAccount sa => metav1.Name (corev1.ServiceAccount_ObjectMeta sa)
  | runtime.OfClusterRole cr => metav1.Name (rbacv1.ClusterRole_ObjectMeta cr)
  | runtime.OfClusterRoleBinding crb => metav1.Name (rbacv1.ClusterRoleBinding_ObjectMeta crb)
  | runtime.OfDeployment deploy => metav1.Name (appsv1.Deployment_ObjectMeta deploy)
  | runtime.OfService svc => metav1.Name (corev1.Service_ObjectMeta svc)
  | runtime.OfIngressClass ic => metav1.Name (networkingv1.IngressClass_ObjectMeta ic)
  | runtime.OfNetworkPolicy np => metav1.Name (networkingv1.NetworkPolicy_ObjectMeta np)
  end.

(** An environment with a codec that never fails (a manifest is the bytes of
    the object's name here) and a checksum that counts the manifests. *)
Definition env : Env :=
  {| ManagedResourceName := "extension-shoot-traefik";
     ServiceAccountName := "traefik";
     Namespace := "kube-system";
     DeploymentName := "traefik";
     ImageName := "traefik";
     Encode := fun o => inr (String.list_byte_of_string (objectName o));
     ComputeSecretChecksum := fun resources =>
       if bool_decide (size resources = 7) then "7" else "?" |}.

Definition images : imagevector.ImageVector := fun name =>
  if bool_decide (name = "traefik")
  then inr {| imagevector.Image_String := "docker.io/library/traefik:v3.6.7" |}
  else inl (New "could not find image").

Definition noImages : imagevector.ImageVector := fun _ =>
  inl (New "could not find image").

Definition deployer : Deployer := NewDeployer DefaultConfig images.

Definition nginxConfig : Config :=
  {| Image := "";
     Replicas := 2;
     IngressClass := "nginx";
     IngressProvider := config.IngressProviderKubernetesIngressNGINX |}.

Definition customImageConfig : Config :=
  {| Image := "custom:v1";
     Replicas := 2;
     IngressClass := "traefik";
     IngressProvider := config.IngressProviderKubernetesIngress |}.

Definition shoot (hibernated : bool) (purpose : option string) : extensionsv1alpha1.Cluster :=
  {| extensionsv1alpha1.Cluster_ObjectMeta :=
       {| metav1.Name := "shoot--local--a"; metav1.Namespace := "";
          metav1.Labels := ∅; metav1.Annotations := ∅; metav1.ResourceVersion := 1 |};
     extensionsv1alpha1.Shoot :=
       {| gardencorev1beta1.Shoot_Spec :=
            {| gardencorev1beta1.ShootSpec_Hibernation :=
                 Some {| gardencorev1beta1.Enabled := Some hibernated |};
               gardencorev1beta1.ShootSpec_Purpose := purpose |} |} |}.

(** A seed that holds nothing but the [Cluster] object of one shoot. *)
Definition seed (cluster : option extensionsv1alpha1.Cluster) : World :=
  {| store :=
       {| Secrets := ∅;
          ManagedResources := ∅;
          Clusters :=
            match cluster with
            | Some c => {[ ("", "shoot--local--a") := c ]}
            | None => ∅
            end;
          Revision := 1;
          RenumbersUnchanged := true |};
     faults := [];
     trace := [] |}.

Definition extension (providerConfig : option (list byte)) : extensionsv1alpha1.Extension :=
  {| extensionsv1alpha1.Extension_Name := "traefik";
     extensionsv1alpha1.Extension_Namespace := "shoot--local--a";
     extensionsv1alpha1.Extension_Spec :=
       {| extensionsv1alpha1.ProviderConfig :=
            (fun raw => {| extensionsv1alpha1.Raw := raw |}) <$> providerConfig |} |}.

(** An actuator whose decoder rejects every document. *)
Definition strictActuator : actuator.Actuator :=
  {| actuator.decoder := fun _ => inl (New "unknown field");
     actuator.imageVector := images;
     actuator.gardenerVersion := "";
     actuator.gardenletFeatureGates := ∅ |}.

(** The override of the scenario, and one that asks for a negative number of
    replicas. *)
Definition override (image : string) (replicas : Z) (ingressClass ingressProvider : string)
  : config.TraefikConfig :=
  {| config.TypeMeta :=
       {| metav1.APIVersion := "traefik.extensions.gardener.cloud/v1alpha1";
          metav1.Kind := "TraefikConfig" |};
     config.Spec :=
       {| config.Image := image; config.Replicas := replicas;
          config.IngressClass := ingressClass; config.IngressProvider := ingressProvider |} |}.

End example.

(** ** [pkg/actuator]: [New] and its options *)

Module actuatoroptions.

(** [ErrInvalidActuator] is an error which is returned when creating an
    Actuator with invalid config settings. *)
Definition ErrInvalidActuator : error := New "invalid actuator".

Definition Decoder : Type := list byte -> error + config.TraefikConfig.

Section New.

(** The client, and the decoder [New] builds from the client's scheme:
    [serializer.NewCodecFactory(c.Scheme(), serializer.EnableStrict).UniversalDecoder()]. *)
Context {Client : Type} (UniversalDecoder : Client -> Decoder).

(** The Actuator as [New] builds it: a nil interface, slice or map is
    [None]. *)
Record Actuator := {
  client : option Client;
  decoder : option Decoder;
  imageVector : option imagevector.ImageVector;
  gardenerVersion : string;
  gardenletFeatureGates : option (gmap string bool);
}.

(** [Option] is a function, which configures the Actuator: what it returns,
    and the Actuator it leaves. *)
Definition Option : Type := Actuator -> option error * Actuator.

(** The assignments [a.decoder = d], [a.gardenerVersion = v] and
    [a.gardenletFeatureGates = feats]. *)
Definition setDecoder (d : option Decoder) (a : Actuator) : Actuator :=
  {| client := client a; decoder := d; imageVector := imageVector a;
     gardenerVersion := gardenerVersion a;
     gardenletFeatureGates := gardenletFeatureGates a |}.

Definition setGardenerVersion (v : string) (a : Actuator) : Actuator :=
  {| client := client a; decoder := decoder a; imageVector := imageVector a;
     gardenerVersion := v;
     gardenletFeatureGates := gardenletFeatureGates a |}.

Definition setGardenletFeatureGates (feats : option (gmap string bool)) (a : Actuator)
  : Actuator :=
  {| client := client a; decoder := decoder a; imageVector := imageVector a;
     gardenerVersion := gardenerVersion a;
     gardenletFeatureGates := feats |}.

(** [WithDecoder] is an Option, which configures the Actuator with the given
    decoder. *)
Definition WithDecoder (d : option Decoder) : Option :=
  fun a => (None, setDecoder d a).

(** [WithGardenerVersion] is an Option, which configures the Actuator with
    the given version of Gardener. *)
Definition WithGardenerVersion (v : string) : Option :=
  fun a => (None, setGardenerVersion v a).

(** [WithGardenletFeatures] is an Option, which configures the Actuator with
    the given gardenlet feature gates. *)
Definition WithGardenletFeatures (feats : option (gmap string bool)) : Option :=
  fun a => (None, setGardenletFeatureGates feats a).

(** The loop of [New] over its options. *)
Fixpoint applyOptions (opts : list Option) (act : Actuator) : error + Actuator :=
  match opts with
  | [] => inr act
  | opt :: opts =>
      let (err, act) := opt act in
      match err with
      | Some err => inl err
      | None => applyOptions opts act
      end
  end.

(** [New] creates a new actuator with the given options. *)
Definition New (c : option Client) (imageVector : option imagevector.ImageVector)
    (opts : list Option) : error + Actuator :=
  match c with
  | None => inl (Errorf "" ErrInvalidActuator ": no client specified")
  | Some cl =>
  match imageVector with
  | None => inl (Errorf "" ErrInvalidActuator ": no image vector specified")
  | Some _ =>
  let act :=
    {| client := c; decoder := None; imageVector := imageVector;
       gardenerVersion := ""; gardenletFeatureGates := Some ∅ |} in
  match applyOptions opts act with
  | inl err => inl err
  | inr act =>
  let act :=
    match decoder act with
    | None => setDecoder (Some (UniversalDecoder cl)) act
    | Some _ => act
    end in
  inr act
  end end end.

End New.

End actuatoroptions.

(** ** Package [validator]: the shoot validator of the admission webhook *)

Module validator.

(** [ExtensionType] is the type of extension being validated. *)
Definition ExtensionType : string := "traefik".

(** [gardencorev1beta1.Extension]: its type and whether it is disabled; its
    provider configuration is left out. *)
Record Extension := {
  Extension_Type : string;
  Extension_Disabled : option bool;
}.

(** The Shoot the validator is given: the shoot, with the [Spec.Extensions]
    that the validator reads and the actuator never does. *)
Record Shoot := {
  Spec_Extensions : list Extension;
  Shoot_Object : gardencorev1beta1.Shoot;
}.

(** What the webhook hands to [Validate]: a Shoot, or an object of another
    Go type. *)
Inductive Object :=
| OfShoot (shoot : Shoot)
| OfType (goType : string).

(** The loop of [validateShoot], which stops at the first Traefik
    extension. *)
Fixpoint hasTraefikExtension (extensions : list Extension) : bool :=
  match extensions with
  | [] => false
  | ext :: extensions =>
      if bool_decide (Extension_Type ext = ExtensionType)
      then true (* break *)
      else hasTraefikExtension extensions
  end.

(** [validateShoot] validates that if the Traefik extension is enabled, the
    shoot must have purpose "evaluation". *)
Definition validateShoot (shoot : Shoot) : option error :=
  (* Check if the Traefik extension is configured *)
  let hasTraefikExtension := hasTraefikExtension (Spec_Extensions shoot) in
  (* If no Traefik extension, validation passes *)
  if negb hasTraefikExtension then None
  else
  (* Validate that the shoot purpose is "evaluation" *)
  let purpose :=
    gardencorev1beta1.ShootSpec_Purpose (gardencorev1beta1.Shoot_Spec (Shoot_Object shoot)) in
  if bool_decide (purpose = None)
     || negb (bool_decide (purpose = Some gardencorev1beta1.ShootPurposeEvaluation))
  then
    let purposeStr := "nil" in
    let purposeStr := match purpose with Some p => p | None => purposeStr end in
    Some (New ("traefik extension can only be enabled for shoots with purpose 'evaluation'. "
               +:+ "Current purpose: " +:+ purposeStr
               +:+ ". Traefik acts as a replacement for the nginx ingress controller "
               +:+ "and is only supported for evaluation clusters"))
  else None.

(** [Validate] validates the given object (Shoot) on create and update
    operations. *)
Definition Validate (newClient old : Object) : option error :=
  match newClient with
  | OfShoot shoot => validateShoot shoot
  | OfType goType => Some (New ("expected *gardencorev1beta1.Shoot but got " +:+ goType))
  end.

End validator.

(** ** [pkg/traefik], the helpers of its tests *)

Module traefik_test.

(** Go's [len] of a string, and the slice [s[i:j]] for [0 <= i <= j <= len s]. *)
Definition len (s : string) : Z := Z.of_nat (String.length s).

Definition slice (s : string) (i j : Z) : string :=
  String.substring (Z.to_nat i) (Z.to_nat (j - i)) s.

(** [findSubstring]: the loop runs [i] from [0] to [len s - len substr] and
    returns at the first match. *)
Definition findSubstring (s substr : string) : bool :=
  existsb (fun i => bool_decide (slice s i (i + len substr) = substr))
    (seqZ 0 (len s - len substr + 1)).

Definition contains (s substr : string) : bool :=
  bool_decide (len s >= len substr)%Z
  && (bool_decide (s = substr)
      || bool_decide (len substr = 0)%Z
      || (bool_decide (len s > 0)%Z && bool_decide (len substr > 0)%Z
          && findSubstring s substr)).

End traefik_test.

(** ** Vocabulary of the further properties *)

(** A computation whose every run takes a world to one related to it by
    [R]. *)
Definition steps {A : Type} (R : relation World) (m : M A) : Prop :=
  forall w, R w (m w).2.

(** [w'] comes after [w] by events that satisfy [P] and by writes under
    [key] only. *)
Definition within (P : Event -> bool) (key : ObjectKey) : relation World := fun w w' =>
  (exists t, trace w' = trace w ++ t /\ forallb P t = true)
  /\ Clusters (store w') = Clusters (store w)
  /\ RenumbersUnchanged (store w') = RenumbersUnchanged (store w)
  /\ Revision (store w) <= Revision (store w')
  /\ (forall k, k <> key ->
        Secrets (store w') !! k = Secrets (store w) !! k
        /\ ManagedResources (store w') !! k = ManagedResources (store w) !! k)
  /\ (faults w = [] -> faults w' = []).

(** The kinds of the two objects that [Deploy] writes and [Delete]
    removes. *)
Definition isDeployObject (kind : ObjectKind) : bool :=
  match kind with
  | KindSecret | KindManagedResource => true
  | KindCluster => false
  end.

(** The events of a [Deploy] for the namespace [ns]: log lines, the lookup
    of the image when the configuration names none, and creations, reads and
    updates of its two objects. *)
Definition isDeployCall (E : Env) (d : Deployer) (ns : string) (e : Event) : bool :=
  match e with
  | LogLine _ _ _ _ => true
  | CallFindImage name =>
      bool_decide (Image (config d) = "") && bool_decide (name = ImageName E)
  | CallCreate kind key | CallGet kind key | CallUpdate kind key _ =>
      bool_decide (key = deployKey E ns) && isDeployObject kind
  | CallDelete _ _ | MetricInc _ _ => false
  end.

(** The events of a [Delete] for the namespace [ns]: log lines and
    deletions of its two objects. *)

Definition isDeleteCall (E : Env) (ns : string) (e : Event) : bool :=
  match e with
  | LogLine _ _ _ _ => true
  | CallDelete kind key => bool_decide (key = deployKey E ns) && isDeployObject kind
  | _ => false
  end.

(** The annotation under which the secret carries the checksum of its
    data. *)
Definition checksumAnnotation : string := "resources.gardener.cloud/data-checksum".

(** The events of a [Reconcile]: those of its [Deploy], and the read of the
    shoot's [Cluster] object. *)
Definition isReconcileCall (E : Env) (d : Deployer) (ex : extensionsv1alpha1.Extension)
    (e : Event) : bool :=
  isDeployCall E d (extensionsv1alpha1.Extension_Namespace ex) e
  || match e with
     | CallGet KindCluster key => bool_decide (key = clusterKey ex)
     | _ => false
     end.

(** The log lines of a trace. *)
Definition isLogLine (e : Event) : bool :=
  match e with
  | LogLine _ _ _ _ => true
  | _ => false
  end.

(** The metric increments of a trace. *)
Definition isMetricInc (e : Event) : bool :=
  match e with
  | MetricInc _ _ => true
  | _ => false
  end.

Definition metricIncs (t : list Event) : list Event := filter (fun e => isMetricInc e) t.

(** The labels and the spec of the pods of a deployment. *)
Definition podLabels (deploy : appsv1.Deployment) : gmap string string :=
  metav1.Labels (corev1.PodTemplateSpec_ObjectMeta
                   (appsv1.Template (appsv1.Deployment_Spec deploy))).

Definition podAnnotations (deploy : appsv1.Deployment) : gmap string string :=
  metav1.Annotations (corev1.PodTemplateSpec_ObjectMeta
                        (appsv1.Template (appsv1.Deployment_Spec deploy))).

Definition podSpec (deploy : appsv1.Deployment) : corev1.PodSpec :=
  corev1.PodTemplateSpec_Spec (appsv1.Template (appsv1.Deployment_Spec deploy)).

(** The selector of the service, as a label selector. *)
Definition serviceSelector (E : Env) (d : Deployer) : metav1.LabelSelector :=
  {| metav1.MatchLabels :=
       corev1.ServiceSpec_Selector (corev1.Service_Spec (service E d)) |}.

(** The flag that opens the entry point [name] on [port]. *)
Definition entrypointFlag (name : string) (port : Z) : string :=
  "--entrypoints." +:+ name +:+ ".address=:" +:+ pretty port.

(** The number of the container port called [name]. *)
Definition portNamed (c : corev1.Container) (name : string) : option Z :=
  corev1.ContainerPort_ContainerPort
    <$> head (filter (fun p => corev1.ContainerPort_Name p = name) (corev1.Container_Ports c)).

(** The port a service port is forwarded to in the container. *)
Definition targetOf (c : corev1.Container) (sp : corev1.ServicePort) : option Z :=
  match corev1.ServicePort_TargetPort sp with
  | intstr.FromInt val => Some val
  | intstr.FromString val => portNamed c val
  end.

(** The port a probe asks. *)
Definition probedPort (c : corev1.Container) (probe : option corev1.Probe) : option Z :=
  p ← probe;
  get ← corev1.HTTPGet (corev1.Probe_ProbeHandler p);
  match corev1.HTTPGetAction_Port get with
  | intstr.FromInt val => Some val
  | intstr.FromString val => portNamed c val
  end.

(** The verbs that read, and the one rule of the role that writes. *)
Definition readVerbs : list string := ["get"; "list"; "watch"].

Definition isReadOnly (rule : rbacv1.PolicyRule) : bool :=
  forallb (fun verb => bool_decide (verb ∈ readVerbs)) (rbacv1.Verbs rule).

Definition statusUpdateRule : rbacv1.PolicyRule :=
  {| rbacv1.APIGroups := ["extensions"; "networking.k8s.io"];
     rbacv1.Resources := ["ingresses/status"];
     rbacv1.Verbs := ["update"] |}.

(** The files of the bundle and the objects they hold, for a resolved
    image. *)
Definition manifests (E : Env) (d : Deployer) (image : string)
  : list (string * runtime.Object) :=
  [("serviceaccount.yaml", runtime.OfServiceAccount (serviceAccount E d));
   ("clusterrole.yaml", runtime.OfClusterRole (clusterRole d));
   ("clusterrolebinding.yaml", runtime.OfClusterRoleBinding (clusterRoleBinding E d));
   ("deployment.yaml",
    runtime.OfDeployment (deploymentObject E d image (deploymentArgs d)));
   ("service.yaml", runtime.OfService (service E d));
   ("ingressclass.yaml", runtime.OfIngressClass (ingressClass d));
   ("networkpolicy.yaml", runtime.OfNetworkPolicy (networkPolicy E d))].

(** The options the package provides, as data. *)
Inductive ProvidedOption :=
| OptDecoder (d : option actuatoroptions.Decoder)
| OptGardenerVersion (v : string)
| OptGardenletFeatures (feats : option (gmap string bool)).

Definition provided {Client : Type} (o : ProvidedOption)
  : actuatoroptions.Option (Client := Client) :=
  match o with
  | OptDecoder d => actuatoroptions.WithDecoder d
  | OptGardenerVersion v => actuatoroptions.WithGardenerVersion v
  | OptGardenletFeatures feats => actuatoroptions.WithGardenletFeatures feats
  end.

(** The last decoder, version and feature gates among options. *)
Definition decoderGiven (os : list ProvidedOption) : option (option actuatoroptions.Decoder) :=
  last (omap (fun o => match o with OptDecoder d => Some d | _ => None end) os).

Definition versionGiven (os : list ProvidedOption) : option string :=
  last (omap (fun o => match o with OptGardenerVersion v => Some v | _ => None end) os).

Definition featuresGiven (os : list ProvidedOption) : option (option (gmap string bool)) :=
  last (omap (fun o => match o with OptGardenletFeatures f => Some f | _ => None end) os).

(** The actuator of the reconcile path that [New] has built. *)
Definition built {Client : Type} (act : actuatoroptions.Actuator (Client := Client))
  : option actuator.Actuator :=
  d ← actuatoroptions.decoder act;
  iv ← actuatoroptions.imageVector act;
  Some {| actuator.decoder := d; actuator.imageVector := iv;
          actuator.gardenerVersion := actuatoroptions.gardenerVersion act;
          actuator.gardenletFeatureGates :=
            default ∅ (actuatoroptions.gardenletFeatureGates act) |}.

(** ** Concrete inputs of the further properties *)

Module scenarios.

(** An answer of the API server that is neither "already exists" nor "not
    found". *)
Definition outage : error := StatusError StatusReasonUnknown "etcdserver: request timed out".

(** The world [w], with the failures [fs] injected into the client calls to
    come. *)
Definition failing (fs : list (option error)) (w : World) : World :=
  {| store := store w; faults := fs; trace := trace w |}.

(** The deployment built for the default configuration. *)
Definition workload : appsv1.Deployment :=
  deploymentObject example.env example.deployer "docker.io/library/traefik:v3.6.7"
    (deploymentArgs example.deployer).

(** The seed after a first [Deploy]. *)
Definition deployed : World :=
  (Deploy example.env example.deployer "shoot--local--a" (example.seed None)).2.

(** The seed of a shoot of purpose "evaluation" that is awake. *)
Definition evaluationSeed : World :=
  example.seed (Some (example.shoot false (Some "evaluation"))).

(** An actuator whose decoder reads every document as [cfg]. *)
Definition actuatorReading (cfg : config.TraefikConfig) : actuator.Actuator :=
  {| actuator.decoder := fun _ => inr cfg;
     actuator.imageVector := example.images;
     actuator.gardenerVersion := "";
     actuator.gardenletFeatureGates := ∅ |}.


(** The manifest of a shoot that enables the Traefik extension after
    another one. *)
Definition manifest (purpose : option string) : validator.Shoot :=
  {| validator.Spec_Extensions :=
       [ {| validator.Extension_Type := "shoot-dns-service";
            validator.Extension_Disabled := None |};
         {| validator.Extension_Type := "traefik";
            validator.Extension_Disabled := Some false |} ];
     validator.Shoot_Object := extensionsv1alpha1.Shoot (example.shoot false purpose) |}.

End scenarios.

(** * Properties *)

(** ** Running a computation *)

Ltac run := unfold mbind, M_bind, mret, M_ret, emit, getStore, putStore; cbv beta iota.

Lemma after_nil (w : World) : after [] w = w.
Proof. unfold after. rewrite app_nil_r. reflexivity. Qed.

Lemma Is_refl (e : error) : Is e e = true.
Proof. destruct e; cbn; by rewrite bool_decide_eq_true_2. Qed.

Lemma IgnoreAlreadyExists_taken (verb : string) (key : ObjectKey) :
  IgnoreAlreadyExists (statusError StatusReasonAlreadyExists verb key) = None.
Proof. reflexivity. Qed.

Lemma IgnoreNotFound_missing (verb : string) (key : ObjectKey) :
  IgnoreNotFound (statusError StatusReasonNotFound verb key) = None.
Proof. reflexivity. Qed.

Lemma andb_bool_decide_true (b : bool) (P : Prop) `{Decision P} :
  b && bool_decide P = true -> P.
Proof. intros [_ HP%bool_decide_eq_true]%andb_true_iff. exact HP. Qed.

(** ** The client, when the environment injects no failure *)

Section ClientCalls.
Context {A : Type} `{Object A}.

Lemma call_quiet (e : Event) (w : World) :
  faults w = [] -> call e w = (None, after [e] w).
Proof. intros Hf. unfold call, after. by rewrite Hf. Qed.

Lemma Create_taken (obj old : A) (w : World) :
  faults w = [] ->
  table (store w) !! ObjectKeyFromObject obj = Some old ->
  Create obj w =
    (Some (statusError StatusReasonAlreadyExists "already exists" (ObjectKeyFromObject obj)),
     after [CallCreate (kindOf A) (ObjectKeyFromObject obj)] w).
Proof.
  intros Hf Hl. unfold Create. run. rewrite (call_quiet _ _ Hf). run.
  cbn [store after]. by rewrite Hl.
Qed.

Lemma Get_found (key : ObjectKey) (obj : A) (w : World) :
  faults w = [] ->
  table (store w) !! key = Some obj ->
  Get key w = (inr obj, after [CallGet (kindOf A) key] w).
Proof.
  intros Hf Hl. unfold Get. run. rewrite (call_quiet _ _ Hf). run.
  cbn [store after]. by rewrite Hl.
Qed.

(** An update that carries the stored version token is accepted; it is
    dropped when it changes nothing and the store does not renumber. *)
Lemma Update_current (obj old : A) (w : World) :
  faults w = [] ->
  table (store w) !! ObjectKeyFromObject obj = Some old ->
  resourceVersionOf obj = resourceVersionOf old ->
  Update obj w =
    (None,
     if negb (RenumbersUnchanged (store w))
        && bool_decide (stamp (resourceVersionOf old) obj = old)
     then after [CallUpdate (kindOf A) (ObjectKeyFromObject obj) (resourceVersionOf obj)] w
     else {| store := written (ObjectKeyFromObject obj) obj (store w);
             faults := faults w;
             trace := trace w
               ++ [CallUpdate (kindOf A) (ObjectKeyFromObject obj) (resourceVersionOf obj)] |}).
Proof.
  intros Hf Hl Hrv. unfold Update. run. rewrite (call_quiet _ _ Hf). run.
  cbn [store after]. rewrite Hl, Hrv, Nat.eqb_refl, andb_false_r.
  destruct (negb _ && _); [reflexivity|]. cbn. reflexivity.
Qed.

Lemma Delete_run (obj : A) (w : World) :
  faults w = [] ->
  client.Delete obj w =
    match table (store w) !! ObjectKeyFromObject obj with
    | None =>
        (Some (statusError StatusReasonNotFound "not found" (ObjectKeyFromObject obj)),
         after [CallDelete (kindOf A) (ObjectKeyFromObject obj)] w)
    | Some _ =>
        (None,
         {| store := withTable (delete (ObjectKeyFromObject obj) (table (store w))) (store w);
            faults := [];
            trace := trace w ++ [CallDelete (kindOf A) (ObjectKeyFromObject obj)] |})
    end.
Proof.
  intros Hf. unfold client.Delete. run. rewrite (call_quiet _ _ Hf). cbn [store after].
  destruct (table (store w) !! _); cbn; by rewrite ?Hf.
Qed.

End ClientCalls.

Lemma GetCluster_found (ns : string) (cluster : extensionsv1alpha1.Cluster) (w : World) :
  faults w = [] ->
  Clusters (store w) !! ("", ns) = Some cluster ->
  extensionscontroller.GetCluster ns w = (inr cluster, after [CallGet KindCluster ("", ns)] w).
Proof.
  intros Hf Hl. unfold extensionscontroller.GetCluster.
  exact (Get_found (A := extensionsv1alpha1.Cluster) _ _ _ Hf Hl).
Qed.

(** ** The create-or-update block *)

(** One successful run of the block leaves the object in its table, under
    some version token, and the other table as it was. *)
Ltac upsert_ok :=
  unfold upsert, Create, Get, Update, call; run; intros;
  repeat (case_match; simplify_eq; cbn in * );
  (split; [|done]);
  first [ eexists; apply lookup_insert_eq
        | match goal with
          | Hd : _ && bool_decide (_ = ?s) = true, Hl : _ !! _ = Some ?s |- _ =>
              apply andb_bool_decide_true in Hd;
              exists (resourceVersionOf s);
              etransitivity; [exact Hl|]; f_equal; symmetry; exact Hd
          end ].

Lemma upsert_Secret_ok (obj : corev1.Secret) (m1 m2 m3 : string) (w w' : World) :
  upsert obj m1 m2 m3 w = (None, w') ->
  (exists rv, Secrets (store w') !! ObjectKeyFromObject obj = Some (stamp rv obj))
  /\ ManagedResources (store w') = ManagedResources (store w).
Proof. upsert_ok. Qed.

Lemma upsert_ManagedResource_ok (obj : resourcesv1alpha1.ManagedResource)
    (m1 m2 m3 : string) (w w' : World) :
  upsert obj m1 m2 m3 w = (None, w') ->
  (exists rv, ManagedResources (store w') !! ObjectKeyFromObject obj = Some (stamp rv obj))
  /\ Secrets (store w') = Secrets (store w).
Proof. upsert_ok. Qed.

Lemma contents_written_Secret (key : ObjectKey) (obj old : corev1.Secret) (s : Store) :
  Secrets s !! key = Some old -> stamp 0 old = stamp 0 obj ->
  contents (written key obj s) = contents s.
Proof.
  intros Hl Ho. unfold contents, written. cbn. do 2 f_equal.
  rewrite fmap_insert. apply insert_id. rewrite lookup_fmap, Hl. cbn. f_equal.
  exact Ho.
Qed.

Lemma contents_written_ManagedResource (key : ObjectKey)
    (obj old : resourcesv1alpha1.ManagedResource) (s : Store) :
  ManagedResources s !! key = Some old -> stamp 0 old = stamp 0 obj ->
  contents (written key obj s) = contents s.
Proof.
  intros Hl Ho. unfold contents, written. cbn. f_equal. f_equal.
  rewrite fmap_insert. apply insert_id. rewrite lookup_fmap, Hl. cbn. f_equal.
  exact Ho.
Qed.

(** A run of the block over an object that is already stored: create is
    answered "already exists", the object is fetched, and the update carries
    the fetched version token. *)
Ltac upsert_again lem :=
  intros Hf Hl; unfold upsert; run;
  erewrite Create_taken; [|exact Hf|exact Hl];
  rewrite IgnoreAlreadyExists_taken; cbv beta iota;
  erewrite Get_found; [|exact Hf|exact Hl]; cbv beta iota;
  erewrite Update_current; [|exact Hf|exact Hl|reflexivity];
  cbn [store after faults trace];
  rewrite bool_decide_eq_true_2 by reflexivity; rewrite andb_true_r;
  destruct (RenumbersUnchanged _) eqn:Hr; cbn [negb];
  eexists; (split; [reflexivity|]); cbn [store after faults trace];
  rewrite <- !app_assoc; repeat split; try done;
  try (eapply lem; [exact Hl|reflexivity]).

Lemma upsert_Secret_again (obj : corev1.Secret) (rv : nat) (m1 m2 m3 : string) (w : World) :
  faults w = [] ->
  Secrets (store w) !! ObjectKeyFromObject obj = Some (stamp rv obj) ->
  exists w', upsert obj m1 m2 m3 w = (None, w')
    /\ faults w' = []
    /\ trace w' = trace w ++ [CallCreate KindSecret (ObjectKeyFromObject obj);
                              CallGet KindSecret (ObjectKeyFromObject obj);
                              CallUpdate KindSecret (ObjectKeyFromObject obj) rv]
    /\ contents (store w') = contents (store w)
    /\ (RenumbersUnchanged (store w) = false -> store w' = store w)
    /\ RenumbersUnchanged (store w') = RenumbersUnchanged (store w)
    /\ ManagedResources (store w') = ManagedResources (store w).
Proof. upsert_again contents_written_Secret. Qed.

Lemma upsert_ManagedResource_again (obj : resourcesv1alpha1.ManagedResource) (rv : nat)
    (m1 m2 m3 : string) (w : World) :
  faults w = [] ->
  ManagedResources (store w) !! ObjectKeyFromObject obj = Some (stamp rv obj) ->
  exists w', upsert obj m1 m2 m3 w = (None, w')
    /\ faults w' = []
    /\ trace w' = trace w ++ [CallCreate KindManagedResource (ObjectKeyFromObject obj);
                              CallGet KindManagedResource (ObjectKeyFromObject obj);
                              CallUpdate KindManagedResource (ObjectKeyFromObject obj) rv]
    /\ contents (store w') = contents (store w)
    /\ (RenumbersUnchanged (store w) = false -> store w' = store w)
    /\ RenumbersUnchanged (store w') = RenumbersUnchanged (store w)
    /\ Secrets (store w') = Secrets (store w).
Proof. upsert_again contents_written_ManagedResource. Qed.

(** ** The build: its result and its effects do not depend on the world *)

Section Build.
Context (E : Env).

Lemma clientCalls_resolverCalls (d : Deployer) : clientCalls (resolverCalls E d) = [].
Proof. unfold resolverCalls. by case_bool_decide. Qed.

Lemma deploymentImage_run (d : Deployer) :
  exists r, forall w, deploymentImage E d w = (r, after (resolverCalls E d) w).
Proof.
  unfold deploymentImage, resolverCalls. case_bool_decide.
  - destruct (imageVector d (ImageName E)); eexists; intros w; run; reflexivity.
  - eexists; intros w; run. by rewrite after_nil.
Qed.

Lemma deployment_run (d : Deployer) :
  exists r, forall w, deployment E d w = (r, after (resolverCalls E d) w).
Proof.
  destruct (deploymentImage_run d) as [r Hr]. unfold deployment.
  destruct r; eexists; intros w; run; rewrite Hr; reflexivity.
Qed.


Lemma generateResources_run (d : Deployer) :
  exists r t, (forall w, generateResources E d w = (r, after t w))
              /\ (t = [] \/ t = resolverCalls E d).
Proof.
  destruct (deployment_run d) as [r Hr]. unfold generateResources.
  destruct (Encode E (runtime.OfServiceAccount _)).
  { eexists _, []; split; [intros w; run; by rewrite after_nil|by left]. }
  destruct (Encode E (runtime.OfClusterRole _)).
  { eexists _, []; split; [intros w; run; by rewrite after_nil|by left]. }
  destruct (Encode E (runtime.OfClusterRoleBinding _)).
  { eexists _, []; split; [intros w; run; by rewrite after_nil|by left]. }
  destruct r as [e|deploy].
  { eexists _, _; split; [intros w; run; by rewrite Hr|by right]. }
  destruct (Encode E (runtime.OfDeployment deploy)) eqn:Hd.
  { eexists _, _; split; [intros w; run; rewrite Hr; cbv beta iota; by rewrite Hd|by right]. }
  destruct (Encode E (runtime.OfService _)).
  { eexists _, _; split; [intros w; run; rewrite Hr; cbv beta iota; by rewrite Hd|by right]. }
  destruct (Encode E (runtime.OfIngressClass _)).
  { eexists _, _; split; [intros w; run; rewrite Hr; cbv beta iota; by rewrite Hd|by right]. }
  destruct (Encode E (runtime.OfNetworkPolicy _)).
  { eexists _, _; split; [intros w; run; rewrite Hr; cbv beta iota; by rewrite Hd|by right]. }
  eexists _, _; split; [intros w; run; rewrite Hr; cbv beta iota; by rewrite Hd|by right].
Qed.

(** [Deploy] is the build followed by the create-or-update block, once per
    object. *)
Lemma Deploy_unfold (d : Deployer) (ns : string) :
  Deploy E d ns =
  (emit (deployLine ns);;
   generated ← generateResources E d;
   match generated with
   | inl err => mret (Some (Errorf "failed to generate traefik resources: " err ""))
   | inr resources =>
       returned ← upsert (deploySecret E ns resources) "failed to create secret: "
                    "failed to get existing secret: " "failed to update secret: ";
       match returned with
       | Some err => mret (Some err)
       | None =>
           returned ← upsert (deployManagedResource E ns)
                        "failed to create managed resource: "
                        "failed to get existing managed resource: "
                        "failed to update managed resource: ";
           match returned with
           | Some err => mret (Some err)
           | None =>
               emit (LogLine LevelInfo None "successfully deployed traefik"
                       [("namespace", ns)]);;
               mret None
           end
       end
   end).
Proof. reflexivity. Qed.

(** After a successful [Deploy] the store holds the secret and the managed
    resource of the bundle that was built. *)
Lemma Deploy_ok (d : Deployer) (ns : string) (w w1 : World) :
  Deploy E d ns w = (None, w1) ->
  exists resources t rvS rvM,
    (forall w, generateResources E d w = (inr resources, after t w))
    /\ (t = [] \/ t = resolverCalls E d)
    /\ Secrets (store w1) !! deployKey E ns = Some (stamp rvS (deploySecret E ns resources))
    /\ ManagedResources (store w1) !! deployKey E ns
         = Some (stamp rvM (deployManagedResource E ns)).
Proof.
  rewrite Deploy_unfold. destruct (generateResources_run d) as (r & t & Hg & Ht).
  run. rewrite Hg. destruct r as [e|resources]; [discriminate|].
  destruct (upsert (deploySecret E ns resources) _ _ _ _) as [[e|] wS] eqn:HS;
    [discriminate|].
  destruct (upsert (deployManagedResource E ns) _ _ _ _) as [[e|] wM] eqn:HM;
    [discriminate|].
  intros [= <-]. cbn [store].
  apply upsert_Secret_ok in HS as [[rvS HS] _].
  apply upsert_ManagedResource_ok in HM as [[rvM HM] HMS].
  exists resources, t, rvS, rvM. repeat split; try done.
  by rewrite HMS.
Qed.

(** [Deploy] over a store that holds both objects of the bundle already. *)
Lemma Deploy_again (d : Deployer) (ns : string) (resources : Bundle) (t : list Event)
    (rvS rvM : nat) (w : World) :
  (forall w, generateResources E d w = (inr resources, after t w)) ->
  faults w = [] ->
  Secrets (store w) !! deployKey E ns = Some (stamp rvS (deploySecret E ns resources)) ->
  ManagedResources (store w) !! deployKey E ns
    = Some (stamp rvM (deployManagedResource E ns)) ->
  exists w', Deploy E d ns w = (None, w')
    /\ contents (store w') = contents (store w)
    /\ (RenumbersUnchanged (store w) = false -> store w' = store w)
    /\ trace w' = trace w
         ++ [deployLine ns]
         ++ t
         ++ [CallCreate KindSecret (deployKey E ns); CallGet KindSecret (deployKey E ns);
             CallUpdate KindSecret (deployKey E ns) rvS;
             CallCreate KindManagedResource (deployKey E ns);
             CallGet KindManagedResource (deployKey E ns);
             CallUpdate KindManagedResource (deployKey E ns) rvM;
             LogLine LevelInfo None "successfully deployed traefik" [("namespace", ns)]].
Proof.
  intros Hg Hf HS HM. rewrite Deploy_unfold. run. rewrite Hg.
  edestruct (upsert_Secret_again (deploySecret E ns resources) rvS)
    as (wS & -> & HfS & HtS & HcS & HeS & HrS & HmS); [|exact HS|]; [exact Hf|].
  cbv beta iota.
  edestruct (upsert_ManagedResource_again (deployManagedResource E ns) rvM)
    as (wM & -> & HfM & HtM & HcM & HeM & HrM & HsM);
    [exact HfS|rewrite HmS; exact HM|].
  eexists. split; [reflexivity|]. cbn [store trace].
  split; [by rewrite HcM, HcS|]. split.
  - intros Hr. rewrite HeM, HeS; [done|done|]. by rewrite HrS.
  - rewrite HtM, HtS. cbn [trace after]. rewrite <- !app_assoc. reflexivity.
Qed.

(** C1. Idempotence of apply: when [Deploy] has succeeded, and the
    environment injects no failure into the next call, [Deploy] succeeds
    again for the same deployer and target. The store then holds what it
    held after the first call, version tokens apart, and exactly what it
    held when the store does not renumber unchanged objects. The second
    call reaches the store six times: for either object create (answered
    "already exists"), get, and an update that carries the version token of
    the stored object. *)
Theorem Deploy_idempotent (d : Deployer) (ns : string) (w w1 : World) :
  Deploy E d ns w = (None, w1) ->
  faults w1 = [] ->
  exists w2 t rvS rvM,
    Deploy E d ns w1 = (None, w2)
    /\ contents (store w2) = contents (store w1)
    /\ (RenumbersUnchanged (store w1) = false -> store w2 = store w1)
    /\ trace w2 = trace w1 ++ t
    /\ clientCalls t
       = [CallCreate KindSecret (deployKey E ns); CallGet KindSecret (deployKey E ns);
          CallUpdate KindSecret (deployKey E ns) rvS;
          CallCreate KindManagedResource (deployKey E ns);
          CallGet KindManagedResource (deployKey E ns);
          CallUpdate KindManagedResource (deployKey E ns) rvM]
    /\ resourceVersionOf <$> Secrets (store w1) !! deployKey E ns = Some rvS
    /\ resourceVersionOf <$> ManagedResources (store w1) !! deployKey E ns = Some rvM.
Proof.
  intros Hfirst Hf.
  destruct (Deploy_ok d ns w w1 Hfirst) as (resources & t & rvS & rvM & Hg & Ht & HS & HM).
  destruct (Deploy_again d ns resources t rvS rvM w1 Hg Hf HS HM)
    as (w2 & Hsecond & Hc & He & Htrace).
  exists w2, ([deployLine ns] ++ t ++
    [CallCreate KindSecret (deployKey E ns); CallGet KindSecret (deployKey E ns);
     CallUpdate KindSecret (deployKey E ns) rvS;
     CallCreate KindManagedResource (deployKey E ns);
     CallGet KindManagedResource (deployKey E ns);
     CallUpdate KindManagedResource (deployKey E ns) rvM;
     LogLine LevelInfo None "successfully deployed traefik" [("namespace", ns)]]), rvS, rvM.
  split; [exact Hsecond|]. split; [exact Hc|]. split; [exact He|].
  split; [exact Htrace|]. split.
  - unfold clientCalls. rewrite !filter_app. fold (clientCalls t).
    assert (clientCalls t = []) as ->.
    { destruct Ht as [-> | ->]; [reflexivity|apply clientCalls_resolverCalls]. }
    reflexivity.
  - rewrite HS, HM. by split.
Qed.

End Build.

(** ** The image of the workload *)

Section Image.
Context (E : Env).

(** C8. Image precedence: with a non-empty image in the configuration the
    deployment is built with exactly that image, in a world that is left as
    it was (so the trace gains no image-vector lookup, by [deployment] or by
    the whole build), and whatever image vector the deployer holds. *)
Theorem image_precedence (d : Deployer) (w : World) :
  Image (config d) <> "" ->
  deployment E d w = (inr (deploymentObject E d (Image (config d)) (deploymentArgs d)), w)
  /\ workloadImage (deploymentObject E d (Image (config d)) (deploymentArgs d))
       = Some (Image (config d))
  /\ (exists r, generateResources E d w = (r, w))
  /\ (forall iv, deployment E (NewDeployer (config d) iv) w = deployment E d w).
Proof.
  intros Hi.
  assert (forall iv, deployment E (NewDeployer (config d) iv) w
                     = (inr (deploymentObject E d (Image (config d)) (deploymentArgs d)), w))
    as Hd.
  { intros iv. unfold deployment, deploymentImage. run. cbn [config NewDeployer].
    rewrite (bool_decide_eq_false_2 _ Hi). reflexivity. }
  assert (deployment E d w
          = (inr (deploymentObject E d (Image (config d)) (deploymentArgs d)), w)) as Hd'.
  { destruct d as [c iv]. exact (Hd iv). }
  split; [exact Hd'|]. split; [reflexivity|]. split.
  - destruct (generateResources_run E d) as (r & t & Hg & [->| ->]).
    + exists r. by rewrite Hg, after_nil.
    + exists r. rewrite Hg. unfold resolverCalls.
      rewrite (bool_decide_eq_false_2 _ Hi). by rewrite after_nil.
  - intros iv. by rewrite Hd, Hd'.
Qed.

(** C9. Image fallback failure: with no image in the configuration and an
    image vector that has none either, the build returns an error and no
    bundle, and [Deploy] returns that error, wrapped, having made no client
    call: the world is the one it started in, two lines of trace apart. The
    error is the image vector's, wrapped twice, unless the codec has
    rejected one of the three objects that are encoded before the
    deployment is built. *)
Theorem image_fallback_failure (d : Deployer) (ns : string) (w : World) (cause : error) :
  Image (config d) = "" ->
  imageVector d (ImageName E) = inl cause ->
  exists e t,
    generateResources E d w = (inl e, after t w)
    /\ Deploy E d ns w
       = (Some (Errorf "failed to generate traefik resources: " e ""),
          after (deployLine ns :: t) w)
    /\ clientCalls t = []
    /\ (succeeded (Encode E (runtime.OfServiceAccount (serviceAccount E d))) = true ->
        succeeded (Encode E (runtime.OfClusterRole (clusterRole d))) = true ->
        succeeded (Encode E (runtime.OfClusterRoleBinding (clusterRoleBinding E d))) = true ->
        e = imageResolutionError cause /\ Is e cause = true).
Proof.
  intros Hi Hv.
  assert (forall w, deployment E d w
            = (inl (Errorf "failed to find traefik image in image vector: " cause ""),
               after (resolverCalls E d) w)) as Hd.
  { intros w'. unfold deployment, deploymentImage, resolverCalls. run.
    rewrite (bool_decide_eq_true_2 _ Hi), Hv. reflexivity. }
  assert (exists e t, (forall w, generateResources E d w = (inl e, after t w))
            /\ clientCalls t = []
            /\ (succeeded (Encode E (runtime.OfServiceAccount (serviceAccount E d))) = true ->
                succeeded (Encode E (runtime.OfClusterRole (clusterRole d))) = true ->
                succeeded (Encode E (runtime.OfClusterRoleBinding (clusterRoleBinding E d)))
                  = true ->
                e = imageResolutionError cause /\ Is e cause = true))
    as (e & t & Hg & Ht & He).
  { unfold generateResources.
    destruct (Encode E (runtime.OfServiceAccount _)).
    { eexists _, []; split; [intros w'; run; by rewrite after_nil|by split]. }
    destruct (Encode E (runtime.OfClusterRole _)).
    { eexists _, []; split; [intros w'; run; by rewrite after_nil|by split]. }
    destruct (Encode E (runtime.OfClusterRoleBinding _)).
    { eexists _, []; split; [intros w'; run; by rewrite after_nil|by split]. }
    eexists _, _; split; [intros w'; run; by rewrite Hd|].
    split; [apply clientCalls_resolverCalls|].
    intros _ _ _. split; [reflexivity|]. cbn. by rewrite Is_refl, !orb_true_r. }
  exists e, t. split; [apply Hg|]. split; [|by split].
  unfold Deploy. run. rewrite Hg. unfold after. cbn [store faults trace].
  by rewrite <- app_assoc.
Qed.

End Image.

(** ** The provider variant *)





(** ** Teardown *)

(** C3. Teardown tolerance: when the environment injects no failure,
    [Delete] succeeds in every state of the store, whether it holds both
    objects of the target, one of them or none. It deletes the managed
    resource first and the secret second, an answer "not found" to either
    call is passed over, neither object is in the store afterwards, and a
    store that held neither is left as it was. What [Delete] leaves behind
    is again a world without injected failures, so a second call succeeds
    as well. *)
Theorem Delete_tolerates_absence (E : Env) (d : Deployer) (ns : string) (w : World) :
  faults w = [] ->
  exists w',
    traefik.Delete E d ns w = (None, w')
    /\ trace w' = trace w
         ++ [LogLine LevelInfo None "deleting traefik from shoot cluster" [("namespace", ns)];
             CallDelete KindManagedResource (deployKey E ns);
             CallDelete KindSecret (deployKey E ns);
             LogLine LevelInfo None "successfully deleted traefik" [("namespace", ns)]]
    /\ ManagedResources (store w') !! deployKey E ns = None
    /\ Secrets (store w') !! deployKey E ns = None
    /\ faults w' = []
    /\ (ManagedResources (store w) !! deployKey E ns = None ->
        Secrets (store w) !! deployKey E ns = None -> store w' = store w).
Proof.
  intros Hf. unfold traefik.Delete. run.
  rewrite Delete_run by exact Hf.
  change (ObjectKeyFromObject _) with (deployKey E ns).
  cbn [store table ManagedResource_Object].
  destruct (ManagedResources (store w) !! deployKey E ns) eqn:HM.
  - cbv beta iota. rewrite Delete_run by reflexivity.
    change (ObjectKeyFromObject _) with (deployKey E ns).
    cbn [store table Secret_Object withTable ManagedResource_Object Secrets].
    destruct (Secrets (store w) !! deployKey E ns) eqn:HS; cbv beta iota;
      rewrite ?IgnoreNotFound_missing; cbv beta iota;
      eexists; (split; [reflexivity|]); cbn; rewrite <- ?app_assoc; cbn;
      repeat split; try done; try apply lookup_delete_eq.
  - cbv beta iota. rewrite IgnoreNotFound_missing. cbv beta iota.
    rewrite Delete_run by exact Hf.
    change (ObjectKeyFromObject _) with (deployKey E ns).
    cbn [store table Secret_Object withTable ManagedResource_Object Secrets after].
    destruct (Secrets (store w) !! deployKey E ns) eqn:HS; cbv beta iota;
      rewrite ?IgnoreNotFound_missing; cbv beta iota;
      eexists; (split; [reflexivity|]); cbn; rewrite <- ?app_assoc; cbn;
      repeat split; try done; try apply lookup_delete_eq.
Qed.

(** ** The identity of the cluster-scoped objects *)

(** C4, as the code has it. The ingress class is cluster-scoped and named
    after the ingress class of the configuration, so two deployers emit an
    ingress class of one name exactly when their configurations agree on
    it; the cluster role and the cluster role binding are the
    cluster-scoped objects with a fixed name. *)
Theorem ingressClass_named_after_config (E : Env) (d1 d2 : Deployer) :
  metav1.Name (networkingv1.IngressClass_ObjectMeta (ingressClass d1))
    = IngressClass (config d1)
  /\ metav1.Namespace (networkingv1.IngressClass_ObjectMeta (ingressClass d1)) = ""
  /\ (metav1.Name (networkingv1.IngressClass_ObjectMeta (ingressClass d1))
        = metav1.Name (networkingv1.IngressClass_ObjectMeta (ingressClass d2))
      <-> IngressClass (config d1) = IngressClass (config d2))
  /\ metav1.Name (rbacv1.ClusterRole_ObjectMeta (clusterRole d1))
       = "traefik-ingress-controller"
  /\ metav1.Name (rbacv1.ClusterRoleBinding_ObjectMeta (clusterRoleBinding E d1))
       = "traefik-ingress-controller".
Proof. repeat split; auto. Qed.

(** ** Resolution of the configuration *)

(** C6, as the code has it. Each field of the resolved configuration is the
    override's when that is non-empty (for the replica count: positive) and
    the base's otherwise; this is the resolution of the specification
    whenever the override's replica count is not negative, the scenario of
    the specification resolves as it says, and [parseConfig] resolves the
    default configuration this way with whatever the decoder returns. *)
Theorem applyCustomConfiguration_fields (base : Config) (cfg : config.TraefikConfig) :
  Image (actuator.applyCustomConfiguration base cfg)
    = (if bool_decide (config.Image (config.Spec cfg) = "") then Image base
       else config.Image (config.Spec cfg))
  /\ Replicas (actuator.applyCustomConfiguration base cfg)
     = (if bool_decide (0 < config.Replicas (config.Spec cfg))%Z
        then config.Replicas (config.Spec cfg) else Replicas base)
  /\ IngressClass (actuator.applyCustomConfiguration base cfg)
     = (if bool_decide (config.IngressClass (config.Spec cfg) = "") then IngressClass base
        else config.IngressClass (config.Spec cfg))
  /\ IngressProvider (actuator.applyCustomConfiguration base cfg)
     = (if bool_decide (config.IngressProvider (config.Spec cfg) = "")
        then IngressProvider base else config.IngressProvider (config.Spec cfg))
  /\ ((0 <= config.Replicas (config.Spec cfg))%Z ->
      actuator.applyCustomConfiguration base cfg = resolveAsSpecified base cfg)
  /\ actuator.applyCustomConfiguration
       {| Image := ""; Replicas := 2; IngressClass := "traefik";
          IngressProvider := config.IngressProviderKubernetesIngress |}
       (example.override "" 0 "nginx" config.IngressProviderKubernetesIngressNGINX)
     = {| Image := ""; Replicas := 2; IngressClass := "nginx";
          IngressProvider := config.IngressProviderKubernetesIngressNGINX |}
  /\ (forall (a : actuator.Actuator) (ex : extensionsv1alpha1.Extension)
             (providerConfig : extensionsv1alpha1.RawExtension) (w : World),
        extensionsv1alpha1.ProviderConfig (extensionsv1alpha1.Extension_Spec ex)
          = Some providerConfig ->
        actuator.decoder a (extensionsv1alpha1.Raw providerConfig) = inr cfg ->
        actuator.parseConfig a ex w = (actuator.applyCustomConfiguration DefaultConfig cfg, w)).
Proof.
  destruct cfg as [tm [image replicas class provider]], base as [bi br bc bp].
  unfold actuator.applyCustomConfiguration, resolveAsSpecified. cbn.
  repeat split.
  - by repeat case_bool_decide.
  - repeat case_bool_decide; cbn; try done; lia.
  - by repeat case_bool_decide.
  - by repeat case_bool_decide.
  - intros Hr. repeat case_bool_decide; cbn; try done; f_equal; lia.
  - intros a ex providerConfig w Hc Hd. unfold actuator.parseConfig.
    rewrite Hc, Hd. reflexivity.
Qed.

(** ** Reconcile *)

Section Reconcile.
Context (E : Env).

(** The body of [Reconcile] for a hibernated shoot. *)
Lemma reconcile_hibernated (a : actuator.Actuator) (ex : extensionsv1alpha1.Extension)
    (w : World) (cluster : extensionsv1alpha1.Cluster) :
  faults w = [] ->
  Clusters (store w) !! clusterKey ex = Some cluster ->
  v1beta1helper.HibernationIsEnabled (extensionsv1alpha1.Shoot cluster) = true ->
  actuator.reconcile E a ex w =
    (None,
     after [reconcilingLine ex;
            CallGet KindCluster (clusterKey ex);
            LogLine LevelInfo None "shoot is hibernated, skipping traefik deployment"
              [("cluster", extensionsv1alpha1.Extension_Namespace ex)]] w).
Proof.
  intros Hf Hl Hh. unfold actuator.reconcile. run.
  erewrite GetCluster_found; [|exact Hf|exact Hl]. cbv beta iota zeta.
  rewrite Hh. unfold after. cbn [store faults trace]. rewrite <- !app_assoc. reflexivity.
Qed.

(** C10. A hibernated shoot: [Reconcile] reads the cluster, logs that the
    deployment is skipped and returns no error, whatever the purpose of the
    shoot. The store is left as it was, and the read of the cluster is the
    only call that reaches it. *)
Theorem Reconcile_hibernated (a : actuator.Actuator) (ex : extensionsv1alpha1.Extension)
    (w : World) (cluster : extensionsv1alpha1.Cluster) :
  faults w = [] ->
  Clusters (store w) !! clusterKey ex = Some cluster ->
  v1beta1helper.HibernationIsEnabled (extensionsv1alpha1.Shoot cluster) = true ->
  actuator.Reconcile E a ex w =
    (None,
     after [reconcilingLine ex;
            CallGet KindCluster (clusterKey ex);
            LogLine LevelInfo None "shoot is hibernated, skipping traefik deployment"
              [("cluster", extensionsv1alpha1.Extension_Namespace ex)];
            MetricInc (extensionsv1alpha1.Extension_Namespace ex) "reconcile"] w).
Proof.
  intros Hf Hl Hh. unfold actuator.Reconcile. run.
  rewrite (reconcile_hibernated a ex w cluster Hf Hl Hh).
  unfold after. cbn [store faults trace]. rewrite <- !app_assoc. reflexivity.
Qed.

(** [Reconcile] at the purpose gate, for a shoot that is not hibernated. *)
Lemma Reconcile_purpose_rejected (a : actuator.Actuator) (ex : extensionsv1alpha1.Extension)
    (w : World) (cluster : extensionsv1alpha1.Cluster) :
  faults w = [] ->
  Clusters (store w) !! clusterKey ex = Some cluster ->
  v1beta1helper.HibernationIsEnabled (extensionsv1alpha1.Shoot cluster) = false ->
  purposeOf cluster <> Some gardencorev1beta1.ShootPurposeEvaluation ->
  exists e l,
    Is e actuator.ErrShootPurposeNotEvaluation = true
    /\ actuator.Reconcile E a ex w =
         (Some e,
          after [reconcilingLine ex;
                 CallGet KindCluster (clusterKey ex);
                 LogLine LevelError (Some actuator.ErrShootPurposeNotEvaluation)
                   "shoot purpose validation failed" l;
                 MetricInc (extensionsv1alpha1.Extension_Namespace ex) "reconcile"] w).
Proof.
  intros Hf Hl Hh Hp. unfold actuator.Reconcile, actuator.reconcile. run.
  erewrite GetCluster_found; [|exact Hf|exact Hl]. cbv beta iota zeta.
  rewrite Hh. unfold purposeOf in Hp.
  set (purpose := gardencorev1beta1.ShootSpec_Purpose _) in *.
  rewrite (bool_decide_eq_false_2 _ Hp), orb_true_r.
  eexists _, _. split; [|unfold after; cbn [store faults trace];
                         rewrite <- !app_assoc; reflexivity].
  reflexivity.
Qed.

(** C5, as the code has it. For a shoot whose purpose is absent or is not
    "evaluation", [Reconcile] leaves the store as it was: the read of the
    cluster is the only call that reaches it, nothing is written and the
    image vector is not consulted. When the shoot is not hibernated,
    [Reconcile] returns [ErrShootPurposeNotEvaluation], wrapped; when it is
    hibernated, [Reconcile] returns no error. *)
Theorem Reconcile_purpose_gate (a : actuator.Actuator) (ex : extensionsv1alpha1.Extension)
    (w : World) (cluster : extensionsv1alpha1.Cluster) :
  faults w = [] ->
  Clusters (store w) !! clusterKey ex = Some cluster ->
  purposeOf cluster <> Some gardencorev1beta1.ShootPurposeEvaluation ->
  exists r t,
    actuator.Reconcile E a ex w = (r, after t w)
    /\ clientCalls t = [CallGet KindCluster (clusterKey ex)]
    /\ Forall (fun e => isStoreWrite e = false /\ isFindImage e = false) t
    /\ (v1beta1helper.HibernationIsEnabled (extensionsv1alpha1.Shoot cluster) = false ->
        exists e, r = Some e /\ Is e actuator.ErrShootPurposeNotEvaluation = true)
    /\ (v1beta1helper.HibernationIsEnabled (extensionsv1alpha1.Shoot cluster) = true ->
        r = None).
Proof.
  intros Hf Hl Hp.
  destruct (v1beta1helper.HibernationIsEnabled (extensionsv1alpha1.Shoot cluster)) eqn:Hh.
  - eexists _, _. split.
    { unfold actuator.Reconcile. run.
      rewrite (reconcile_hibernated a ex w cluster Hf Hl Hh).
      unfold after. cbn [store faults trace]. rewrite <- !app_assoc. reflexivity. }
    split; [reflexivity|]. split; [|by split].
    repeat constructor.
  - destruct (Reconcile_purpose_rejected a ex w cluster Hf Hl Hh Hp) as (e & l & He & Hrun).
    eexists _, _. split; [exact Hrun|].
    split; [reflexivity|]. split; [repeat constructor|]. split; [|done].
    intros _. by exists e.
Qed.


End Reconcile.

(** ** The cases of the package's tests *)

(** [TestDefaultConfig]. *)
Example default_config :
  Replicas DefaultConfig = 2%Z /\ IngressClass DefaultConfig = "traefik"
  /\ IngressProvider DefaultConfig = config.IngressProviderKubernetesIngress
  /\ Image DefaultConfig = "".
Proof. by repeat split. Qed.

(** [TestDeployment_ImageOverride], "use image vector when config empty". *)
Example image_from_vector :
  match (deployment example.env example.deployer (example.seed None)).1 with
  | inr deploy => workloadImage deploy
  | inl _ => None
  end = Some "docker.io/library/traefik:v3.6.7".
Proof. reflexivity. Qed.

(** [TestDeployment_IngressProvider], "KubernetesIngressNGINX provider". *)
Example args_nginx :
  deploymentArgs (NewDeployer example.nginxConfig example.images)
  = ["--api.insecure=false"; "--api.dashboard=false"; "--ping=true"; "--ping.entrypoint=web";
     "--metrics.prometheus=true"; "--metrics.prometheus.entrypoint=metrics";
     "--entrypoints.web.address=:8000"; "--entrypoints.websecure.address=:8443";
     "--entrypoints.metrics.address=:9100"; "--log.level=INFO";
     "--providers.kubernetesingressnginx=true";
     "--providers.kubernetesingressnginx.ingressclass=nginx"].
Proof. reflexivity. Qed.

(** [TestClusterRole_RBAC_Permissions]: the rule on namespaces comes with
    the NGINX provider only. *)
Example namespace_permissions :
  existsb touchesNamespaces
    (rbacv1.Rules (clusterRole (NewDeployer example.nginxConfig example.images))) = true
  /\ existsb touchesNamespaces (rbacv1.Rules (clusterRole example.deployer)) = false.
Proof. split; reflexivity. Qed.

(** The seven files of a bundle. *)
Example bundle_files :
  match (generateResources example.env example.deployer (example.seed None)).1 with
  | inr resources =>
      size resources = 7
      /\ Forall (fun file => is_Some (resources !! file))
           ["serviceaccount.yaml"; "clusterrole.yaml"; "clusterrolebinding.yaml";
            "deployment.yaml"; "service.yaml"; "ingressclass.yaml"; "networkpolicy.yaml"]
  | inl _ => False
  end.
Proof. vm_compute. split; [reflexivity|]. repeat constructor; eauto. Qed.

(** A deployment into an empty seed and its teardown, as the store sees
    them. *)
Example deploy_then_delete :
  clientCalls
    (trace (traefik.Delete example.env example.deployer "shoot--local--a"
              (Deploy example.env example.deployer "shoot--local--a"
                 (example.seed None)).2).2)
  = [CallCreate KindSecret ("shoot--local--a", "extension-shoot-traefik");
     CallCreate KindManagedResource ("shoot--local--a", "extension-shoot-traefik");
     CallDelete KindManagedResource ("shoot--local--a", "extension-shoot-traefik");
     CallDelete KindSecret ("shoot--local--a", "extension-shoot-traefik")].
Proof. vm_compute. reflexivity. Qed.

(** ** The properties at concrete inputs *)

(** Two deployments in a row into an empty seed. *)
Lemma Deploy_idempotent_witness :
  Deploy example.env example.deployer "shoot--local--a" (example.seed None)
    = (None, (Deploy example.env example.deployer "shoot--local--a" (example.seed None)).2)
  /\ faults (Deploy example.env example.deployer "shoot--local--a" (example.seed None)).2 = []
  /\ exists w2,
       Deploy example.env example.deployer "shoot--local--a"
         (Deploy example.env example.deployer "shoot--local--a" (example.seed None)).2
         = (None, w2)
       /\ contents (store w2)
          = contents
              (store (Deploy example.env example.deployer "shoot--local--a"
                        (example.seed None)).2).
Proof.
  assert (Deploy example.env example.deployer "shoot--local--a" (example.seed None)
          = (None, (Deploy example.env example.deployer "shoot--local--a"
                      (example.seed None)).2)) as Hfirst
    by (vm_compute; reflexivity).
  assert (faults (Deploy example.env example.deployer "shoot--local--a"
                    (example.seed None)).2 = []) as Hf
    by (vm_compute; reflexivity).
  split; [exact Hfirst|]. split; [exact Hf|].
  destruct (Deploy_idempotent example.env example.deployer "shoot--local--a"
              (example.seed None) _ Hfirst Hf) as (w2 & _ & _ & _ & Hsecond & Hc & _).
  exists w2. by split.
Defined.


(** A teardown of a seed that holds nothing of the target. *)
Lemma Delete_tolerates_absence_witness :
  faults (example.seed None) = []
  /\ exists w',
       traefik.Delete example.env example.deployer "shoot--local--a" (example.seed None)
         = (None, w')
       /\ store w' = store (example.seed None).
Proof.
  split; [reflexivity|].
  destruct (Delete_tolerates_absence example.env example.deployer "shoot--local--a"
              (example.seed None) eq_refl) as (w' & Hrun & _ & _ & _ & _ & Hsame).
  exists w'. split; [exact Hrun|]. by apply Hsame.
Defined.

(** A shoot in production that is awake: the gate rejects it. *)
Lemma Reconcile_purpose_gate_witness :
  purposeOf (example.shoot false (Some "production"))
    <> Some gardencorev1beta1.ShootPurposeEvaluation
  /\ exists e,
       (actuator.Reconcile example.env example.strictActuator (example.extension None)
          (example.seed (Some (example.shoot false (Some "production"))))).1 = Some e
       /\ Is e actuator.ErrShootPurposeNotEvaluation = true.
Proof.
  assert (purposeOf (example.shoot false (Some "production"))
          <> Some gardencorev1beta1.ShootPurposeEvaluation) as Hp by discriminate.
  split; [exact Hp|].
  destruct (Reconcile_purpose_gate example.env example.strictActuator (example.extension None)
              (example.seed (Some (example.shoot false (Some "production"))))
              (example.shoot false (Some "production")) eq_refl eq_refl Hp)
    as (r & t & Hrun & _ & _ & Herr & _).
  destruct (Herr eq_refl) as (e & -> & He).
  exists e. by rewrite Hrun.
Defined.

(** The image "custom:v1" of the specification. *)
Lemma image_precedence_witness :
  Image example.customImageConfig <> ""
  /\ deployment example.env (NewDeployer example.customImageConfig example.noImages)
       (example.seed None)
     = (inr (deploymentObject example.env
               (NewDeployer example.customImageConfig example.noImages) "custom:v1"
               (deploymentArgs (NewDeployer example.customImageConfig example.noImages))),
        example.seed None).
Proof.
  assert (Image example.customImageConfig <> "") as Hi by discriminate.
  split; [exact Hi|].
  exact (proj1 (image_precedence example.env
                  (NewDeployer example.customImageConfig example.noImages)
                  (example.seed None) Hi)).
Defined.

(** The default configuration over an image vector that holds nothing. *)
Lemma image_fallback_failure_witness :
  imageVector (NewDeployer DefaultConfig example.noImages) (ImageName example.env)
    = inl (New "could not find image")
  /\ exists t,
       Deploy example.env (NewDeployer DefaultConfig example.noImages) "shoot--local--a"
         (example.seed None)
       = (Some (Errorf "failed to generate traefik resources: "
                  (imageResolutionError (New "could not find image")) ""),
          after (deployLine "shoot--local--a" :: t) (example.seed None))
       /\ clientCalls t = [].
Proof.
  split; [reflexivity|].
  destruct (image_fallback_failure example.env (NewDeployer DefaultConfig example.noImages)
              "shoot--local--a" (example.seed None) (New "could not find image")
              eq_refl eq_refl) as (e & t & _ & Hrun & Ht & He).
  destruct (He eq_refl eq_refl eq_refl) as [-> _].
  exists t. by split.
Defined.

(** A hibernated shoot in production. *)
Lemma Reconcile_hibernated_witness :
  v1beta1helper.HibernationIsEnabled
    (extensionsv1alpha1.Shoot (example.shoot true (Some "production"))) = true
  /\ (actuator.Reconcile example.env example.strictActuator (example.extension None)
        (example.seed (Some (example.shoot true (Some "production"))))).1 = None.
Proof.
  split; [reflexivity|].
  rewrite (Reconcile_hibernated example.env example.strictActuator (example.extension None)
             (example.seed (Some (example.shoot true (Some "production"))))
             (example.shoot true (Some "production")) eq_refl eq_refl eq_refl).
  reflexivity.
Defined.

(** C4, as the specification has it, fails: the default configuration and
    one for the class "nginx" emit ingress classes of different names. *)
Lemma ingressClass_name_not_fixed :
  ~ (forall d1 d2 : Deployer,
       metav1.Name (networkingv1.IngressClass_ObjectMeta (ingressClass d1))
       = metav1.Name (networkingv1.IngressClass_ObjectMeta (ingressClass d2))).
Proof.
  intros Hfixed.
  specialize (Hfixed (NewDeployer DefaultConfig example.images)
                (NewDeployer example.nginxConfig example.images)).
  discriminate Hfixed.
Qed.

(** C5, as the specification has it, fails: for a hibernated shoot in
    production [Reconcile] returns no error. *)
Lemma purpose_gate_skipped_when_hibernated :
  ~ (forall (E : Env) (a : actuator.Actuator) (ex : extensionsv1alpha1.Extension)
            (w : World) (cluster : extensionsv1alpha1.Cluster),
       faults w = [] ->
       Clusters (store w) !! clusterKey ex = Some cluster ->
       purposeOf cluster <> Some gardencorev1beta1.ShootPurposeEvaluation ->
       exists e, (actuator.Reconcile E a ex w).1 = Some e).
Proof.
  intros Hgate.
  destruct (Hgate example.env example.strictActuator (example.extension None)
              (example.seed (Some (example.shoot true (Some "production"))))
              (example.shoot true (Some "production")) eq_refl eq_refl) as [e He].
  - discriminate.
  - vm_compute in He. discriminate He.
Qed.

(** C6, as the specification has it, fails: an override of -1 replicas is
    present and not zero, and the resolved configuration keeps the two
    replicas of the base. *)
Lemma negative_replicas_not_applied :
  config.Replicas (config.Spec (example.override "" (-1) "" "")) <> 0%Z
  /\ Replicas (actuator.applyCustomConfiguration DefaultConfig
                 (example.override "" (-1) "" "")) = 2%Z
  /\ ~ (forall (base : Config) (cfg : config.TraefikConfig),
          actuator.applyCustomConfiguration base cfg = resolveAsSpecified base cfg).
Proof.
  split; [discriminate|]. split; [reflexivity|].
  intros Hresolve. specialize (Hresolve DefaultConfig (example.override "" (-1) "" "")).
  vm_compute in Hresolve. discriminate Hresolve.
Qed.

(** * Further properties *)

(** ** Effects and frames *)

(** [within P key] is reflexive and composes, so a sequence of steps stays
    within what each of its steps stays within. *)
#[global] Instance within_preorder (P : Event -> bool) (key : ObjectKey) :
  PreOrder (within P key).
Proof.
  split.
  - intros w. split; [exists []; by rewrite app_nil_r|]. repeat split; auto.
  - intros w1 w2 w3 ((t & Ht & HP) & Hc & Hr & Hv & Hk & Hf)
      ((u & Hu & HQ) & Hc' & Hr' & Hv' & Hk' & Hf').
    split.
    { exists (t ++ u). rewrite Hu, Ht, app_assoc. split; [done|].
      by rewrite forallb_app, HP, HQ. }
    split; [congruence|]. split; [congruence|]. split; [lia|]. split; [|auto].
    intros k Hne. destruct (Hk k Hne), (Hk' k Hne). split; congruence.
Qed.

Lemma within_mono (P Q : Event -> bool) key w w' :
  (forall e, P e = true -> Q e = true) -> within P key w w' -> within Q key w w'.
Proof.
  intros HPQ ((t & Ht & HP) & Hrest). split; [|exact Hrest].
  exists t. split; [done|]. rewrite forallb_forall in *. auto.
Qed.

(** Sequencing: a computation steps by [R] when its parts do. *)
Section Steps.
Context (R : relation World) `{!PreOrder R}.

Lemma steps_ret {A} (a : A) : steps R (mret a : M A).
Proof. intros w. reflexivity. Qed.

Lemma steps_bind {A B} (m : M A) (f : A -> M B) :
  steps R m -> (forall a, steps R (f a)) -> steps R (m ≫= f).
Proof.
  intros Hm Hf w. unfold mbind, M_bind. specialize (Hm w).
  destruct (m w) as [a w'] eqn:Hrun. cbn in Hm. etransitivity; [exact Hm|apply Hf].
Qed.
End Steps.

Lemma within_after P key t w : forallb P t = true -> within P key w (after t w).
Proof. intros HP. split; [by exists t|]. repeat split; auto. Qed.

Lemma within_emit P key e : P e = true -> steps (within P key) (emit e).
Proof. intros He w. apply (within_after P key [e]). cbn. by rewrite He. Qed.

(** A client call on an object under the key. *)
Ltac within_call :=
  intros HP w; unfold Create, Get, Update, client.Delete, call; run;
  destruct (faults w) as [|[e|] fs] eqn:Hf;
  repeat (case_match; simplify_eq; cbn [fst snd store faults trace]);
  (split; [eexists [_]; split; [reflexivity|cbn; by rewrite HP]|]);
  cbn; repeat split; auto; try lia; try done;
  try (apply lookup_insert_ne; congruence); try (apply lookup_delete_ne; congruence);
  try (intros; congruence).

Lemma within_Create_Secret P (obj : corev1.Secret) :
  P (CallCreate KindSecret (ObjectKeyFromObject obj)) = true ->
  steps (within P (ObjectKeyFromObject obj)) (Create obj).
Proof. within_call. Qed.

Lemma within_Get_Secret P key :
  P (CallGet KindSecret key) = true ->
  steps (within P key) (Get (A := corev1.Secret) key).
Proof. within_call. Qed.

Lemma within_Update_Secret P (obj : corev1.Secret) :
  P (CallUpdate KindSecret (ObjectKeyFromObject obj) (resourceVersionOf obj)) = true ->
  steps (within P (ObjectKeyFromObject obj)) (Update obj).
Proof. within_call. Qed.

Lemma within_Delete_Secret P (obj : corev1.Secret) :
  P (CallDelete KindSecret (ObjectKeyFromObject obj)) = true ->
  steps (within P (ObjectKeyFromObject obj)) (client.Delete obj).
Proof. within_call. Qed.

Lemma within_Create_ManagedResource P (obj : resourcesv1alpha1.ManagedResource) :
  P (CallCreate KindManagedResource (ObjectKeyFromObject obj)) = true ->
  steps (within P (ObjectKeyFromObject obj)) (Create obj).
Proof. within_call. Qed.

Lemma within_Get_ManagedResource P key :
  P (CallGet KindManagedResource key) = true ->
  steps (within P key) (Get (A := resourcesv1alpha1.ManagedResource) key).
Proof. within_call. Qed.

Lemma within_Update_ManagedResource P (obj : resourcesv1alpha1.ManagedResource) :
  P (CallUpdate KindManagedResource (ObjectKeyFromObject obj) (resourceVersionOf obj)) = true ->
  steps (within P (ObjectKeyFromObject obj)) (Update obj).
Proof. within_call. Qed.

Lemma within_Delete_ManagedResource P (obj : resourcesv1alpha1.ManagedResource) :
  P (CallDelete KindManagedResource (ObjectKeyFromObject obj)) = true ->
  steps (within P (ObjectKeyFromObject obj)) (client.Delete obj).
Proof. within_call. Qed.

Lemma within_Get_Cluster P key key' :
  P (CallGet KindCluster key') = true ->
  steps (within P key) (Get (A := extensionsv1alpha1.Cluster) key').
Proof. within_call. Qed.

(** The create-or-update block stays within the key of its object. *)
Ltac within_upsert create get update :=
  intros Hc Hg Hu; unfold upsert;
  apply steps_bind; [apply _|by apply create|];
  intros [err|]; [|apply steps_ret; apply _];
  destruct (IgnoreAlreadyExists err); [apply steps_ret; apply _|];
  apply steps_bind; [apply _|by apply get|];
  intros [err'|existing]; [apply steps_ret; apply _|];
  cbv zeta; apply steps_bind; [apply _| |intros []; apply steps_ret; apply _];
  match goal with
  | |- steps _ (Update (stamp ?rv ?obj)) => exact (update _ (stamp rv obj) (Hu rv))
  end.

Lemma within_upsert_Secret P (obj : corev1.Secret) m1 m2 m3 :
  P (CallCreate KindSecret (ObjectKeyFromObject obj)) = true ->
  P (CallGet KindSecret (ObjectKeyFromObject obj)) = true ->
  (forall rv, P (CallUpdate KindSecret (ObjectKeyFromObject obj) rv) = true) ->
  steps (within P (ObjectKeyFromObject obj)) (upsert obj m1 m2 m3).
Proof. within_upsert within_Create_Secret within_Get_Secret within_Update_Secret. Qed.

Lemma within_upsert_ManagedResource P (obj : resourcesv1alpha1.ManagedResource) m1 m2 m3 :
  P (CallCreate KindManagedResource (ObjectKeyFromObject obj)) = true ->
  P (CallGet KindManagedResource (ObjectKeyFromObject obj)) = true ->
  (forall rv, P (CallUpdate KindManagedResource (ObjectKeyFromObject obj) rv) = true) ->
  steps (within P (ObjectKeyFromObject obj)) (upsert obj m1 m2 m3).
Proof.
  within_upsert within_Create_ManagedResource within_Get_ManagedResource
    within_Update_ManagedResource.
Qed.

(** ** The deployer *)

Section DeployerFrames.
Context (E : Env).

(** [Deploy] and [Delete] stay within the two objects of their namespace,
    on every path. *)
Lemma within_generateResources d ns :
  steps (within (isDeployCall E d ns) (deployKey E ns)) (generateResources E d).
Proof.
  intros w. destruct (generateResources_run E d) as (r & t & Hg & Ht). rewrite Hg.
  apply within_after. destruct Ht as [-> | ->]; [done|].
  unfold resolverCalls. case_bool_decide as Hi; [|done]. cbn.
  by rewrite !bool_decide_eq_true_2.
Qed.

Lemma within_Deploy d ns :
  steps (within (isDeployCall E d ns) (deployKey E ns)) (Deploy E d ns).
Proof.
  rewrite Deploy_unfold.
  apply steps_bind; [apply _|by apply within_emit|]. intros _.
  apply steps_bind; [apply _|apply within_generateResources|].
  intros [err|resources]; [apply steps_ret; apply _|].
  apply steps_bind; [apply _| |].
  { apply (within_upsert_Secret _ (deploySecret E ns resources));
      intros; cbn; by rewrite bool_decide_eq_true_2. }
  intros [err|]; [apply steps_ret; apply _|].
  apply steps_bind; [apply _| |].
  { apply (within_upsert_ManagedResource _ (deployManagedResource E ns));
      intros; cbn; by rewrite bool_decide_eq_true_2. }
  intros [err|]; [apply steps_ret; apply _|].
  apply steps_bind; [apply _|by apply within_emit|]. intros _. apply steps_ret; apply _.
Qed.

Lemma within_Delete d ns :
  steps (within (isDeleteCall E ns) (deployKey E ns)) (traefik.Delete E d ns).
Proof.
  unfold traefik.Delete.
  apply steps_bind; [apply _|by apply within_emit|]. intros _. cbv zeta.
  apply steps_bind; [apply _| |].
  { match goal with |- steps _ (client.Delete ?o) =>
      apply (within_Delete_ManagedResource _ o) end.
    cbn. by rewrite bool_decide_eq_true_2. }
  intros deleted.
  destruct (match deleted with Some _ => _ | None => _ end); [apply steps_ret; apply _|].
  apply steps_bind; [apply _| |].
  { match goal with |- steps _ (client.Delete ?o) =>
      apply (within_Delete_Secret _ o) end.
    cbn. by rewrite bool_decide_eq_true_2. }
  intros deleted'.
  destruct (match deleted' with Some _ => _ | None => _ end); [apply steps_ret; apply _|].
  apply steps_bind; [apply _|by apply within_emit|]. intros _. apply steps_ret; apply _.
Qed.
End DeployerFrames.

Section FreeKey.
Context {A : Type} `{Object A}.

(** [Create] under a free key, when the environment injects no failure. *)
Lemma Create_free (obj : A) (w : World) :
  faults w = [] ->
  table (store w) !! ObjectKeyFromObject obj = None ->
  Create obj w =
    (None,
     {| store := written (ObjectKeyFromObject obj) obj (store w);
        faults := [];
        trace := trace w ++ [CallCreate (kindOf A) (ObjectKeyFromObject obj)] |}).
Proof.
  intros Hf Hl. unfold Create. run. rewrite (call_quiet _ _ Hf). run.
  cbn [store after]. rewrite Hl. cbn. by rewrite Hf.
Qed.
End FreeKey.

(** The create-or-update block, when the environment injects no failure:
    it succeeds whatever the table holds under the key. *)
Ltac upsert_quiet stored :=
  let Hf := fresh "Hf" in let Hl := fresh "Hl" in let Hb := fresh "Hb" in
  let old := fresh "old" in
  intros Hf; unfold upsert; run;
  destruct stored as [old|] eqn:Hl;
  [ erewrite Create_taken; [|exact Hf|exact Hl];
    rewrite IgnoreAlreadyExists_taken; cbv beta iota;
    erewrite Get_found; [|exact Hf|exact Hl]; cbv beta iota;
    erewrite Update_current; [|exact Hf|exact Hl|reflexivity];
    cbn [store after faults trace];
    match goal with
    | |- context [if ?b then _ else _] => destruct b eqn:Hb
    end;
    [ apply andb_bool_decide_true in Hb;
      eexists _, (resourceVersionOf old); split; [reflexivity|];
      cbn [store after faults trace]; rewrite <- !app_assoc;
      repeat split; try done;
      [etransitivity; [exact Hl|]; f_equal; symmetry; exact Hb
      |right; by exists old]
    | eexists _, _; split; [reflexivity|];
      cbn [store after faults trace]; rewrite <- !app_assoc;
      repeat split; try done;
      [apply lookup_insert_eq|right; by exists old] ]
  | rewrite Create_free by done;
    eexists _, _; split; [reflexivity|];
    cbn [store after faults trace];
    repeat split; try done; [apply lookup_insert_eq|by left] ].

Lemma upsert_Secret_quiet (obj : corev1.Secret) (m1 m2 m3 : string) (w : World) :
  faults w = [] ->
  exists w' rv,
    upsert obj m1 m2 m3 w = (None, w')
    /\ faults w' = []
    /\ Secrets (store w') !! ObjectKeyFromObject obj = Some (stamp rv obj)
    /\ ManagedResources (store w') = ManagedResources (store w)
    /\ (Secrets (store w) !! ObjectKeyFromObject obj = None
          /\ trace w' = trace w ++ [CallCreate KindSecret (ObjectKeyFromObject obj)]
        \/ exists old,
             Secrets (store w) !! ObjectKeyFromObject obj = Some old
             /\ trace w' = trace w
                  ++ [CallCreate KindSecret (ObjectKeyFromObject obj);
                      CallGet KindSecret (ObjectKeyFromObject obj);
                      CallUpdate KindSecret (ObjectKeyFromObject obj)
                        (resourceVersionOf old)]).
Proof. upsert_quiet (Secrets (store w) !! ObjectKeyFromObject obj). Qed.

Lemma upsert_ManagedResource_quiet (obj : resourcesv1alpha1.ManagedResource)
    (m1 m2 m3 : string) (w : World) :
  faults w = [] ->
  exists w' rv,
    upsert obj m1 m2 m3 w = (None, w')
    /\ faults w' = []
    /\ ManagedResources (store w') !! ObjectKeyFromObject obj = Some (stamp rv obj)
    /\ Secrets (store w') = Secrets (store w)
    /\ (ManagedResources (store w) !! ObjectKeyFromObject obj = None
          /\ trace w' = trace w ++ [CallCreate KindManagedResource (ObjectKeyFromObject obj)]
        \/ exists old,
             ManagedResources (store w) !! ObjectKeyFromObject obj = Some old
             /\ trace w' = trace w
                  ++ [CallCreate KindManagedResource (ObjectKeyFromObject obj);
                      CallGet KindManagedResource (ObjectKeyFromObject obj);
                      CallUpdate KindManagedResource (ObjectKeyFromObject obj)
                        (resourceVersionOf old)]).
Proof. upsert_quiet (ManagedResources (store w) !! ObjectKeyFromObject obj). Qed.

Section DeployRuns.
Context (E : Env).

Lemma generateResources_built d w resources :
  (generateResources E d w).1 = inr resources ->
  exists t, (forall w', generateResources E d w' = (inr resources, after t w'))
            /\ clientCalls t = [].
Proof.
  destruct (generateResources_run E d) as (r & t & Hg & Ht). rewrite Hg. cbn.
  intros ->. exists t. split; [done|].
  destruct Ht as [-> | ->]; [done|apply clientCalls_resolverCalls].
Qed.

Lemma Deploy_quiet (d : Deployer) (ns : string) (w : World) (resources : Bundle) :
  faults w = [] ->
  (generateResources E d w).1 = inr resources ->
  exists w1 t rvS rvM,
    Deploy E d ns w = (None, w1)
    /\ faults w1 = []
    /\ Secrets (store w1) !! deployKey E ns = Some (stamp rvS (deploySecret E ns resources))
    /\ ManagedResources (store w1) !! deployKey E ns
         = Some (stamp rvM (deployManagedResource E ns))
    /\ trace w1 = trace w ++ t
    /\ (Secrets (store w) !! deployKey E ns = None ->
        ManagedResources (store w) !! deployKey E ns = None ->
        clientCalls t = [CallCreate KindSecret (deployKey E ns);
                         CallCreate KindManagedResource (deployKey E ns)]).
Proof.
  intros Hf Hbuilt. destruct (generateResources_built d w resources Hbuilt) as (t & Hg & Ht).
  rewrite Deploy_unfold. run. rewrite Hg.
  edestruct (upsert_Secret_quiet (deploySecret E ns resources))
    as (wS & rvS & -> & HfS & HS & HSM & HtS); [exact Hf|].
  cbv beta iota.
  edestruct (upsert_ManagedResource_quiet (deployManagedResource E ns))
    as (wM & rvM & -> & HfM & HM & HMS & HtM); [exact HfS|].
  change (ObjectKeyFromObject (deploySecret E ns resources)) with (deployKey E ns) in *.
  change (ObjectKeyFromObject (deployManagedResource E ns)) with (deployKey E ns) in *.
  cbn [store after faults trace] in *.
  destruct HtS as [[HnS HtS]|(oldS & HoS & HtS)], HtM as [[HnM HtM]|(oldM & HoM & HtM)];
    eexists _, _, rvS, rvM; (split; [reflexivity|]); cbn [store faults trace];
    (split; [exact HfM|]); (split; [by rewrite HMS|]); (split; [exact HM|]);
    rewrite HtM, HtS, <- !app_assoc; (split; [reflexivity|]); intros HnS' HnM';
    rewrite ?HSM in *; try congruence.
  unfold clientCalls. rewrite !filter_app. fold (clientCalls t). rewrite Ht. reflexivity.
Qed.

(** X1. After a [Deploy] that returned no error, the store holds the secret
    and the managed resource: the secret is opaque, its data is the bundle
    that [generateResources] gives, and it is annotated with the checksum of
    that data; the managed resource refers to the secret by name, in the
    same namespace, and does not keep its objects. *)
Theorem Deploy_stores_checksum (d : Deployer) (ns : string) (w w1 : World) :
  Deploy E d ns w = (None, w1) ->
  exists secret mr,
    Secrets (store w1) !! deployKey E ns = Some secret
    /\ ManagedResources (store w1) !! deployKey E ns = Some mr
    /\ (generateResources E d w).1 = inr (corev1.Secret_Data secret)
    /\ metav1.Annotations (corev1.Secret_ObjectMeta secret) !! checksumAnnotation
         = Some (ComputeSecretChecksum E (corev1.Secret_Data secret))
    /\ corev1.Secret_Type secret = corev1.SecretTypeOpaque
    /\ resourcesv1alpha1.SecretRefs (resourcesv1alpha1.ManagedResource_Spec mr)
         = [ {| corev1.LocalObjectReference_Name :=
                  metav1.Name (corev1.Secret_ObjectMeta secret) |} ]
    /\ metav1.Namespace (resourcesv1alpha1.ManagedResource_ObjectMeta mr)
         = metav1.Namespace (corev1.Secret_ObjectMeta secret)
    /\ resourcesv1alpha1.KeepObjects (resourcesv1alpha1.ManagedResource_Spec mr) = Some false.
Proof.
  intros Hrun.
  destruct (Deploy_ok E d ns w w1 Hrun) as (resources & t & rvS & rvM & Hg & _ & HS & HM).
  eexists _, _. split; [exact HS|]. split; [exact HM|]. cbn.
  split; [by rewrite Hg|]. repeat split.
Qed.

(** X2. From every state of the store, with no failure injected and a
    bundle that is built, [Deploy] returns no error and leaves under the key
    of the namespace the secret of that bundle and the managed resource,
    whatever was there before; when neither was there, its client calls are
    the two creations. *)
Theorem Deploy_converges (d : Deployer) (ns : string) (w : World) (resources : Bundle) :
  faults w = [] ->
  (generateResources E d w).1 = inr resources ->
  exists w1 t rvS rvM,
    Deploy E d ns w = (None, w1)
    /\ Secrets (store w1) !! deployKey E ns = Some (stamp rvS (deploySecret E ns resources))
    /\ ManagedResources (store w1) !! deployKey E ns
         = Some (stamp rvM (deployManagedResource E ns))
    /\ trace w1 = trace w ++ t
    /\ (Secrets (store w) !! deployKey E ns = None ->
        ManagedResources (store w) !! deployKey E ns = None ->
        clientCalls t = [CallCreate KindSecret (deployKey E ns);
                         CallCreate KindManagedResource (deployKey E ns)]).
Proof.
  intros Hf Hg.
  destruct (Deploy_quiet d ns w resources Hf Hg)
    as (w1 & t & rvS & rvM & Hrun & _ & HS & HM & Ht & Hcalls).
  by exists w1, t, rvS, rvM.
Qed.
End DeployRuns.

Section DeployFailures.
Context (E : Env).

(** X3. When the creation of the secret fails for another reason than
    "already exists", [Deploy] returns that error, wrapped, leaves the store
    as it was and makes no other client call. *)
Theorem Deploy_create_failure (d : Deployer) (ns : string) (w : World) (resources : Bundle)
    (e : error) (fs : list (option error)) :
  faults w = Some e :: fs ->
  IsAlreadyExists e = false ->
  (generateResources E d w).1 = inr resources ->
  exists t,
    Deploy E d ns w
    = (Some (Errorf "failed to create secret: " e ""),
       {| store := store w; faults := fs; trace := trace w ++ t |})
    /\ clientCalls t = [CallCreate KindSecret (deployKey E ns)].
Proof.
  intros Hf He Hbuilt.
  destruct (generateResources_built E d w resources Hbuilt) as (t & Hg & Ht).
  rewrite Deploy_unfold. run. rewrite Hg.
  unfold upsert at 1, Create, call. run. cbn [after store faults trace]. rewrite Hf.
  unfold IgnoreAlreadyExists. rewrite He.
  eexists. split; [rewrite <- !app_assoc; reflexivity|].
  unfold clientCalls. rewrite !filter_app. fold (clientCalls t). rewrite Ht. reflexivity.
Qed.

(** X4. When the secret is in the store and its update fails, [Deploy]
    returns that error, wrapped, and leaves the store as it was; it has
    asked for the creation, read the secret, and issued the update with the
    version token it read, and has made no call for the managed resource. *)
Theorem Deploy_update_failure (d : Deployer) (ns : string) (w : World) (resources : Bundle)
    (old : corev1.Secret) (e : error) (fs : list (option error)) :
  faults w = None :: None :: Some e :: fs ->
  Secrets (store w) !! deployKey E ns = Some old ->
  (generateResources E d w).1 = inr resources ->
  exists t,
    Deploy E d ns w
    = (Some (Errorf "failed to update secret: " e ""),
       {| store := store w; faults := fs; trace := trace w ++ t |})
    /\ clientCalls t
       = [CallCreate KindSecret (deployKey E ns);
          CallGet KindSecret (deployKey E ns);
          CallUpdate KindSecret (deployKey E ns) (resourceVersionOf old)].
Proof.
  intros Hf Hold Hbuilt.
  destruct (generateResources_built E d w resources Hbuilt) as (t & Hg & Ht).
  rewrite Deploy_unfold. run. rewrite Hg.
  unfold upsert at 1, Create, Get, Update, call. run. cbn [after store faults trace].
  rewrite Hf. cbv beta iota. cbn [store faults trace table Secret_Object].
  change (ObjectKeyFromObject (deploySecret E ns resources)) with (deployKey E ns).
  rewrite Hold. cbv beta iota. rewrite IgnoreAlreadyExists_taken.
  cbn [store faults trace]. cbv beta iota. cbn [store faults trace]. rewrite Hold.
  cbv beta iota. cbn [store faults trace]. cbv beta iota.
  eexists. split; [rewrite <- !app_assoc; reflexivity|].
  unfold clientCalls. rewrite !filter_app. fold (clientCalls t). rewrite Ht. reflexivity.
Qed.

(** X5. [Deploy] is not atomic: when the secret is created and the creation
    of the managed resource then fails for another reason than "already
    exists", [Deploy] returns that error, wrapped, and the secret stays in
    the store, with no managed resource written. *)
Theorem Deploy_keeps_secret_on_failure (d : Deployer) (ns : string) (w : World)
    (resources : Bundle) (e : error) (fs : list (option error)) :
  faults w = None :: Some e :: fs ->
  IsAlreadyExists e = false ->
  Secrets (store w) !! deployKey E ns = None ->
  (generateResources E d w).1 = inr resources ->
  exists w' rv,
    Deploy E d ns w = (Some (Errorf "failed to create managed resource: " e ""), w')
    /\ Secrets (store w') !! deployKey E ns = Some (stamp rv (deploySecret E ns resources))
    /\ ManagedResources (store w') = ManagedResources (store w)
    /\ faults w' = fs.
Proof.
  intros Hf He Hn Hbuilt.
  destruct (generateResources_built E d w resources Hbuilt) as (t & Hg & Ht).
  rewrite Deploy_unfold. run. rewrite Hg.
  unfold upsert, Create, call. run. cbn [after store faults trace]. rewrite Hf.
  cbn [table Secret_Object].
  change (ObjectKeyFromObject (deploySecret E ns resources)) with (deployKey E ns).
  cbn [store faults trace]. rewrite Hn. cbn [store faults trace].
  unfold IgnoreAlreadyExists. rewrite He.
  eexists _, _. split; [reflexivity|]. cbn. split; [apply lookup_insert_eq|done].
Qed.

(** X6. On every path, whatever fails, [Deploy] performs only log lines,
    the lookup of its image (when the configuration names none) and create,
    get and update calls on the secret and the managed resource of its
    namespace: it deletes nothing, leaves the Cluster objects as they are
    and leaves every object under another key as it is. *)
Theorem Deploy_touches_only_its_objects (d : Deployer) (ns : string) (w : World) :
  let w' := (Deploy E d ns w).2 in
  (exists t, trace w' = trace w ++ t /\ forallb (isDeployCall E d ns) t = true)
  /\ Clusters (store w') = Clusters (store w)
  /\ (forall k, k <> deployKey E ns ->
        Secrets (store w') !! k = Secrets (store w) !! k
        /\ ManagedResources (store w') !! k = ManagedResources (store w) !! k).
Proof.
  destruct (within_Deploy E d ns w) as (Ht & Hc & _ & _ & Hk & _). cbv zeta.
  split; [exact Ht|]. split; [exact Hc|exact Hk].
Qed.
End DeployFailures.

Section DeleteRuns.
Context (E : Env).

(** [Delete], when the environment injects no failure. *)
Lemma traefik_Delete_quiet (d : Deployer) (ns : string) (w : World) :
  faults w = [] ->
  exists w',
    traefik.Delete E d ns w = (None, w')
    /\ faults w' = []
    /\ Secrets (store w') = delete (deployKey E ns) (Secrets (store w))
    /\ ManagedResources (store w') = delete (deployKey E ns) (ManagedResources (store w))
    /\ Clusters (store w') = Clusters (store w)
    /\ Revision (store w') = Revision (store w)
    /\ RenumbersUnchanged (store w') = RenumbersUnchanged (store w)
    /\ trace w' = trace w
         ++ [LogLine LevelInfo None "deleting traefik from shoot cluster" [("namespace", ns)];
             CallDelete KindManagedResource (deployKey E ns);
             CallDelete KindSecret (deployKey E ns);
             LogLine LevelInfo None "successfully deleted traefik" [("namespace", ns)]].
Proof.
  intros Hf. unfold traefik.Delete. run.
  rewrite Delete_run by exact Hf.
  change (ObjectKeyFromObject _) with (deployKey E ns).
  cbn [store table ManagedResource_Object].
  destruct (ManagedResources (store w) !! deployKey E ns) eqn:HM.
  - cbv beta iota. rewrite Delete_run by reflexivity.
    change (ObjectKeyFromObject _) with (deployKey E ns).
    cbn [store table Secret_Object withTable ManagedResource_Object Secrets].
    destruct (Secrets (store w) !! deployKey E ns) eqn:HS; cbv beta iota;
      rewrite ?IgnoreNotFound_missing; cbv beta iota;
      eexists; (split; [reflexivity|]); cbn; rewrite <- ?app_assoc; cbn;
      repeat split; try done; by rewrite delete_id.
  - cbv beta iota. rewrite IgnoreNotFound_missing. cbv beta iota.
    rewrite Delete_run by exact Hf.
    change (ObjectKeyFromObject _) with (deployKey E ns).
    cbn [store table Secret_Object withTable ManagedResource_Object Secrets after].
    destruct (Secrets (store w) !! deployKey E ns) eqn:HS; cbv beta iota;
      rewrite ?IgnoreNotFound_missing; cbv beta iota;
      eexists; (split; [reflexivity|]); cbn; rewrite <- ?app_assoc; cbn;
      repeat split; try done; by rewrite delete_id.
Qed.

(** X7. On every path, whatever fails, the deployer's [Delete] performs
    only log lines and delete calls on the secret and the managed resource
    of its namespace, and leaves the Cluster objects and every object under
    another key as they are. *)
Theorem Delete_touches_only_its_objects (d : Deployer) (ns : string) (w : World) :
  let w' := (traefik.Delete E d ns w).2 in
  (exists t, trace w' = trace w ++ t /\ forallb (isDeleteCall E ns) t = true)
  /\ Clusters (store w') = Clusters (store w)
  /\ (forall k, k <> deployKey E ns ->
        Secrets (store w') !! k = Secrets (store w) !! k
        /\ ManagedResources (store w') !! k = ManagedResources (store w) !! k).
Proof.
  destruct (within_Delete E d ns w) as (Ht & Hc & _ & _ & Hk & _). cbv zeta.
  split; [exact Ht|]. split; [exact Hc|exact Hk].
Qed.

(** X8. Round trip. With no failure injected, a [Deploy] whose bundle is
    built followed by a [Delete] (of any deployer) both succeed, and leave
    the store without the secret and the managed resource of the namespace
    and otherwise as it was before the [Deploy]. *)
Theorem Deploy_then_Delete (d d' : Deployer) (ns : string) (w : World) (resources : Bundle) :
  faults w = [] ->
  (generateResources E d w).1 = inr resources ->
  exists w1 w2,
    Deploy E d ns w = (None, w1)
    /\ traefik.Delete E d' ns w1 = (None, w2)
    /\ Secrets (store w2) = delete (deployKey E ns) (Secrets (store w))
    /\ ManagedResources (store w2) = delete (deployKey E ns) (ManagedResources (store w))
    /\ Clusters (store w2) = Clusters (store w).
Proof.
  intros Hf Hbuilt.
  destruct (Deploy_quiet E d ns w resources Hf Hbuilt)
    as (w1 & t & rvS & rvM & Hrun & Hf1 & _).
  destruct (traefik_Delete_quiet d' ns w1 Hf1) as (w2 & Hdel & _ & HS & HM & HC & _).
  pose proof (within_Deploy E d ns w) as (_ & HC1 & _ & _ & Hk & _).
  rewrite Hrun in HC1, Hk. cbn [snd] in HC1, Hk.
  exists w1, w2. split; [exact Hrun|]. split; [exact Hdel|].
  split; [|split; [|congruence]].
  - rewrite HS. apply map_eq. intros k. destruct (decide (k = deployKey E ns)) as [->|Hne].
    + by rewrite !lookup_delete_eq.
    + rewrite !lookup_delete_ne by done. apply (Hk k Hne).
  - rewrite HM. apply map_eq. intros k. destruct (decide (k = deployKey E ns)) as [->|Hne].
    + by rewrite !lookup_delete_eq.
    + rewrite !lookup_delete_ne by done. apply (Hk k Hne).
Qed.
End DeleteRuns.

(** ** The objects of the bundle *)

Section Builders.
Context (E : Env).

Lemma deployment_value_built (d : Deployer) (w : World) (deploy : appsv1.Deployment) :
  (deployment E d w).1 = inr deploy ->
  exists image, (deploymentImage E d w).1 = inr image
                /\ deploy = deploymentObject E d image (deploymentArgs d).
Proof.
  unfold deployment. run. destruct (deploymentImage E d w) as [[e|image] w0]; cbn.
  - discriminate.
  - intros [= <-]. by exists image.
Qed.

(** X9. The service, the network policy and the topology spread constraint
    select with the selector of the deployment; that selector is not empty,
    the pods of the deployment carry its labels, and the deployment, the
    service and the network policy are in one namespace. *)
Theorem workload_selected (d : Deployer) (w : World) (deploy : appsv1.Deployment) :
  (deployment E d w).1 = inr deploy ->
  appsv1.Selector (appsv1.Deployment_Spec deploy) = Some (serviceSelector E d)
  /\ networkingv1.NetworkPolicySpec_PodSelector
       (networkingv1.NetworkPolicy_Spec (networkPolicy E d)) = serviceSelector E d
  /\ Forall (fun c => corev1.TopologySpreadConstraint_LabelSelector c
                      = Some (serviceSelector E d))
       (corev1.TopologySpreadConstraints (podSpec deploy))
  /\ metav1.MatchLabels (serviceSelector E d) ⊆ podLabels deploy
  /\ metav1.MatchLabels (serviceSelector E d) <> ∅
  /\ metav1.Namespace (appsv1.Deployment_ObjectMeta deploy) = Namespace E
  /\ metav1.Namespace (corev1.Service_ObjectMeta (service E d)) = Namespace E
  /\ metav1.Namespace (networkingv1.NetworkPolicy_ObjectMeta (networkPolicy E d))
     = Namespace E.
Proof.
  intros Hb. destruct (deployment_value_built d w deploy Hb) as (image & _ & ->).
  repeat split.
  - by repeat constructor.
  - apply map_subseteq_spec. intros k v Hk. cbn in Hk.
    rewrite !lookup_insert_Some, lookup_empty in Hk.
    destruct Hk as [[<- <-]|[_ [[<- <-]|[_ ?]]]]; [by vm_compute..|done].
  - intros Hempty. apply (f_equal (fun m => m !! "app.kubernetes.io/name")) in Hempty.
    by vm_compute in Hempty.
Qed.

(** X10. The binding refers to the cluster role by its kind, name and API
    group, and binds it to the service account, by name and namespace, that
    the pods of the deployment run as, in the namespace of the deployment. *)
Theorem rbac_binding_resolves (d : Deployer) (w : World) (deploy : appsv1.Deployment) :
  (deployment E d w).1 = inr deploy ->
  let binding := clusterRoleBinding E d in
  let ref := rbacv1.ClusterRoleBinding_RoleRef binding in
  let account := serviceAccount E d in
  rbacv1.RoleRef_Kind ref = metav1.Kind (rbacv1.ClusterRole_TypeMeta (clusterRole d))
  /\ rbacv1.RoleRef_Name ref = metav1.Name (rbacv1.ClusterRole_ObjectMeta (clusterRole d))
  /\ rbacv1.RoleRef_APIGroup ref +:+ "/v1"
     = metav1.APIVersion (rbacv1.ClusterRole_TypeMeta (clusterRole d))
  /\ rbacv1.Subjects binding
     = [ {| rbacv1.Subject_Kind := metav1.Kind (corev1.ServiceAccount_TypeMeta account);
            rbacv1.Subject_Name := metav1.Name (corev1.ServiceAccount_ObjectMeta account);
            rbacv1.Subject_Namespace :=
              metav1.Namespace (corev1.ServiceAccount_ObjectMeta account) |} ]
  /\ corev1.PodSpec_ServiceAccountName (podSpec deploy)
     = metav1.Name (corev1.ServiceAccount_ObjectMeta account)
  /\ metav1.Namespace (appsv1.Deployment_ObjectMeta deploy)
     = metav1.Namespace (corev1.ServiceAccount_ObjectMeta account).
Proof.
  intros Hb. destruct (deployment_value_built d w deploy Hb) as (image & _ & ->).
  unfold clusterRole. by destruct (bool_decide _).
Qed.

(** X11. For every configuration, a rule of the cluster role grants only the
    verbs get, list and watch, the one rule apart that grants update on the
    status of ingresses. *)
Theorem clusterRole_read_only (d : Deployer) :
  Forall (fun rule => isReadOnly rule = true \/ rule = statusUpdateRule)
    (rbacv1.Rules (clusterRole d)).
Proof.
  unfold clusterRole. destruct (bool_decide _); cbn [rbacv1.Rules app].
  all: repeat (apply Forall_cons; split; [first [left; by vm_compute | by right]|]);
         constructor.
Qed.

(** X12. The ports of the workload agree: every container port is opened by
    an entry point flag of its name and number, every service port targets
    the container port of its own name, the three probes ask the port of the
    entry point that serves the ping, and the scrape annotation names the
    port of the entry point that serves the metrics. *)
Theorem entrypoints_consistent (d : Deployer) (w : World) (deploy : appsv1.Deployment) :
  (deployment E d w).1 = inr deploy ->
  exists c,
    workloadContainer deploy = Some c
    /\ Forall (fun p => entrypointFlag (corev1.ContainerPort_Name p)
                          (corev1.ContainerPort_ContainerPort p)
                        ∈ corev1.Container_Args c)
         (corev1.Container_Ports c)
    /\ Forall (fun sp => targetOf c sp = portNamed c (corev1.ServicePort_Name sp)
                         /\ is_Some (targetOf c sp))
         (corev1.ServiceSpec_Ports (corev1.Service_Spec (service E d)))
    /\ "--ping.entrypoint=web" ∈ corev1.Container_Args c
    /\ Forall (fun probe => is_Some (portNamed c "web")
                            /\ probedPort c probe = portNamed c "web")
         [corev1.StartupProbe c; corev1.LivenessProbe c; corev1.ReadinessProbe c]
    /\ "--metrics.prometheus.entrypoint=metrics" ∈ corev1.Container_Args c
    /\ podAnnotations deploy !! "prometheus.io/port" = pretty <$> portNamed c "metrics".
Proof.
  intros Hb. destruct (deployment_value_built d w deploy Hb) as (image & _ & ->).
  eexists. split; [reflexivity|]. cbn [corev1.Container_Args corev1.Container_Ports].
  assert (forall flag, flag ∈ ["--api.insecure=false"; "--api.dashboard=false"; "--ping=true";
                               "--ping.entrypoint=web"; "--metrics.prometheus=true";
                               "--metrics.prometheus.entrypoint=metrics";
                               "--entrypoints.web.address=:8000";
                               "--entrypoints.websecure.address=:8443";
                               "--entrypoints.metrics.address=:9100"; "--log.level=INFO"]
                       -> flag ∈ deploymentArgs d) as Hcommon.
  { intros flag Hin. unfold deploymentArgs. cbv zeta.
    repeat destruct (bool_decide _); apply elem_of_app; by left. }
  split; [|split; [|split; [|split; [|split]]]].
  - repeat (apply Forall_cons; split; [apply Hcommon; set_solver|]). constructor.
  - repeat (apply Forall_cons; split; [by split; [|eexists]|]). constructor.
  - apply Hcommon. set_solver.
  - repeat (apply Forall_cons; split; [by split; [eexists|]|]). constructor.
  - apply Hcommon. set_solver.
  - reflexivity.
Qed.

(** X13. The bundle of [generateResources]. When it succeeds, the image was
    resolved and the bundle holds the seven files of [manifests] and no
    other, each the encoding of the object built for it, the deployment with
    the resolved image; and it succeeds whenever the image is resolved and
    the codec encodes the seven objects. *)
Theorem generateResources_manifests (d : Deployer) (w : World) :
  (forall resources,
     (generateResources E d w).1 = inr resources ->
     exists image,
       (deploymentImage E d w).1 = inr image
       /\ dom resources = list_to_set (manifests E d image).*1
       /\ Forall (fun '(file, obj) =>
                    exists data, resources !! file = Some data /\ Encode E obj = inr data)
            (manifests E d image))
  /\ (forall image,
        (deploymentImage E d w).1 = inr image ->
        Forall (fun '(_, obj) => succeeded (Encode E obj) = true) (manifests E d image) ->
        succeeded (generateResources E d w).1 = true).
Proof.
  unfold generateResources, deployment. split.
  - intros resources.
    destruct (Encode E (runtime.OfServiceAccount _)) as [?|saData] eqn:Hsa; [done|].
    destruct (Encode E (runtime.OfClusterRole _)) as [?|crData] eqn:Hcr; [done|].
    destruct (Encode E (runtime.OfClusterRoleBinding _)) as [?|crbData] eqn:Hcrb; [done|].
    run. destruct (deploymentImage E d w) as [[?|image] w0]; [done|]. cbv beta iota.
    destruct (Encode E (runtime.OfDeployment _)) as [?|depData] eqn:Hdep; [done|].
    destruct (Encode E (runtime.OfService _)) as [?|svcData] eqn:Hsvc; [done|].
    destruct (Encode E (runtime.OfIngressClass _)) as [?|icData] eqn:Hic; [done|].
    destruct (Encode E (runtime.OfNetworkPolicy _)) as [?|npData] eqn:Hnp; [done|].
    cbn. intros [= <-]. exists image. split; [done|]. split.
    + rewrite !dom_insert_L, dom_empty_L. set_solver.
    + repeat (apply Forall_cons; split; [eexists; split; [|eassumption]; reflexivity|]).
      constructor.
  - intros image Hi Hall.
    unfold manifests in Hall. rewrite !Forall_cons in Hall.
    destruct Hall as (Hsa & Hcr & Hcrb & Hdep & Hsvc & Hic & Hnp & _).
    cbv beta iota in Hsa, Hcr, Hcrb, Hdep, Hsvc, Hic, Hnp.
    destruct (Encode E (runtime.OfServiceAccount _)); [done|].
    destruct (Encode E (runtime.OfClusterRole _)); [done|].
    destruct (Encode E (runtime.OfClusterRoleBinding _)); [done|].
    run. destruct (deploymentImage E d w) as [[?|image'] w0]; [done|]. cbn in Hi.
    injection Hi as ->. cbv beta iota.
    destruct (Encode E (runtime.OfDeployment _)); [done|].
    destruct (Encode E (runtime.OfService _)); [done|].
    destruct (Encode E (runtime.OfIngressClass _)); [done|].
    destruct (Encode E (runtime.OfNetworkPolicy _)); [done|].
    done.
Qed.

End Builders.

(** ** The actuator *)

(** X14. Whatever the provider configuration holds, and whether or not it
    decodes, the configuration [Reconcile] deploys with has a positive
    replica count, a non-empty ingress class and a non-empty provider. *)
Theorem parseConfig_never_empty (a : actuator.Actuator) (ex : extensionsv1alpha1.Extension)
    (w : World) :
  let cfg := (actuator.parseConfig a ex w).1 in
  (0 < Replicas cfg)%Z /\ IngressClass cfg <> "" /\ IngressProvider cfg <> "".
Proof.
  assert (forall cfg,
            let r := actuator.applyCustomConfiguration DefaultConfig cfg in
            (0 < Replicas r)%Z /\ IngressClass r <> "" /\ IngressProvider r <> "") as Happly.
  { intros cfg. unfold actuator.applyCustomConfiguration. cbv zeta.
    repeat case_bool_decide; cbn; repeat split; try done; lia. }
  unfold actuator.parseConfig. cbv zeta.
  destruct (extensionsv1alpha1.ProviderConfig _) as [providerConfig|]; [|by cbn].
  destruct (actuator.decoder a _) as [err|cfg]; run; cbn [fst]; [by cbn|apply Happly].
Qed.

Lemma parseConfig_run (a : actuator.Actuator) (ex : extensionsv1alpha1.Extension) :
  exists cfg t,
    (forall w, actuator.parseConfig a ex w = (cfg, after t w))
    /\ forallb isLogLine t = true.
Proof.
  unfold actuator.parseConfig.
  destruct (extensionsv1alpha1.ProviderConfig _) as [raw|].
  - destruct (actuator.decoder a _) as [err|cfg].
    + eexists _, [_]. split; [intros w; reflexivity|done].
    + eexists _, []. split; [intros w; by rewrite after_nil|done].
  - eexists _, []. split; [intros w; by rewrite after_nil|done].
Qed.

Lemma steps_bind_value {A B} (R : relation World) `{!PreOrder R} (Q : A -> Prop)
    (m : M A) (f : A -> M B) :
  (forall w, Q (m w).1) -> steps R m -> (forall a, Q a -> steps R (f a)) ->
  steps R (m ≫= f).
Proof.
  intros HQ Hm Hf w. unfold mbind, M_bind. specialize (Hm w). specialize (HQ w).
  destruct (m w) as [a w'] eqn:Hrun. cbn in Hm, HQ.
  etransitivity; [exact Hm|by apply Hf].
Qed.

Section ReconcileRuns.
Context (E : Env).

Lemma within_reconcile (a : actuator.Actuator) (ex : extensionsv1alpha1.Extension)
    (w0 : World) :
  steps (within (isReconcileCall E
                   (NewDeployer (actuator.parseConfig a ex w0).1 (actuator.imageVector a)) ex)
           (deployKey E (extensionsv1alpha1.Extension_Namespace ex)))
    (actuator.reconcile E a ex).
Proof.
  destruct (parseConfig_run a ex) as (cfg & t & Hparse & Ht). rewrite Hparse. cbn [fst].
  unfold actuator.reconcile. cbv zeta.
  apply steps_bind; [apply _|by apply within_emit|]. intros _.
  apply steps_bind; [apply _| |].
  { apply within_Get_Cluster. apply orb_true_iff. right. by apply bool_decide_eq_true_2. }
  intros [err|cluster]; [apply steps_ret; apply _|].
  destruct (v1beta1helper.HibernationIsEnabled _).
  { apply steps_bind; [apply _|by apply within_emit|]. intros _. apply steps_ret; apply _. }
  destruct (_ || _).
  { apply steps_bind; [apply _|by apply within_emit|]. intros _. apply steps_ret; apply _. }
  apply (steps_bind_value _ (fun c => c = cfg)).
  { intros w. by rewrite Hparse. }
  { intros w. rewrite Hparse. apply within_after.
    rewrite forallb_forall in *. intros e He. specialize (Ht e He). by destruct e. }
  intros cfg' ->. apply steps_bind; [apply _| |].
  { intros w. eapply within_mono; [|apply within_Deploy].
    intros e He. unfold isReconcileCall. by rewrite He. }
  intros [err|]; [apply steps_ret; apply _|].
  apply steps_bind; [apply _|by apply within_emit|]. intros _. apply steps_ret; apply _.
Qed.

Lemma Reconcile_within (a : actuator.Actuator) (ex : extensionsv1alpha1.Extension)
    (w : World) :
  exists t,
    trace (actuator.Reconcile E a ex w).2
      = trace w ++ t ++ [MetricInc (extensionsv1alpha1.Extension_Namespace ex) "reconcile"]
    /\ forallb (isReconcileCall E
                 (NewDeployer (actuator.parseConfig a ex w).1 (actuator.imageVector a)) ex) t
       = true
    /\ Clusters (store (actuator.Reconcile E a ex w).2) = Clusters (store w)
    /\ (forall k, k <> deployKey E (extensionsv1alpha1.Extension_Namespace ex) ->
          Secrets (store (actuator.Reconcile E a ex w).2) !! k = Secrets (store w) !! k
          /\ ManagedResources (store (actuator.Reconcile E a ex w).2) !! k
             = ManagedResources (store w) !! k).
Proof.
  destruct (within_reconcile a ex w w) as ((t & Ht & HP) & HC & _ & _ & Hk & _).
  unfold actuator.Reconcile. run.
  destruct (actuator.reconcile E a ex w) as [r w'] eqn:Hrun. cbn [snd store trace] in *.
  exists t. rewrite Ht, <- app_assoc. repeat split; try done; by apply Hk.
Qed.

(** X15. When the provider configuration decodes and names an image,
    [Reconcile] never consults the image vector, on any path. *)
Theorem Reconcile_image_override (a : actuator.Actuator) (ex : extensionsv1alpha1.Extension)
    (providerConfig : extensionsv1alpha1.RawExtension) (cfg : config.TraefikConfig)
    (w : World) :
  extensionsv1alpha1.ProviderConfig (extensionsv1alpha1.Extension_Spec ex)
    = Some providerConfig ->
  actuator.decoder a (extensionsv1alpha1.Raw providerConfig) = inr cfg ->
  config.Image (config.Spec cfg) <> "" ->
  exists t,
    trace (actuator.Reconcile E a ex w).2 = trace w ++ t
    /\ forallb (fun e => negb (isFindImage e)) t = true.
Proof.
  intros Hc Hd Hi. destruct (Reconcile_within a ex w) as (t & Ht & HP & _).
  exists (t ++ [MetricInc (extensionsv1alpha1.Extension_Namespace ex) "reconcile"]).
  split; [exact Ht|]. rewrite forallb_app, andb_true_r.
  rewrite forallb_forall in *. intros e He. specialize (HP e He).
  destruct e; try done. exfalso.
  unfold isReconcileCall, isDeployCall in HP. rewrite orb_false_r in HP.
  apply andb_true_iff in HP as [HP%bool_decide_eq_true _]. revert HP.
  unfold actuator.parseConfig. rewrite Hc, Hd. cbn [fst NewDeployer config].
  unfold actuator.applyCustomConfiguration. cbn.
  rewrite (bool_decide_eq_false_2 _ Hi). cbn. by repeat case_bool_decide.
Qed.

(** X16. When the Cluster object of the shoot is missing, [Reconcile]
    returns the error of the read, wrapped, which still answers
    [IsNotFound]; it has logged, read and counted, and nothing else. *)
Theorem Reconcile_cluster_missing (a : actuator.Actuator) (ex : extensionsv1alpha1.Extension)
    (w : World) :
  faults w = [] ->
  Clusters (store w) !! clusterKey ex = None ->
  exists e,
    actuator.Reconcile E a ex w
    = (Some (Errorf "failed to get cluster: " e ""),
       after [reconcilingLine ex; CallGet KindCluster (clusterKey ex);
              MetricInc (extensionsv1alpha1.Extension_Namespace ex) "reconcile"] w)
    /\ IsNotFound (Errorf "failed to get cluster: " e "") = true.
Proof.
  intros Hf Hl. unfold actuator.Reconcile, actuator.reconcile,
    extensionscontroller.GetCluster, Get. run.
  rewrite (call_quiet _ _) by exact Hf. cbn [store after table Cluster_Object].
  change ("", extensionsv1alpha1.Extension_Namespace ex) with (clusterKey ex).
  rewrite Hl. eexists. split.
  - unfold after. cbn [store faults trace]. by rewrite <- !app_assoc.
  - reflexivity.
Qed.

Lemma Reconcile_quiet (a : actuator.Actuator) (ex : extensionsv1alpha1.Extension)
    (w : World) (cluster : extensionsv1alpha1.Cluster) (resources : Bundle) :
  faults w = [] ->
  Clusters (store w) !! clusterKey ex = Some cluster ->
  v1beta1helper.HibernationIsEnabled (extensionsv1alpha1.Shoot cluster) = false ->
  purposeOf cluster = Some gardencorev1beta1.ShootPurposeEvaluation ->
  (generateResources E
     (NewDeployer (actuator.parseConfig a ex w).1 (actuator.imageVector a)) w).1
    = inr resources ->
  exists w' rvS rvM,
    actuator.Reconcile E a ex w = (None, w')
    /\ Secrets (store w') !! deployKey E (extensionsv1alpha1.Extension_Namespace ex)
       = Some (stamp rvS (deploySecret E (extensionsv1alpha1.Extension_Namespace ex)
                            resources))
    /\ ManagedResources (store w') !! deployKey E (extensionsv1alpha1.Extension_Namespace ex)
       = Some (stamp rvM (deployManagedResource E
                            (extensionsv1alpha1.Extension_Namespace ex)))
    /\ Clusters (store w') = Clusters (store w).
Proof.
  intros Hf Hl Hh Hp Hbuilt.
  destruct (parseConfig_run a ex) as (cfg & t & Hparse & Ht).
  rewrite Hparse in Hbuilt. cbn [fst] in Hbuilt.
  pose proof (Reconcile_within a ex w) as (_ & _ & _ & HC & _).
  revert HC.
  unfold actuator.Reconcile, actuator.reconcile. run.
  erewrite GetCluster_found; [|exact Hf|exact Hl]. cbv beta iota zeta.
  rewrite Hh. unfold purposeOf in Hp. rewrite Hp.
  rewrite bool_decide_eq_false_2 by done. rewrite bool_decide_eq_true_2 by done.
  cbn [negb orb]. rewrite Hparse.
  match goal with
  | |- context [Deploy E ?d ?ns ?w0] =>
      destruct (Deploy_quiet E d ns w0 resources) as (w1 & u & rvS & rvM & -> & _ & HS & HM & _)
  end; [exact Hf| |].
  { destruct (generateResources_built E _ w resources Hbuilt) as (u & Hg & _).
    by rewrite Hg. }
  cbn [snd store]. intros HC. eexists _, rvS, rvM. split; [reflexivity|]. by cbn [store].
Qed.
(** X17. With no failure injected, for a shoot of purpose "evaluation"
    that is not hibernated, and a bundle that is built, [Reconcile] returns
    no error and leaves in the store the secret of that bundle and the
    managed resource, under the key of the extension's namespace. *)
Theorem Reconcile_deploys (a : actuator.Actuator) (ex : extensionsv1alpha1.Extension)
    (w : World) (cluster : extensionsv1alpha1.Cluster) (resources : Bundle) :
  faults w = [] ->
  Clusters (store w) !! clusterKey ex = Some cluster ->
  v1beta1helper.HibernationIsEnabled (extensionsv1alpha1.Shoot cluster) = false ->
  purposeOf cluster = Some gardencorev1beta1.ShootPurposeEvaluation ->
  (generateResources E
     (NewDeployer (actuator.parseConfig a ex w).1 (actuator.imageVector a)) w).1
    = inr resources ->
  exists w' rvS rvM,
    actuator.Reconcile E a ex w = (None, w')
    /\ Secrets (store w') !! deployKey E (extensionsv1alpha1.Extension_Namespace ex)
       = Some (stamp rvS (deploySecret E (extensionsv1alpha1.Extension_Namespace ex)
                            resources))
    /\ ManagedResources (store w') !! deployKey E (extensionsv1alpha1.Extension_Namespace ex)
       = Some (stamp rvM (deployManagedResource E
                            (extensionsv1alpha1.Extension_Namespace ex)))
    /\ Clusters (store w') = Clusters (store w).
Proof.
  apply Reconcile_quiet.
Qed.

(** X18. On every path, whatever fails, [Reconcile] performs only the
    events of its [Deploy] and the read of the shoot's Cluster object,
    followed by one increment of the reconcile counter: it deletes nothing,
    leaves the Cluster objects as they are and leaves every object under a
    key other than that of the extension's namespace as it is. *)
Theorem Reconcile_effects (a : actuator.Actuator) (ex : extensionsv1alpha1.Extension)
    (w : World) :
  let w' := (actuator.Reconcile E a ex w).2 in
  let d := NewDeployer (actuator.parseConfig a ex w).1 (actuator.imageVector a) in
  (exists t,
     trace w' = trace w ++ t ++ [MetricInc (extensionsv1alpha1.Extension_Namespace ex)
                                   "reconcile"]
     /\ forallb (isReconcileCall E d ex) t = true)
  /\ Clusters (store w') = Clusters (store w)
  /\ (forall k, k <> deployKey E (extensionsv1alpha1.Extension_Namespace ex) ->
        Secrets (store w') !! k = Secrets (store w) !! k
        /\ ManagedResources (store w') !! k = ManagedResources (store w) !! k).
Proof.
  destruct (Reconcile_within a ex w) as (t & Ht & HP & Hc & Hk). cbv zeta.
  split; [by exists t|]. by split.
Qed.

End ReconcileRuns.

(** ** Reconciliation after a decode failure *)

Section DecodeFailure.
Context (E : Env).


End DecodeFailure.



Lemma metricIncs_none (P : Event -> bool) (t : list Event) :
  (forall e, P e = true -> isMetricInc e = false) ->
  forallb P t = true -> metricIncs t = [].
Proof.
  intros HP. induction t as [|e t IH]; [done|]. intros Hall. cbn in Hall.
  apply andb_true_iff in Hall as [He Ht].
  unfold metricIncs. rewrite filter_cons_False by (rewrite (HP e He); intros []). by apply IH.
Qed.

Section Deletion.
Context (E : Env).

Lemma actuator_Delete_run (a : actuator.Actuator) (ex : extensionsv1alpha1.Extension)
    (w : World) :
  actuator.Delete E a ex w =
    (let (deleted, w') :=
       traefik.Delete E (NewDeployer DefaultConfig (actuator.imageVector a))
         (extensionsv1alpha1.Extension_Namespace ex)
         (after [LogLine LevelInfo None "deleting traefik resources managed by extension"
                   [("cluster", extensionsv1alpha1.Extension_Namespace ex)]] w) in
     match deleted with
     | Some err =>
         (Some (Errorf "failed to delete traefik: " err ""),
          after [MetricInc (extensionsv1alpha1.Extension_Namespace ex) "delete"] w')
     | None =>
         (None,
          after [LogLine LevelInfo None "successfully deleted traefik resources"
                   [("cluster", extensionsv1alpha1.Extension_Namespace ex)];
                 MetricInc (extensionsv1alpha1.Extension_Namespace ex) "delete"] w')
     end).
Proof.
  unfold actuator.Delete. run. unfold after at 1. cbn [store faults trace].
  destruct (traefik.Delete E _ _ _) as [[err|] w']; unfold after; cbn [store faults trace];
    by rewrite <- ?app_assoc.
Qed.

Lemma actuator_ForceDelete_run (a : actuator.Actuator) (ex : extensionsv1alpha1.Extension)
    (w : World) :
  actuator.ForceDelete E a ex w =
    (let (deleted, w') :=
       traefik.Delete E (NewDeployer DefaultConfig (actuator.imageVector a))
         (extensionsv1alpha1.Extension_Namespace ex)
         (after [LogLine LevelInfo None
                   "shoot has been force-deleted, deleting traefik resources"
                   [("cluster", extensionsv1alpha1.Extension_Namespace ex)]] w) in
     match deleted with
     | Some err =>
         (Some (Errorf "failed to force-delete traefik: " err ""),
          after [MetricInc (extensionsv1alpha1.Extension_Namespace ex) "force_delete"] w')
     | None =>
         (None, after [MetricInc (extensionsv1alpha1.Extension_Namespace ex) "force_delete"] w')
     end).
Proof.
  unfold actuator.ForceDelete. run. unfold after at 1. cbn [store faults trace].
  destruct (traefik.Delete E _ _ _) as [[err|] w']; unfold after; cbn [store faults trace];
    by rewrite <- ?app_assoc.
Qed.

(** X19. The actuator's [Delete] and [ForceDelete] ask neither for the
    Cluster object nor for the shoot's purpose or hibernation: with no
    failure injected both succeed in every store, with the same two delete
    calls, and leave the same store, without the secret and the managed
    resource of the extension's namespace. *)
Theorem actuator_Delete_ungated (a : actuator.Actuator) (ex : extensionsv1alpha1.Extension)
    (w : World) :
  faults w = [] ->
  exists w' w'',
    actuator.Delete E a ex w = (None, w')
    /\ actuator.ForceDelete E a ex w = (None, w'')
    /\ store w'' = store w'
    /\ Secrets (store w')
       = delete (deployKey E (extensionsv1alpha1.Extension_Namespace ex)) (Secrets (store w))
    /\ ManagedResources (store w')
       = delete (deployKey E (extensionsv1alpha1.Extension_Namespace ex))
           (ManagedResources (store w))
    /\ Clusters (store w') = Clusters (store w)
    /\ clientCalls (trace w')
       = clientCalls (trace w)
         ++ [CallDelete KindManagedResource
               (deployKey E (extensionsv1alpha1.Extension_Namespace ex));
             CallDelete KindSecret (deployKey E (extensionsv1alpha1.Extension_Namespace ex))]
    /\ clientCalls (trace w'') = clientCalls (trace w').
Proof.
  intros Hf. rewrite actuator_Delete_run, actuator_ForceDelete_run.
  edestruct (traefik_Delete_quiet E (NewDeployer DefaultConfig (actuator.imageVector a))
               (extensionsv1alpha1.Extension_Namespace ex))
    as (w1 & -> & _ & HS & HM & HC & HV & HR & Ht); [|].
  { exact Hf. }
  edestruct (traefik_Delete_quiet E (NewDeployer DefaultConfig (actuator.imageVector a))
               (extensionsv1alpha1.Extension_Namespace ex))
    as (w2 & -> & _ & HS' & HM' & HC' & HV' & HR' & Ht'); [|].
  { exact Hf. }
  eexists _, _. split; [reflexivity|]. split; [reflexivity|].
  cbn [after store trace] in *.
  split.
  { destruct (store w1), (store w2). cbn in *. congruence. }
  repeat split; try done.
  - rewrite Ht. unfold clientCalls. rewrite !filter_app, <- !app_assoc. by f_equal.
  - rewrite Ht, Ht'. unfold clientCalls. rewrite !filter_app, <- !app_assoc. by f_equal.
Qed.
(** X20. When the deletion of the managed resource fails for another
    reason than "not found", the actuator's [Delete] returns that error,
    wrapped twice, leaves the store as it was and does not go on to delete
    the secret. *)
Theorem Delete_failure_stops (a : actuator.Actuator) (ex : extensionsv1alpha1.Extension)
    (w : World) (e : error) (fs : list (option error)) :
  faults w = Some e :: fs ->
  IsNotFound e = false ->
  exists t,
    actuator.Delete E a ex w
    = (Some (Errorf "failed to delete traefik: "
               (Errorf "failed to delete managed resource: " e "") ""),
       {| store := store w; faults := fs; trace := trace w ++ t |})
    /\ clientCalls t
       = [CallDelete KindManagedResource
            (deployKey E (extensionsv1alpha1.Extension_Namespace ex))].
Proof.
  intros Hf He. rewrite actuator_Delete_run.
  unfold traefik.Delete, client.Delete, call. run. cbn [after store faults trace].
  rewrite Hf. unfold IgnoreNotFound. rewrite He.
  eexists. split; [unfold after; cbn [store faults trace]; rewrite <- !app_assoc;
                   reflexivity|].
  reflexivity.
Qed.

(** X21. When the managed resource is deleted (or absent) and the deletion
    of the secret then fails for another reason than "not found", the
    actuator's [Delete] returns that error, wrapped twice; the managed
    resource is gone and the secrets are as they were. *)
Theorem Delete_second_failure (a : actuator.Actuator) (ex : extensionsv1alpha1.Extension)
    (w : World) (e : error) (fs : list (option error)) :
  faults w = None :: Some e :: fs ->
  IsNotFound e = false ->
  exists w',
    actuator.Delete E a ex w
    = (Some (Errorf "failed to delete traefik: "
               (Errorf "failed to delete secret: " e "") ""), w')
    /\ ManagedResources (store w')
       = delete (deployKey E (extensionsv1alpha1.Extension_Namespace ex))
           (ManagedResources (store w))
    /\ Secrets (store w') = Secrets (store w).
Proof.
  intros Hf He. rewrite actuator_Delete_run.
  unfold traefik.Delete, client.Delete, call. run. cbn [after store faults trace].
  rewrite Hf. cbv beta iota. cbn [store faults trace table ManagedResource_Object].
  change (ObjectKeyFromObject _) with (deployKey E (extensionsv1alpha1.Extension_Namespace ex)).
  destruct (ManagedResources (store w) !! deployKey E _) eqn:HM;
    cbn [store faults trace]; cbv beta iota;
    rewrite ?IgnoreNotFound_missing; cbn [store faults trace]; cbv beta iota;
    unfold IgnoreNotFound; rewrite He;
    eexists; (split; [reflexivity|]); cbn; split; try done.
  by rewrite delete_id.
Qed.

(** X22. On every path, whatever fails, each operation of the actuator
    increments its counter once, labelled with the extension's namespace:
    "reconcile", "delete" and "force_delete"; [Restore] and [Migrate] count
    the reconcile they run first and "restore" or "migrate" after it. *)
Theorem lifecycle_counters (a : actuator.Actuator) (ex : extensionsv1alpha1.Extension)
    (w : World) :
  let ns := extensionsv1alpha1.Extension_Namespace ex in
  (exists t, trace (actuator.Reconcile E a ex w).2 = trace w ++ t
             /\ metricIncs t = [MetricInc ns "reconcile"])
  /\ (exists t, trace (actuator.Delete E a ex w).2 = trace w ++ t
                /\ metricIncs t = [MetricInc ns "delete"])
  /\ (exists t, trace (actuator.ForceDelete E a ex w).2 = trace w ++ t
                /\ metricIncs t = [MetricInc ns "force_delete"])
  /\ (exists t, trace (actuator.Restore E a ex w).2 = trace w ++ t
                /\ metricIncs t = [MetricInc ns "reconcile"; MetricInc ns "restore"])
  /\ (exists t, trace (actuator.Migrate E a ex w).2 = trace w ++ t
                /\ metricIncs t = [MetricInc ns "reconcile"; MetricInc ns "migrate"]).
Proof.
  intros ns.
  assert (forall P t u, (forall e, P e = true -> isMetricInc e = false) ->
            forallb P t = true -> metricIncs (t ++ u) = metricIncs u) as Hquiet.
  { intros P t u HP Ht. unfold metricIncs. rewrite filter_app.
    fold (metricIncs t). by rewrite (metricIncs_none P t HP Ht). }
  assert (forall d e, isReconcileCall E d ex e = true -> isMetricInc e = false) as HR.
  { intros d e. by destruct e as [| | | | | |]. }
  assert (forall e, isDeleteCall E ns e = true -> isMetricInc e = false) as HD.
  { intros e. by destruct e. }
  destruct (Reconcile_within E a ex w) as (t & Ht & HP & _).
  assert (exists t, trace (actuator.Reconcile E a ex w).2 = trace w ++ t
                    /\ metricIncs t = [MetricInc ns "reconcile"]) as Hrec.
  { eexists. split; [exact Ht|]. by rewrite (Hquiet _ _ _ (HR _) HP). }
  split; [exact Hrec|]. split; [|split; [|split]].
  - rewrite actuator_Delete_run.
    destruct (within_Delete E (NewDeployer DefaultConfig (actuator.imageVector a)) ns
                (after [LogLine LevelInfo None
                          "deleting traefik resources managed by extension"
                          [("cluster", ns)]] w)) as ((t' & Ht' & HP') & _).
    fold ns. destruct (traefik.Delete E _ ns _) as [[err|] w']; cbn [snd after trace] in *;
      rewrite Ht', <- !app_assoc; (eexists; split; [reflexivity|]);
      unfold metricIncs; rewrite !filter_app; fold (metricIncs t');
      by rewrite (metricIncs_none _ t' HD HP').
  - rewrite actuator_ForceDelete_run.
    destruct (within_Delete E (NewDeployer DefaultConfig (actuator.imageVector a)) ns
                (after [LogLine LevelInfo None
                          "shoot has been force-deleted, deleting traefik resources"
                          [("cluster", ns)]] w)) as ((t' & Ht' & HP') & _).
    fold ns. destruct (traefik.Delete E _ ns _) as [[err|] w']; cbn [snd after trace] in *;
      rewrite Ht', <- !app_assoc; (eexists; split; [reflexivity|]);
      unfold metricIncs; rewrite !filter_app; fold (metricIncs t');
      by rewrite (metricIncs_none _ t' HD HP').
  - destruct Hrec as (u & Hu & Hm). unfold actuator.Restore. run.
    destruct (actuator.Reconcile E a ex w) as [r w']. cbn [snd trace] in *.
    eexists. rewrite Hu, <- app_assoc. split; [reflexivity|].
    unfold metricIncs in *. by rewrite filter_app, Hm.
  - destruct Hrec as (u & Hu & Hm). unfold actuator.Migrate. run.
    destruct (actuator.Reconcile E a ex w) as [r w']. cbn [snd trace] in *.
    eexists. rewrite Hu, <- app_assoc. split; [reflexivity|].
    unfold metricIncs in *. by rewrite filter_app, Hm.
Qed.
End Deletion.

(** ** [New] and its options *)

Section NewProps.
Context {Client : Type} (UniversalDecoder : Client -> actuatoroptions.Decoder).

Lemma applyOptions_provided (os : list ProvidedOption)
    (act : actuatoroptions.Actuator (Client := Client)) :
  actuatoroptions.applyOptions (provided <$> os) act
  = inr {| actuatoroptions.client := actuatoroptions.client act;
           actuatoroptions.decoder :=
             default (actuatoroptions.decoder act) (decoderGiven os);
           actuatoroptions.imageVector := actuatoroptions.imageVector act;
           actuatoroptions.gardenerVersion :=
             default (actuatoroptions.gardenerVersion act) (versionGiven os);
           actuatoroptions.gardenletFeatureGates :=
             default (actuatoroptions.gardenletFeatureGates act) (featuresGiven os) |}.
Proof.
  revert act. induction os as [|o os IH]; intros act; [by destruct act|].
  assert (forall {A} (x : A) l d, default d (last (x :: l)) = default x (last l)) as Hlast.
  { intros A x l. revert x. induction l as [|y l IHl]; intros x d; [done|].
    by rewrite last_cons_cons, (IHl y d), (IHl y x). }
  destruct o; cbn [fmap list_fmap provided actuatoroptions.applyOptions
                   actuatoroptions.WithDecoder actuatoroptions.WithGardenerVersion
                   actuatoroptions.WithGardenletFeatures]; rewrite IH;
    unfold actuatoroptions.setDecoder, actuatoroptions.setGardenerVersion,
      actuatoroptions.setGardenletFeatureGates;
    cbn [actuatoroptions.decoder actuatoroptions.client
      actuatoroptions.imageVector actuatoroptions.gardenerVersion
      actuatoroptions.gardenletFeatureGates];
    unfold decoderGiven, versionGiven, featuresGiven; cbn [omap list_omap];
    by rewrite ?Hlast.
Qed.

(** X23. [New] with options of the package. It fails exactly when the
    client or the image vector is nil, with an error that wraps
    [ErrInvalidActuator]; otherwise the actuator has that client and image
    vector, the last version and feature gates given (empty when none), and
    the last decoder given, or the strict decoder of the client's scheme
    when none or nil was given: its decoder is never nil. *)
Theorem New_provided_options (c : option Client) (iv : option imagevector.ImageVector)
    (os : list ProvidedOption) :
  match actuatoroptions.New UniversalDecoder c iv (provided <$> os) with
  | inl err =>
      (c = None \/ iv = None) /\ Is err actuatoroptions.ErrInvalidActuator = true
  | inr act =>
      exists cl images,
        c = Some cl /\ iv = Some images
        /\ actuatoroptions.client act = c
        /\ built act
           = Some {| actuator.decoder :=
                       match decoderGiven os with
                       | Some (Some d) => d
                       | _ => UniversalDecoder cl
                       end;
                     actuator.imageVector := images;
                     actuator.gardenerVersion := default "" (versionGiven os);
                     actuator.gardenletFeatureGates :=
                       match featuresGiven os with
                       | Some (Some feats) => feats
                       | Some None => ∅
                       | None => ∅
                       end |}
  end.
Proof.
  unfold actuatoroptions.New. destruct c as [cl|]; [|by split; [left|]].
  destruct iv as [images|]; [|by split; [right|]].
  rewrite applyOptions_provided. cbn [actuatoroptions.decoder actuatoroptions.client
    actuatoroptions.imageVector actuatoroptions.gardenerVersion
    actuatoroptions.gardenletFeatureGates].
  exists cl, images. split; [done|]. split; [done|].
  destruct (decoderGiven os) as [[d|]|], (featuresGiven os) as [[f|]|]; by cbn.
Qed.

End NewProps.

(** ** The shoot validator *)

Lemma hasTraefikExtension_exists (extensions : list validator.Extension) :
  validator.hasTraefikExtension extensions = true
  <-> Exists (fun ext => validator.Extension_Type ext = "traefik") extensions.
Proof.
  induction extensions as [|ext extensions IH]; cbn.
  - split; [done|]. by intros ?%Exists_nil.
  - rewrite Exists_cons. case_bool_decide; [by split; [left|]|].
    rewrite IH. split; [by right|]. by intros [|].
Qed.

Lemma validateShoot_verdict (shoot : validator.Shoot) :
  let purpose :=
    gardencorev1beta1.ShootSpec_Purpose
      (gardencorev1beta1.Shoot_Spec (validator.Shoot_Object shoot)) in
  (validator.validateShoot shoot = None
   <-> Forall (fun ext => validator.Extension_Type ext <> "traefik")
         (validator.Spec_Extensions shoot)
       \/ purpose = Some "evaluation")
  /\ (forall e, validator.validateShoot shoot = Some e ->
        exists before after,
          Error e = before +:+ "Current purpose: " +:+ default "nil" purpose +:+ after).
Proof.
  intros purpose. unfold validator.validateShoot. cbv zeta. fold purpose.
  destruct (validator.hasTraefikExtension _) eqn:Hhas; cbn [negb].
  - apply hasTraefikExtension_exists in Hhas.
    assert (~ Forall (fun ext => validator.Extension_Type ext <> "traefik")
              (validator.Spec_Extensions shoot)) as Hnot.
    { intros Hall. rewrite Forall_forall in Hall. apply Exists_exists in Hhas as (x & Hx & Ht).
      by apply (Hall x Hx). }
    destruct purpose as [p|]; cbn [orb negb bool_decide].
    + rewrite bool_decide_eq_false_2 by done. cbn [orb].
      unfold gardencorev1beta1.ShootPurposeEvaluation.
      case_bool_decide as Hp; cbn [negb].
      * split; [split; [by right|done]|done].
      * split; [split; [done|by intros [?|?]]|].
        intros e [= <-]. eexists _, _. cbn [Error default]. reflexivity.
    + rewrite bool_decide_eq_true_2 by done. cbn [orb].
      split; [split; [done|by intros [?|?]]|].
      intros e [= <-]. eexists _, _. cbn [Error default]. reflexivity.
  - split; [|done]. split; [|done]. intros _. left.
    apply Forall_forall. intros x Hx Ht.
    assert (validator.hasTraefikExtension (validator.Spec_Extensions shoot) = true);
      [|congruence].
    apply hasTraefikExtension_exists, Exists_exists. eauto.
Qed.

(** X24. [Validate] accepts an object exactly when it is a Shoot that
    either lists no extension of type "traefik" or has purpose
    "evaluation"; whether an extension is disabled and what the old object
    is play no part. The error for a rejected Shoot names its purpose, "nil"
    when it has none. *)
Theorem Validate_accepts (newClient old : validator.Object) :
  (validator.Validate newClient old = None
   <-> exists shoot,
         newClient = validator.OfShoot shoot
         /\ (Forall (fun ext => validator.Extension_Type ext <> "traefik")
               (validator.Spec_Extensions shoot)
             \/ gardencorev1beta1.ShootSpec_Purpose
                  (gardencorev1beta1.Shoot_Spec (validator.Shoot_Object shoot))
                = Some "evaluation"))
  /\ (forall shoot e,
        newClient = validator.OfShoot shoot ->
        validator.Validate newClient old = Some e ->
        exists before after,
          Error e
          = before +:+ "Current purpose: "
            +:+ default "nil" (gardencorev1beta1.ShootSpec_Purpose
                                 (gardencorev1beta1.Shoot_Spec
                                    (validator.Shoot_Object shoot)))
            +:+ after).
Proof.
  destruct newClient as [shoot|goType]; cbn [validator.Validate].
  - destruct (validateShoot_verdict shoot) as [Hacc Herr]. cbv zeta in Hacc, Herr. split.
    + rewrite Hacc. split; [by exists shoot|]. by intros (shoot' & [= <-] & Hok).
    + intros shoot' e [= <-]. apply Herr.
  - split; [|done]. split; [done|]. by intros (shoot & Hshoot & _).
Qed.

Section Agreement.
Context (E : Env).

(** X25. The webhook and the actuator agree. For a shoot that enables the
    Traefik extension and is not hibernated, with no failure injected and a
    bundle that is built, the validator accepts the shoot exactly when
    [Reconcile] succeeds; and an error of [Reconcile] is then
    [ErrShootPurposeNotEvaluation], wrapped, with the store left as it
    was. *)
Theorem validator_agrees_with_Reconcile (a : actuator.Actuator)
    (ex : extensionsv1alpha1.Extension) (w : World) (cluster : extensionsv1alpha1.Cluster)
    (shoot : validator.Shoot) (resources : Bundle) :
  faults w = [] ->
  Clusters (store w) !! clusterKey ex = Some cluster ->
  extensionsv1alpha1.Shoot cluster = validator.Shoot_Object shoot ->
  Exists (fun ext => validator.Extension_Type ext = "traefik")
    (validator.Spec_Extensions shoot) ->
  v1beta1helper.HibernationIsEnabled (extensionsv1alpha1.Shoot cluster) = false ->
  (generateResources E
     (NewDeployer (actuator.parseConfig a ex w).1 (actuator.imageVector a)) w).1
    = inr resources ->
  (validator.validateShoot shoot = None <-> (actuator.Reconcile E a ex w).1 = None)
  /\ (forall e, (actuator.Reconcile E a ex w).1 = Some e ->
        Is e actuator.ErrShootPurposeNotEvaluation = true
        /\ store (actuator.Reconcile E a ex w).2 = store w).
Proof.
  intros Hf Hc Hs Hext Hh Hg.
  destruct (validateShoot_verdict shoot) as [Hacc _]. cbv zeta in Hacc.
  rewrite <- Hs in Hacc. fold (purposeOf cluster) in Hacc.
  destruct (decide (purposeOf cluster = Some gardencorev1beta1.ShootPurposeEvaluation))
    as [Hp|Hp].
  - destruct (Reconcile_quiet E a ex w cluster resources Hf Hc Hh Hp Hg)
      as (w' & rvS & rvM & -> & _).
    cbn [fst]. split; [|done]. split; [done|]. intros _. apply Hacc. by right.
  - destruct (Reconcile_purpose_rejected E a ex w cluster Hf Hc Hh Hp)
      as (e & l & He & ->).
    cbn [fst snd]. split.
    + split; [|done]. intros [Hall|Hpur]%Hacc; [|done].
      rewrite Forall_forall in Hall. apply Exists_exists in Hext as (x & Hx & Ht).
      by destruct (Hall x Hx).
    + intros e' [= <-]. by split.
Qed.

End Agreement.

(** ** The helpers of the tests *)

Import traefik_test.

Lemma string_app_nil_l (s : string) : "" +:+ s = s.
Proof. reflexivity. Qed.

Lemma string_app_cons (c : Ascii.ascii) (s t : string) :
  String c s +:+ t = String c (s +:+ t).
Proof. reflexivity. Qed.

Lemma string_app_nil_r (s : string) : s +:+ "" = s.
Proof. induction s as [|c s IH]; [done|]. by rewrite string_app_cons, IH. Qed.

Lemma string_app_length (s t : string) :
  String.length (s +:+ t) = String.length s + String.length t.
Proof.
  induction s as [|c s IH]; [done|]. rewrite string_app_cons. cbn. by rewrite IH.
Qed.

Lemma substring_app_at (pre sub post : string) :
  String.substring (String.length pre) (String.length sub) (pre +:+ sub +:+ post) = sub.
Proof.
  induction pre as [|c pre IH]; [|by rewrite string_app_cons].
  rewrite string_app_nil_l. change (String.length "") with 0.
  induction sub as [|c sub IH]; [by destruct post|].
  rewrite string_app_cons. cbn. by rewrite IH.
Qed.

Lemma substring_split (s : string) (i n : nat) :
  i + n <= String.length s ->
  exists pre post, s = pre +:+ String.substring i n s +:+ post /\ String.length pre = i.
Proof.
  revert i n. induction s as [|c s IH]; intros i n Hlen; cbn in Hlen.
  - assert (i = 0) as -> by lia. assert (n = 0) as -> by lia. by exists "", "".
  - destruct i as [|i].
    + destruct n as [|n]; [by exists "", (String c s)|].
      destruct (IH 0 n) as (pre & post & Hs & Hpre); [lia|].
      destruct pre; [|done]. rewrite string_app_nil_l in Hs.
      exists "", post. rewrite string_app_nil_l. cbn. rewrite string_app_cons.
      split; [by f_equal|done].
    + destruct (IH i n) as (pre & post & Hs & Hpre); [lia|].
      exists (String c pre), post. rewrite string_app_cons. cbn. split; by f_equal.
Qed.

Lemma findSubstring_spec (s substr : string) :
  findSubstring s substr = true <-> exists pre post, s = pre +:+ substr +:+ post.
Proof.
  unfold findSubstring. rewrite existsb_exists. split.
  - intros (i & Hi & Heq). apply list_elem_of_In, elem_of_seqZ in Hi.
    apply bool_decide_eq_true in Heq. unfold slice, len in *.
    replace (Z.to_nat (i + _ - i)) with (String.length substr) in Heq by lia.
    destruct (substring_split s (Z.to_nat i) (String.length substr)) as (pre & post & Hs & _);
      [lia|].
    rewrite Heq in Hs. eauto.
  - intros (pre & post & ->). exists (len pre). split.
    + apply list_elem_of_In, elem_of_seqZ. unfold len. rewrite !string_app_length. lia.
    + apply bool_decide_eq_true. unfold slice, len.
      replace (Z.to_nat (_ + _ - _)) with (String.length substr) by lia.
      rewrite Nat2Z.id. apply substring_app_at.
Qed.

(** X26. [contains s substr] holds exactly when [substr] occurs in [s]. *)
Theorem contains_spec (s substr : string) :
  contains s substr = true <-> exists pre post, s = pre +:+ substr +:+ post.
Proof.
  unfold contains. rewrite andb_true_iff, !orb_true_iff, !andb_true_iff,
    !bool_decide_eq_true, findSubstring_spec. unfold len. split.
  - intros [_ [[Heq|Hz]|[_ Hfind]]]; [| |done].
    + subst s. exists "", "". by rewrite string_app_nil_l, string_app_nil_r.
    + destruct substr; [|cbn in Hz; lia]. by exists "", s.
  - intros (pre & post & ->). split; [rewrite !string_app_length; lia|].
    destruct substr as [|c substr]; [left; by right|].
    right. rewrite !string_app_length. cbn. repeat split; try lia. eauto.
Qed.

(** ** Witnesses of the further properties *)

Lemma workload_selected_witness :
  (deployment example.env example.deployer (example.seed None)).1 = inr scenarios.workload
  /\ metav1.MatchLabels (serviceSelector example.env example.deployer)
     ⊆ podLabels scenarios.workload.
Proof.
  assert ((deployment example.env example.deployer (example.seed None)).1
          = inr scenarios.workload) as Hb by (vm_compute; reflexivity).
  split; [exact Hb|].
  destruct (workload_selected example.env example.deployer (example.seed None)
              scenarios.workload Hb) as (_ & _ & _ & Hsub & _).
  exact Hsub.
Defined.

Lemma rbac_binding_resolves_witness :
  (deployment example.env example.deployer (example.seed None)).1 = inr scenarios.workload
  /\ corev1.PodSpec_ServiceAccountName (podSpec scenarios.workload)
     = metav1.Name (corev1.ServiceAccount_ObjectMeta
                      (serviceAccount example.env example.deployer)).
Proof.
  assert ((deployment example.env example.deployer (example.seed None)).1
          = inr scenarios.workload) as Hb by (vm_compute; reflexivity).
  split; [exact Hb|].
  destruct (rbac_binding_resolves example.env example.deployer (example.seed None)
              scenarios.workload Hb) as (_ & _ & _ & _ & Hname & _).
  exact Hname.
Defined.

Lemma entrypoints_consistent_witness :
  (deployment example.env example.deployer (example.seed None)).1 = inr scenarios.workload
  /\ exists c, workloadContainer scenarios.workload = Some c
               /\ "--ping.entrypoint=web" ∈ corev1.Container_Args c.
Proof.
  assert ((deployment example.env example.deployer (example.seed None)).1
          = inr scenarios.workload) as Hb by (vm_compute; reflexivity).
  split; [exact Hb|].
  destruct (entrypoints_consistent example.env example.deployer (example.seed None)
              scenarios.workload Hb) as (c & Hc & _ & _ & Hping & _).
  exists c. by split.
Defined.

Lemma Deploy_stores_checksum_witness :
  Deploy example.env example.deployer "shoot--local--a" (example.seed None)
    = (None, (Deploy example.env example.deployer "shoot--local--a" (example.seed None)).2)
  /\ exists secret,
       Secrets (store (Deploy example.env example.deployer "shoot--local--a"
                         (example.seed None)).2)
         !! deployKey example.env "shoot--local--a" = Some secret
       /\ metav1.Annotations (corev1.Secret_ObjectMeta secret) !! checksumAnnotation
          = Some (ComputeSecretChecksum example.env (corev1.Secret_Data secret)).
Proof.
  assert (Deploy example.env example.deployer "shoot--local--a" (example.seed None)
          = (None, (Deploy example.env example.deployer "shoot--local--a"
                      (example.seed None)).2)) as Hrun
    by (vm_compute; reflexivity).
  split; [exact Hrun|].
  destruct (Deploy_stores_checksum example.env example.deployer "shoot--local--a"
              (example.seed None) _ Hrun) as (secret & mr & HS & _ & _ & Ha & _).
  exists secret. by split.
Defined.

Lemma Deploy_converges_witness :
  faults (example.seed None) = []
  /\ exists w1,
       Deploy example.env example.deployer "shoot--local--a" (example.seed None) = (None, w1)
       /\ is_Some (Secrets (store w1) !! deployKey example.env "shoot--local--a")
       /\ is_Some (ManagedResources (store w1) !! deployKey example.env "shoot--local--a").
Proof.
  split; [reflexivity|].
  assert (exists resources,
            (generateResources example.env example.deployer (example.seed None)).1
            = inr resources) as [resources Hg]
    by (eexists; vm_compute; reflexivity).
  destruct (Deploy_converges example.env example.deployer "shoot--local--a"
              (example.seed None) resources eq_refl Hg)
    as (w1 & t & rvS & rvM & Hrun & HS & HM & _).
  exists w1. split; [exact Hrun|]. split; by eexists.
Defined.

Lemma Deploy_create_failure_witness :
  faults (scenarios.failing [Some scenarios.outage] (example.seed None))
    = [Some scenarios.outage]
  /\ IsAlreadyExists scenarios.outage = false
  /\ exists w',
       Deploy example.env example.deployer "shoot--local--a"
         (scenarios.failing [Some scenarios.outage] (example.seed None))
       = (Some (Errorf "failed to create secret: " scenarios.outage ""), w')
       /\ store w' = store (example.seed None).
Proof.
  split; [reflexivity|]. split; [reflexivity|].
  assert (exists resources,
            (generateResources example.env example.deployer
               (scenarios.failing [Some scenarios.outage] (example.seed None))).1
            = inr resources) as [resources Hg]
    by (eexists; vm_compute; reflexivity).
  destruct (Deploy_create_failure example.env example.deployer "shoot--local--a"
              (scenarios.failing [Some scenarios.outage] (example.seed None))
              resources scenarios.outage [] eq_refl eq_refl Hg) as (t & Hrun & _).
  eexists. split; [exact Hrun|reflexivity].
Defined.

Lemma Deploy_keeps_secret_on_failure_witness :
  faults (scenarios.failing [None; Some scenarios.outage] (example.seed None))
    = [None; Some scenarios.outage]
  /\ exists w',
       Deploy example.env example.deployer "shoot--local--a"
         (scenarios.failing [None; Some scenarios.outage] (example.seed None))
       = (Some (Errorf "failed to create managed resource: " scenarios.outage ""), w')
       /\ is_Some (Secrets (store w') !! deployKey example.env "shoot--local--a")
       /\ ManagedResources (store w') = ∅.
Proof.
  split; [reflexivity|].
  assert (exists resources,
            (generateResources example.env example.deployer
               (scenarios.failing [None; Some scenarios.outage] (example.seed None))).1
            = inr resources) as [resources Hg]
    by (eexists; vm_compute; reflexivity).
  destruct (Deploy_keeps_secret_on_failure example.env example.deployer "shoot--local--a"
              (scenarios.failing [None; Some scenarios.outage] (example.seed None))
              resources scenarios.outage [] eq_refl eq_refl eq_refl Hg)
    as (w' & rv & Hrun & HS & HM & _).
  exists w'. split; [exact Hrun|]. split; [by eexists|exact HM].
Defined.

Lemma Deploy_update_failure_witness :
  faults (scenarios.failing [None; None; Some scenarios.outage] scenarios.deployed)
    = [None; None; Some scenarios.outage]
  /\ exists w',
       Deploy example.env example.deployer "shoot--local--a"
         (scenarios.failing [None; None; Some scenarios.outage] scenarios.deployed)
       = (Some (Errorf "failed to update secret: " scenarios.outage ""), w')
       /\ store w' = store scenarios.deployed.
Proof.
  split; [reflexivity|].
  assert (exists old,
            Secrets (store (scenarios.failing [None; None; Some scenarios.outage]
                              scenarios.deployed))
              !! deployKey example.env "shoot--local--a" = Some old) as [old Hold]
    by (eexists; vm_compute; reflexivity).
  assert (exists resources,
            (generateResources example.env example.deployer
               (scenarios.failing [None; None; Some scenarios.outage]
                  scenarios.deployed)).1
            = inr resources) as [resources Hg]
    by (eexists; vm_compute; reflexivity).
  destruct (Deploy_update_failure example.env example.deployer "shoot--local--a"
              (scenarios.failing [None; None; Some scenarios.outage] scenarios.deployed)
              resources old scenarios.outage [] eq_refl Hold Hg) as (t & Hrun & _).
  eexists. split; [exact Hrun|reflexivity].
Defined.

Lemma Deploy_then_Delete_witness :
  faults (example.seed None) = []
  /\ exists w1 w2,
       Deploy example.env example.deployer "shoot--local--a" (example.seed None) = (None, w1)
       /\ traefik.Delete example.env example.deployer "shoot--local--a" w1 = (None, w2)
       /\ Secrets (store w2) = ∅ /\ ManagedResources (store w2) = ∅.
Proof.
  split; [reflexivity|].
  assert (exists resources,
            (generateResources example.env example.deployer (example.seed None)).1
            = inr resources) as [resources Hg]
    by (eexists; vm_compute; reflexivity).
  destruct (Deploy_then_Delete example.env example.deployer example.deployer
              "shoot--local--a" (example.seed None) resources eq_refl Hg)
    as (w1 & w2 & H1 & H2 & HS & HM & _).
  exists w1, w2. split; [exact H1|]. split; [exact H2|].
  split; [rewrite HS|rewrite HM]; apply delete_empty.
Defined.

Lemma Reconcile_deploys_witness :
  Clusters (store scenarios.evaluationSeed) !! clusterKey (example.extension None)
    = Some (example.shoot false (Some "evaluation"))
  /\ exists w',
       actuator.Reconcile example.env example.strictActuator (example.extension None)
         scenarios.evaluationSeed = (None, w')
       /\ is_Some (Secrets (store w') !! deployKey example.env "shoot--local--a").
Proof.
  assert (Clusters (store scenarios.evaluationSeed) !! clusterKey (example.extension None)
          = Some (example.shoot false (Some "evaluation"))) as Hc
    by (vm_compute; reflexivity).
  split; [exact Hc|].
  assert (exists resources,
            (generateResources example.env
               (NewDeployer
                  (actuator.parseConfig example.strictActuator (example.extension None)
                     scenarios.evaluationSeed).1
                  (actuator.imageVector example.strictActuator))
               scenarios.evaluationSeed).1
            = inr resources) as [resources Hg]
    by (eexists; vm_compute; reflexivity).
  destruct (Reconcile_deploys example.env example.strictActuator (example.extension None)
              scenarios.evaluationSeed _ resources eq_refl Hc eq_refl eq_refl Hg)
    as (w' & rvS & rvM & Hrun & HS & _).
  exists w'. split; [exact Hrun|by eexists].
Defined.

Lemma Reconcile_cluster_missing_witness :
  Clusters (store (example.seed None)) !! clusterKey (example.extension None) = None
  /\ exists e w',
       actuator.Reconcile example.env example.strictActuator (example.extension None)
         (example.seed None) = (Some e, w')
       /\ IsNotFound e = true.
Proof.
  split; [reflexivity|].
  destruct (Reconcile_cluster_missing example.env example.strictActuator
              (example.extension None) (example.seed None) eq_refl eq_refl)
    as (e & Hrun & He).
  eexists _, _. split; [exact Hrun|exact He].
Defined.

Lemma Reconcile_image_override_witness :
  config.Image (config.Spec (example.override "custom:v1" 0 "" "")) <> ""
  /\ exists t,
       trace (actuator.Reconcile example.env
                (scenarios.actuatorReading (example.override "custom:v1" 0 "" ""))
                (example.extension (Some [])) scenarios.evaluationSeed).2
       = t
       /\ forallb (fun e => negb (isFindImage e)) t = true.
Proof.
  assert (config.Image (config.Spec (example.override "custom:v1" 0 "" "")) <> "") as Hi
    by discriminate.
  split; [exact Hi|].
  destruct (Reconcile_image_override example.env
              (scenarios.actuatorReading (example.override "custom:v1" 0 "" ""))
              (example.extension (Some [])) {| extensionsv1alpha1.Raw := [] |}
              (example.override "custom:v1" 0 "" "") scenarios.evaluationSeed
              eq_refl eq_refl Hi) as (t & Ht & Hnone).
  exists t. split; [exact Ht|exact Hnone].
Defined.

Lemma actuator_Delete_ungated_witness :
  faults (example.seed None) = []
  /\ exists w' w'',
       actuator.Delete example.env example.strictActuator (example.extension None)
         (example.seed None) = (None, w')
       /\ actuator.ForceDelete example.env example.strictActuator (example.extension None)
            (example.seed None) = (None, w'')
       /\ store w'' = store w'.
Proof.
  split; [reflexivity|].
  destruct (actuator_Delete_ungated example.env example.strictActuator
              (example.extension None) (example.seed None) eq_refl)
    as (w' & w'' & H1 & H2 & Hs & _).
  exists w', w''. by repeat split.
Defined.

Lemma Delete_failure_stops_witness :
  IsNotFound scenarios.outage = false
  /\ exists w',
       actuator.Delete example.env example.strictActuator (example.extension None)
         (scenarios.failing [Some scenarios.outage] (example.seed None))
       = (Some (Errorf "failed to delete traefik: "
                  (Errorf "failed to delete managed resource: " scenarios.outage "") ""),
          w')
       /\ store w' = store (example.seed None).
Proof.
  split; [reflexivity|].
  destruct (Delete_failure_stops example.env example.strictActuator
              (example.extension None)
              (scenarios.failing [Some scenarios.outage] (example.seed None))
              scenarios.outage [] eq_refl eq_refl) as (t & Hrun & _).
  eexists. split; [exact Hrun|reflexivity].
Defined.

Lemma Delete_second_failure_witness :
  IsNotFound scenarios.outage = false
  /\ exists w',
       actuator.Delete example.env example.strictActuator (example.extension None)
         (scenarios.failing [None; Some scenarios.outage] (example.seed None))
       = (Some (Errorf "failed to delete traefik: "
                  (Errorf "failed to delete secret: " scenarios.outage "") ""),
          w')
       /\ Secrets (store w') = ∅.
Proof.
  split; [reflexivity|].
  destruct (Delete_second_failure example.env example.strictActuator
              (example.extension None)
              (scenarios.failing [None; Some scenarios.outage] (example.seed None))
              scenarios.outage [] eq_refl eq_refl) as (w' & Hrun & _ & HS).
  exists w'. split; [exact Hrun|exact HS].
Defined.

Lemma validator_agrees_with_Reconcile_witness :
  Exists (fun ext => validator.Extension_Type ext = "traefik")
    (validator.Spec_Extensions (scenarios.manifest (Some "evaluation")))
  /\ validator.validateShoot (scenarios.manifest (Some "evaluation")) = None
  /\ (actuator.Reconcile example.env example.strictActuator (example.extension None)
        scenarios.evaluationSeed).1 = None.
Proof.
  assert (Exists (fun ext => validator.Extension_Type ext = "traefik")
            (validator.Spec_Extensions (scenarios.manifest (Some "evaluation")))) as Hext
    by (apply Exists_cons_tl, Exists_cons_hd; reflexivity).
  assert (Clusters (store scenarios.evaluationSeed) !! clusterKey (example.extension None)
          = Some (example.shoot false (Some "evaluation"))) as Hc
    by (vm_compute; reflexivity).
  assert (exists resources,
            (generateResources example.env
               (NewDeployer
                  (actuator.parseConfig example.strictActuator (example.extension None)
                     scenarios.evaluationSeed).1
                  (actuator.imageVector example.strictActuator))
               scenarios.evaluationSeed).1
            = inr resources) as [resources Hg]
    by (eexists; vm_compute; reflexivity).
  destruct (validator_agrees_with_Reconcile example.env example.strictActuator
              (example.extension None) scenarios.evaluationSeed _
              (scenarios.manifest (Some "evaluation")) resources
              eq_refl Hc eq_refl Hext eq_refl Hg) as [Hiff _].
  split; [exact Hext|].
  assert (validator.validateShoot (scenarios.manifest (Some "evaluation")) = None) as Hv
    by (vm_compute; reflexivity).
  split; [exact Hv|]. apply Hiff, Hv.
Defined.
